(** * NMSimple: the SNMP polling engine of [network/snmp_worker.py]

    A shallow embedding of [SNMPWorker] and the properties of its table
    walks, interface-count estimate, VLAN and power resolution, value
    conversion and orchestration.

    Modelling conventions.
    - Python [int] is [Z]; Python [str] is [string], read as a sequence of
      code points below 256.
    - A Python exception is a value of [PyExc]; a computation that may raise
      has type [PyResult A]; [try ... except] is a [match] on the result.
    - A Python [dict] is an association list in insertion order
      ([dict_set] replaces in place, or appends a new key at the end), since
      the engine iterates over [dict.items()].
    - The pysnmp client library and the device behind it are the record
      [Agent]: one field per library entry point the engine calls.
    - A raw SNMP value is the record [RawValue] of what the engine observes
      of it: [int(value)], [str(value)] and [value.asOctets()]. *)

From Stdlib Require Import ZArith List String Ascii Bool Lia.
From Stdlib Require Import DecimalString DecimalPos.
Import ListNotations.

Local Open Scope string_scope.
Local Open Scope Z_scope.

(** ** Python results and exceptions *)

Inductive PyExc : Type :=
| ValueError
| TypeError
| IndexError
| KeyError
| OverflowError
| OtherError (msg : string).

Inductive PyResult (A : Type) : Type :=
| Ok (a : A)
| Raise (e : PyExc).

Arguments Ok {A} a.
Arguments Raise {A} e.

Definition bind {A B : Type} (c : PyResult A) (k : A -> PyResult B) : PyResult B :=
  match c with
  | Ok a => k a
  | Raise e => Raise e
  end.

Notation "x <- c ;; k" := (bind c (fun x => k))
  (at level 61, c at next level, right associativity).

(** [except (ValueError, IndexError)] *)
Definition is_value_or_index_error (e : PyExc) : bool :=
  match e with
  | ValueError | IndexError => true
  | _ => false
  end.

(** [except (ValueError, TypeError)] *)
Definition is_value_or_type_error (e : PyExc) : bool :=
  match e with
  | ValueError | TypeError => true
  | _ => false
  end.

(** [str(e)] of an exception, as used in the messages of [run];
    only the text of [OtherError] is carried by the model. *)
Definition str_of_exc (e : PyExc) : string :=
  match e with
  | ValueError => "ValueError"
  | TypeError => "TypeError"
  | IndexError => "IndexError"
  | KeyError => "KeyError"
  | OverflowError => "OverflowError"
  | OtherError msg => msg
  end.

(** ** Strings *)

(** [s.startswith(p)] *)
Definition startswith (s p : string) : bool := String.prefix p s.

Definition is_dot (c : ascii) : bool := Ascii.eqb c "."%char.

(** [s.split('.')] : always at least one piece. *)
Fixpoint split_dot_aux (cur : string) (s : string) : list string :=
  match s with
  | EmptyString => [cur]
  | String c rest =>
      if is_dot c then cur :: split_dot_aux EmptyString rest
      else split_dot_aux (cur ++ String c EmptyString) rest
  end.

Definition split_dot (s : string) : list string := split_dot_aux EmptyString s.

(** [l[-1]] *)
Definition py_last {A : Type} (l : list A) : PyResult A :=
  match rev l with
  | x :: _ => Ok x
  | [] => Raise IndexError
  end.

(** [l[-2]] *)
Definition py_last2 {A : Type} (l : list A) : PyResult A :=
  match rev l with
  | _ :: x :: _ => Ok x
  | _ => Raise IndexError
  end.

(** Unicode white space below code point 256, as [str.strip()] sees it. *)
Definition is_space (c : ascii) : bool :=
  let n := N_of_ascii c in
  ((9 <=? n) && (n <=? 13) || (28 <=? n) && (n <=? 32)
   || (n =? 133) || (n =? 160))%N.

Definition is_ascii_digit (c : ascii) : bool :=
  let n := N_of_ascii c in ((48 <=? n) && (n <=? 57))%N.

Definition digit_val (c : ascii) : Z := Z.of_N (N_of_ascii c) - 48.

Fixpoint lstrip (s : string) : string :=
  match s with
  | String c rest => if is_space c then lstrip rest else s
  | EmptyString => EmptyString
  end.

Fixpoint string_rev_aux (s acc : string) : string :=
  match s with
  | EmptyString => acc
  | String c rest => string_rev_aux rest (String c acc)
  end.

Definition string_rev (s : string) : string := string_rev_aux s EmptyString.

(** [s.strip()] *)
Definition strip (s : string) : string :=
  string_rev (lstrip (string_rev (lstrip s))).

(** Digits of a base-10 literal, after the sign: a non-empty run of digits
    in which single underscores may separate digits. [prev_digit] tells
    whether the previous character was a digit. *)
Fixpoint parse_digits (s : string) (acc : Z) (prev_digit : bool) : option Z :=
  match s with
  | EmptyString => if prev_digit then Some acc else None
  | String c rest =>
      if is_ascii_digit c then parse_digits rest (10 * acc + digit_val c) true
      else if Ascii.eqb c "_"%char then
        if prev_digit then parse_digits rest acc false else None
      else None
  end.

(** The white space [int(str)] skips around a literal, below code point
    256: tab to carriage return, the space, NEL and the no-break space. The
    separators [0x1c] to [0x1f], which [str.strip()] removes, are not among
    them. *)
Definition is_int_space (c : ascii) : bool :=
  let n := N_of_ascii c in
  ((9 <=? n) && (n <=? 13) || (n =? 32) || (n =? 133) || (n =? 160))%N.

Fixpoint int_lstrip (s : string) : string :=
  match s with
  | String c rest => if is_int_space c then int_lstrip rest else s
  | EmptyString => EmptyString
  end.

Definition int_strip (s : string) : string :=
  string_rev (int_lstrip (string_rev (int_lstrip s))).

(** [int(s)] for a string [s]: surrounding white space, an optional sign,
    decimal digits; anything else raises [ValueError]. *)
Definition py_int_of_str (s : string) : PyResult Z :=
  match int_strip s with
  | String "-"%char rest =>
      match parse_digits rest 0 false with
      | Some n => Ok (- n)
      | None => Raise ValueError
      end
  | String "+"%char rest =>
      match parse_digits rest 0 false with
      | Some n => Ok n
      | None => Raise ValueError
      end
  | t =>
      match parse_digits t 0 false with
      | Some n => Ok n
      | None => Raise ValueError
      end
  end.

(** [str(n)] for an integer [n] *)
Definition py_str_of_int (n : Z) : string :=
  NilZero.string_of_int (Z.to_int n).

(** [s.isdigit()] below code point 256: the ASCII digits and the
    superscripts one, two and three. *)
Definition is_digit_char (c : ascii) : bool :=
  let n := N_of_ascii c in
  (is_ascii_digit c || (n =? 178) || (n =? 179) || (n =? 185))%N.

Fixpoint all_chars (p : ascii -> bool) (s : string) : bool :=
  match s with
  | EmptyString => true
  | String c rest => p c && all_chars p rest
  end.

Definition isdigit (s : string) : bool :=
  match s with
  | EmptyString => false
  | _ => all_chars is_digit_char s
  end.

(** [int(name_str.split('.')[-1])] *)
Definition index_of_name (name_str : string) : PyResult Z :=
  seg <- py_last (split_dot name_str) ;; py_int_of_str seg.

(** [int(name_str.split('.')[-2])] *)
Definition index2_of_name (name_str : string) : PyResult Z :=
  seg <- py_last2 (split_dot name_str) ;; py_int_of_str seg.

(** ** Python dictionaries, in insertion order *)

Section Dict.
Context {K V : Type} (eqb : K -> K -> bool).

(** [d.get(k)] *)
Fixpoint dict_get (k : K) (d : list (K * V)) : option V :=
  match d with
  | [] => None
  | (k', v) :: rest => if eqb k k' then Some v else dict_get k rest
  end.

(** [d[k] = v]: an existing key keeps its position. *)
Fixpoint dict_set (k : K) (v : V) (d : list (K * V)) : list (K * V) :=
  match d with
  | [] => [(k, v)]
  | (k', v') :: rest =>
      if eqb k k' then (k', v) :: rest else (k', v') :: dict_set k v rest
  end.

(** [k in d] *)
Definition dict_mem (k : K) (d : list (K * V)) : bool :=
  match dict_get k d with
  | Some _ => true
  | None => false
  end.

(** [list(d.keys())] *)
Definition dict_keys (d : list (K * V)) : list K := map fst d.

(** [d.update(e)] *)
Definition dict_update (d e : list (K * V)) : list (K * V) :=
  fold_left (fun acc kv => dict_set (fst kv) (snd kv) acc) e d.
End Dict.

(** Dictionaries keyed by integers, and by strings. *)
Definition zdict (V : Type) : Type := list (Z * V).
Definition zget {V : Type} : Z -> zdict V -> option V := dict_get Z.eqb.
Definition zset {V : Type} : Z -> V -> zdict V -> zdict V := dict_set Z.eqb.
Definition zmem {V : Type} : Z -> zdict V -> bool := dict_mem Z.eqb.

Definition sdict (V : Type) : Type := list (string * V).
Definition sget {V : Type} : string -> sdict V -> option V := dict_get String.eqb.
Definition sset {V : Type} : string -> V -> sdict V -> sdict V := dict_set String.eqb.

(** [x in l] for a list of integers, of strings *)
Definition zin (x : Z) (l : list Z) : bool := existsb (Z.eqb x) l.
Definition sin (x : string) (l : list string) : bool := existsb (String.eqb x) l.

(** ** Raw SNMP values and typed values *)

(** What the engine observes of a value object of the client library:
    [int(value)], [str(value)], and [value.asOctets()] when the object has
    that attribute. *)
Record RawValue : Type := {
  as_int : PyResult Z;
  as_str : string;
  as_octets : option (list Byte.byte)
}.

Inductive TypedValue : Type :=
| VInt (n : Z)
| VStr (s : string).

(** ** The client library and the device *)

(** The 4-tuple returned by [get_cmd], [next_cmd] and [bulk_cmd]; each
    variable binding is given by [str(name)] and the value object. *)
Record SnmpResult : Type := {
  errorIndication : bool;
  errorStatus : bool;
  varBinds : list (string * RawValue)
}.

(** One fetch sees the device through these calls.
    - [create_target timeout retries] is [UdpTransportTarget.create].
    - [get_cmd oid] is the scalar read of [oid].
    - [next_cmd step cursor] is the [step]-th get-next request of the
      fallback count walk.
    - [bulk_cmd base page max_repetitions cursor] is the [page]-th bulk
      request of the walk rooted at [base]; the walks of different tables
      run concurrently and each sees its own sequence of responses, so the
      interleaving chosen by the event loop does not enter the model. *)
Record Agent : Type := {
  create_target : Z -> Z -> PyResult unit;
  get_cmd : string -> PyResult SnmpResult;
  next_cmd : nat -> string -> PyResult SnmpResult;
  bulk_cmd : string -> nat -> Z -> string -> PyResult SnmpResult
}.

(** [SNMPWorker.__init__]: the target of one fetch. *)
Record SNMPWorker : Type := {
  host : string;
  community : string;
  port : Z;
  timeout : Z;
  retries : Z
}.

Definition OID_MAPPING : sdict string :=
  [ ("ifDescr", "1.3.6.1.2.1.2.2.1.2");
    ("ifOperStatus", "1.3.6.1.2.1.2.2.1.8");
    ("ifAdminStatus", "1.3.6.1.2.1.2.2.1.7");
    ("ifInOctets", "1.3.6.1.2.1.2.2.1.10");
    ("ifOutOctets", "1.3.6.1.2.1.2.2.1.16");
    ("ifSpeed", "1.3.6.1.2.1.2.2.1.5");
    ("ifType", "1.3.6.1.2.1.2.2.1.3");
    ("ifPhysAddress", "1.3.6.1.2.1.2.2.1.6");
    ("sysUpTime", "1.3.6.1.2.1.1.3.0") ].

Definition VLAN_OID_MAPPING : sdict string :=
  [ ("dot1qVlanStaticName", "1.3.6.1.2.1.17.7.1.4.3.1.1");
    ("dot1qPvid", "1.3.6.1.2.1.17.7.1.4.5.1.1");
    ("dot1qVlanCurrentTable", "1.3.6.1.2.1.17.7.1.4.2.1.3");
    ("vmVlan", "1.3.6.1.4.1.9.9.68.1.2.2.1.2");
    ("vtpVlanName", "1.3.6.1.4.1.9.9.46.1.3.1.1.4.1");
    ("dot1dBasePortIfIndex", "1.3.6.1.2.1.17.1.4.1.2") ].

Definition POWER_OID_MAPPING : sdict string :=
  [ ("cethPsePortPower", "1.3.6.1.4.1.9.9.402.1.2.1.7");
    ("pethPsePortPowerConsumption", "1.3.6.1.2.1.105.1.1.1.4") ].

Definition oid_ifDescr : string := "1.3.6.1.2.1.2.2.1.2".
Definition oid_sysDescr0 : string := "1.3.6.1.2.1.1.1.0".
Definition oid_ifNumber0 : string := "1.3.6.1.2.1.2.1.0".
Definition oid_dot1qPvid : string := "1.3.6.1.2.1.17.7.1.4.5.1.1".
Definition oid_vmVlan : string := "1.3.6.1.4.1.9.9.68.1.2.2.1.2".
Definition oid_dot1qVlanStaticName : string := "1.3.6.1.2.1.17.7.1.4.3.1.1".
Definition oid_vtpVlanName : string := "1.3.6.1.4.1.9.9.46.1.3.1.1.4.1".

(** ** ValueCodec: [_convert_snmp_value] *)

Definition hex_digit (n : N) : ascii :=
  if (n <? 10)%N then ascii_of_N (48 + n) else ascii_of_N (87 + n).

(** [f'{b:02x}'] for a byte [b] *)
Definition hex2 (b : Byte.byte) : string :=
  let n := Byte.to_N b in
  String (hex_digit (n / 16)) (String (hex_digit (n mod 16)) EmptyString).

(** [sep.join(l)] *)
Fixpoint join (sep : string) (l : list string) : string :=
  match l with
  | [] => EmptyString
  | [x] => x
  | x :: rest => x ++ sep ++ join sep rest
  end.

Definition status_type_fields : list string :=
  ["ifOperStatus"; "ifAdminStatus"; "ifType"].
Definition counter_fields : list string :=
  ["ifInOctets"; "ifOutOctets"; "ifSpeed"].
Definition numeric_fields : list string :=
  ["ifInOctets"; "ifOutOctets"; "ifSpeed"; "ifOperStatus"; "ifAdminStatus"; "ifType"].

(** The body of the outer [try] of [_convert_snmp_value]. *)
Definition convert_body (oid_name : string) (value : RawValue) : PyResult TypedValue :=
  if sin oid_name status_type_fields then
    n <- as_int value ;; Ok (VInt n)
  else if sin oid_name counter_fields then
    match as_int value with
    | Ok n => Ok (VInt n)
    | Raise e => if is_value_or_type_error e then Ok (VInt 0) else Raise e
    end
  else if String.eqb oid_name "ifPhysAddress" then
    match as_octets value with
    | Some octets =>
        if (List.length octets =? 6)%nat
        then Ok (VStr (join ":" (map hex2 octets)))
        else Ok (VStr (as_str value))
    | None => Ok (VStr (as_str value))
    end
  else Ok (VStr (as_str value)).

Definition _convert_snmp_value (oid_name : string) (value : RawValue)
  : PyResult TypedValue :=
  match convert_body oid_name value with
  | Ok v => Ok v
  | Raise e =>
      if is_value_or_type_error e then
        if sin oid_name numeric_fields then Ok (VInt 0)
        else Ok (VStr (as_str value))
      else Raise e
  end.

(** ** ConnectivityProbe: [_test_connectivity] *)

Definition _test_connectivity (w : SNMPWorker) (a : Agent) : bool :=
  let body :=
    _ <- create_target a (timeout w) (retries w) ;;
    result <- get_cmd a oid_sysDescr0 ;;
    if errorIndication result then Ok false
    else if errorStatus result then Ok false
    else
      match varBinds result with
      | [] => Raise IndexError
      | _ :: _ => Ok true
      end in
  match body with
  | Ok b => b
  | Raise _ => false
  end.

(** ** BulkTableWalker: [_bulk_fetch_single_oid] *)

Record WalkState : Type := {
  oid_data : zdict TypedValue;
  current_oid : string;
  interfaces_found : Z;
  found_in_batch : bool
}.

(** The [for varBind in varBinds] loop over one page. The result carries the
    state reached and the exception that left the loop, if any. *)
Fixpoint walk_page (oid_name oid_base : string)
    (vbs : list (string * RawValue)) (st : WalkState)
  : WalkState * option PyExc :=
  match vbs with
  | [] => (st, None)
  | (name_str, val) :: rest =>
      if negb (startswith name_str oid_base) then (st, None)
      else
        match index_of_name name_str with
        | Raise e =>
            if is_value_or_index_error e
            then walk_page oid_name oid_base rest st
            else (st, Some e)
        | Ok if_index =>
            match _convert_snmp_value oid_name val with
            | Raise e =>
                if is_value_or_index_error e
                then walk_page oid_name oid_base rest st
                else (st, Some e)
            | Ok v =>
                walk_page oid_name oid_base rest
                  {| oid_data := zset if_index v (oid_data st);
                     current_oid := name_str;
                     interfaces_found := interfaces_found st + 1;
                     found_in_batch := true |}
            end
        end
  end.

Definition start_page (st : WalkState) : WalkState :=
  {| oid_data := oid_data st;
     current_oid := current_oid st;
     interfaces_found := interfaces_found st;
     found_in_batch := false |}.

(** The [while interfaces_found < max_interfaces] loop. Every iteration that
    does not leave the loop raises [interfaces_found], so
    [max_interfaces - interfaces_found] iterations are enough
    (lemma [walk_loop_fuel]). *)
Fixpoint walk_loop (fuel : nat) (a : Agent) (oid_name oid_base : string)
    (max_interfaces : Z) (page : nat) (st : WalkState) : zdict TypedValue :=
  match fuel with
  | O => oid_data st
  | S fuel' =>
      if interfaces_found st <? max_interfaces then
        match bulk_cmd a oid_base page 10 (current_oid st) with
        | Raise _ => oid_data st
        | Ok result =>
            if errorIndication result then oid_data st
            else if errorStatus result then oid_data st
            else
              match varBinds result with
              | [] => oid_data st
              | vbs =>
                  match walk_page oid_name oid_base vbs (start_page st) with
                  | (st', Some _) => oid_data st'
                  | (st', None) =>
                      if found_in_batch st'
                      then walk_loop fuel' a oid_name oid_base max_interfaces
                             (S page) st'
                      else oid_data st'
                  end
              end
        end
      else oid_data st
  end.

Definition walk_init (oid_base : string) : WalkState :=
  {| oid_data := [];
     current_oid := oid_base;
     interfaces_found := 0;
     found_in_batch := false |}.

Definition _bulk_fetch_single_oid (a : Agent) (oid_name : string)
    (max_interfaces : Z) : PyResult (zdict TypedValue) :=
  match sget oid_name OID_MAPPING with
  | None => Raise KeyError
  | Some oid_base =>
      Ok (walk_loop (Z.to_nat max_interfaces) a oid_name oid_base
            max_interfaces 0 (walk_init oid_base))
  end.

(** ** InterfaceCountEstimator: [_get_interface_count] and its fallback *)

(** The [for _ in range(32)] loop of [_estimate_interface_count];
    [n] iterations remain, [step] requests were sent. *)
Fixpoint estimate_loop (a : Agent) (n : nat) (step : nat) (count : Z)
    (cur : string) : PyResult Z :=
  match n with
  | O => Ok count
  | S n' =>
      result <- next_cmd a step cur ;;
      if errorIndication result || errorStatus result then Ok count
      else
        match varBinds result with
        | [] => Raise IndexError
        | (name, _) :: _ =>
            if negb (startswith name oid_ifDescr) then Ok count
            else estimate_loop a n' (S step) (count + 1) name
        end
  end.

Definition _estimate_interface_count (a : Agent) : Z :=
  let body :=
    _ <- create_target a 1 0 ;;
    estimate_loop a 32 0 0 oid_ifDescr in
  match body with
  | Ok count => Z.max count 10
  | Raise _ => 20
  end.

Definition _get_interface_count (w : SNMPWorker) (a : Agent) : Z :=
  let body :=
    _ <- create_target a (timeout w) (retries w) ;;
    result <- get_cmd a oid_ifNumber0 ;;
    if negb (errorIndication result) && negb (errorStatus result) then
      match varBinds result with
      | [] => Raise IndexError
      | (_, v) :: _ => count <- as_int v ;; Ok (Z.min (count + 5) 64)
      end
    else Ok (_estimate_interface_count a) in
  match body with
  | Ok n => n
  | Raise _ => 20
  end.

(** ** InterfaceDataAggregator: [_bulk_fetch_interface_data] *)

Definition core_oids : list string :=
  ["ifDescr"; "ifOperStatus"; "ifAdminStatus";
   "ifInOctets"; "ifOutOctets"; "ifSpeed"; "ifType"; "ifPhysAddress"].

(** One step of [for if_index, value in result.items()]. *)
Definition merge_entry (oid_name : string)
    (interface_data : zdict (sdict TypedValue)) (kv : Z * TypedValue)
  : zdict (sdict TypedValue) :=
  let if_index := fst kv in
  let d1 := if zmem if_index interface_data then interface_data
            else zset if_index [] interface_data in
  match zget if_index d1 with
  | Some fields => zset if_index (sset oid_name (snd kv) fields) d1
  | None => d1
  end.

(** One step of [for i, result in enumerate(results)]. *)
Definition merge_result (interface_data : zdict (sdict TypedValue))
    (r : string * PyResult (zdict TypedValue)) : zdict (sdict TypedValue) :=
  match snd r with
  | Raise _ => interface_data
  | Ok result => fold_left (merge_entry (fst r)) result interface_data
  end.

(** [asyncio.gather] over the fetch tasks with [return_exceptions=True],
    each result paired with its field name. *)
Definition gather_walks (a : Agent) (max_interfaces : Z)
  : list (string * PyResult (zdict TypedValue)) :=
  map (fun oid_name => (oid_name, _bulk_fetch_single_oid a oid_name max_interfaces))
      core_oids.

Definition _bulk_fetch_interface_data (w : SNMPWorker) (a : Agent)
    (max_interfaces : Z) : zdict (sdict TypedValue) :=
  match create_target a (timeout w) (retries w) with
  | Raise _ => []
  | Ok _ => fold_left merge_result (gather_walks a max_interfaces) []
  end.

(** ** VlanResolver: [_get_vlan_data_bulk] *)

Definition nonempty {A : Type} (l : list A) : bool :=
  match l with
  | [] => false
  | _ :: _ => true
  end.

(** [not errorIndication and not errorStatus and varBinds] *)
Definition usable (result : SnmpResult) : bool :=
  negb (errorIndication result) && negb (errorStatus result)
  && nonempty (varBinds result).

(** The page loop shared, up to the table prefix, by [_fetch_pvid_data] and
    [_fetch_cisco_vlan_data]. *)
Fixpoint vlan_id_page (oid : string) (interface_indices : list Z)
    (vbs : list (string * RawValue)) (data : zdict string)
  : zdict string * option PyExc :=
  match vbs with
  | [] => (data, None)
  | (name_str, val) :: rest =>
      if negb (startswith name_str oid)
      then vlan_id_page oid interface_indices rest data
      else
        match (idx <- index_of_name name_str ;;
               vlan_id <- as_int val ;; Ok (idx, vlan_id)) with
        | Raise e =>
            if is_value_or_index_error e
            then vlan_id_page oid interface_indices rest data
            else (data, Some e)
        | Ok (idx, vlan_id) =>
            if zin idx interface_indices
            then vlan_id_page oid interface_indices rest
                   (zset idx (py_str_of_int vlan_id) data)
            else vlan_id_page oid interface_indices rest data
        end
  end.

Definition fetch_vlan_id_table (a : Agent) (oid : string)
    (interface_indices : list Z) : zdict string :=
  match bulk_cmd a oid 0 20 oid with
  | Raise _ => []
  | Ok result =>
      if usable result
      then fst (vlan_id_page oid interface_indices (varBinds result) [])
      else []
  end.

Definition _fetch_pvid_data (a : Agent) (interface_indices : list Z)
  : zdict string :=
  fetch_vlan_id_table a oid_dot1qPvid interface_indices.

Definition _fetch_cisco_vlan_data (a : Agent) (interface_indices : list Z)
  : zdict string :=
  fetch_vlan_id_table a oid_vmVlan interface_indices.

(** The page loop of [_fetch_vlan_names]; [id_of] is the segment of the
    identifier that holds the VLAN id ([-1] in the standard table, [-2] in
    the vendor table). *)
Fixpoint vlan_names_page (oid : string) (id_of : string -> PyResult Z)
    (vbs : list (string * RawValue)) (vlan_names : zdict string)
  : zdict string * option PyExc :=
  match vbs with
  | [] => (vlan_names, None)
  | (name_str, val) :: rest =>
      if negb (startswith name_str oid)
      then vlan_names_page oid id_of rest vlan_names
      else
        match id_of name_str with
        | Raise e =>
            if is_value_or_index_error e
            then vlan_names_page oid id_of rest vlan_names
            else (vlan_names, Some e)
        | Ok vlan_id =>
            let vlan_name := strip (as_str val) in
            if nonempty (list_ascii_of_string vlan_name)
            then vlan_names_page oid id_of rest (zset vlan_id vlan_name vlan_names)
            else vlan_names_page oid id_of rest vlan_names
        end
  end.

Definition _fetch_vlan_names (a : Agent) : zdict string :=
  let first :=
    match bulk_cmd a oid_dot1qVlanStaticName 0 50 oid_dot1qVlanStaticName with
    | Raise e => ([], Some e)
    | Ok result =>
        if usable result
        then vlan_names_page oid_dot1qVlanStaticName index_of_name
               (varBinds result) []
        else ([], None)
    end in
  match first with
  | (vlan_names, None) => vlan_names
  | (vlan_names, Some _) =>
      match bulk_cmd a oid_vtpVlanName 0 50 oid_vtpVlanName with
      | Raise _ => vlan_names
      | Ok result =>
          if usable result
          then fst (vlan_names_page oid_vtpVlanName index2_of_name
                      (varBinds result) vlan_names)
          else vlan_names
      end
  end.

(** Method 2 merge: [if if_index not in vlan_data: vlan_data[if_index] = vlan_info] *)
Definition merge_missing (vlan_data : zdict string) (kv : Z * string)
  : zdict string :=
  if zmem (fst kv) vlan_data then vlan_data
  else zset (fst kv) (snd kv) vlan_data.

(** Method 3 loop over [vlan_data.items()]. *)
Fixpoint enhance_loop (vlan_names : zdict string) (items : list (Z * string))
    (vlan_data : zdict string) : zdict string * option PyExc :=
  match items with
  | [] => (vlan_data, None)
  | (if_index, vlan_info) :: rest =>
      if isdigit vlan_info then
        match py_int_of_str vlan_info with
        | Raise e => (vlan_data, Some e)
        | Ok vlan_id =>
            match zget vlan_id vlan_names with
            | Some nm =>
                enhance_loop vlan_names rest
                  (zset if_index (py_str_of_int vlan_id ++ " (" ++ nm ++ ")")
                        vlan_data)
            | None => enhance_loop vlan_names rest vlan_data
            end
        end
      else enhance_loop vlan_names rest vlan_data
  end.

(** [for index in interface_indices: if index not in d: d[index] = "N/A"] *)
Definition fill_na (interface_indices : list Z) (d : zdict string) : zdict string :=
  fold_left (fun acc index => if zmem index acc then acc else zset index "N/A" acc)
            interface_indices d.

(** [len(vlan_data) < len(interface_indices) / 2], the quotient being exact
    in halves. *)
Definition below_half (vlan_data : zdict string) (interface_indices : list Z) : bool :=
  2 * Z.of_nat (List.length vlan_data) <? Z.of_nat (List.length interface_indices).

(** The [try] block of [_get_vlan_data_bulk]: the dictionary built so far and
    the exception that ended the block, if any. *)
Definition vlan_try (a : Agent) (interface_indices : list Z)
  : zdict string * option PyExc :=
  match create_target a 2 1 with
  | Raise e => ([], Some e)
  | Ok _ =>
      let pvid_data := _fetch_pvid_data a interface_indices in
      let vlan_data1 :=
        if nonempty pvid_data then dict_update Z.eqb [] pvid_data else [] in
      let vlan_data2 :=
        if negb (nonempty vlan_data1) || below_half vlan_data1 interface_indices
        then
          let cisco_vlan_data := _fetch_cisco_vlan_data a interface_indices in
          if nonempty cisco_vlan_data
          then fold_left merge_missing cisco_vlan_data vlan_data1
          else vlan_data1
        else vlan_data1 in
      if nonempty vlan_data2 then
        let vlan_names := _fetch_vlan_names a in
        if nonempty vlan_names
        then enhance_loop vlan_names vlan_data2 vlan_data2
        else (vlan_data2, None)
      else (vlan_data2, None)
  end.

Definition _get_vlan_data_bulk (a : Agent) (interface_indices : list Z)
  : PyResult (zdict string) :=
  Ok (fill_na interface_indices (fst (vlan_try a interface_indices))).

(** ** PowerResolver: [_get_power_data_bulk] *)

(** Nearest integer to [p / q] for [q > 0], ties to even. *)
Definition round_half_even (p q : Z) : Z :=
  let d := p / q in
  let r2 := 2 * (p mod q) in
  if r2 <? q then d
  else if q <? r2 then d + 1
  else if Z.even d then d else d + 1.

(** A finite positive Python [float] (binary64): the number [mant * 2^expo]
    with [mant < 2^53]. *)
Record PyFloat : Type := { mant : Z; expo : Z }.

(** [floor (a / (b * 2^e))] and its nearest integer, for any sign of [e]. *)
Definition floor_scaled (a b e : Z) : Z :=
  if 0 <=? e then a / (b * 2 ^ e) else (a * 2 ^ (- e)) / b.

Definition round_scaled (a b e : Z) : Z :=
  if 0 <=? e then round_half_even a (b * 2 ^ e)
  else round_half_even (a * 2 ^ (- e)) b.

(** [a / b] for integers [a > 0] and [b > 0] (the only use the engine makes
    of true division): the binary64 number nearest to the quotient, ties to
    even; [OverflowError] when it exceeds the largest finite float. *)
Definition py_truediv (a b : Z) : PyResult PyFloat :=
  let e0 := Z.log2 a - Z.log2 b - 52 in
  let e1 := if floor_scaled a b e0 <? 2 ^ 52 then e0 - 1 else e0 in
  let e := Z.max e1 (-1074) in
  let m := round_scaled a b e in
  let '(m', e') := if m =? 2 ^ 53 then (2 ^ 52, e + 1) else (m, e) in
  if 971 <? e' then Raise OverflowError
  else Ok {| mant := m'; expo := e' |}.

(** [f'{x:.1f}'] for a float [x >= 0]: the decimal with one fractional
    digit nearest to the exact value of [x], ties to even. *)
Definition format_1f (x : PyFloat) : string :=
  let n := if 0 <=? expo x then 10 * mant x * 2 ^ expo x
           else round_half_even (10 * mant x) (2 ^ (- expo x)) in
  py_str_of_int (n / 10) ++ "." ++ py_str_of_int (n mod 10).

(** The rendering of one reading:
    [f"{power_value / 1000:.1f}W"] if [power_value > 0], else ["0W"]. *)
Definition render_power (power_value : Z) : PyResult string :=
  if 0 <? power_value then
    x <- py_truediv power_value 1000 ;; Ok (format_1f x ++ "W")
  else Ok "0W".

(** The page loop of [_get_power_data_bulk] for the prefix [power_oid]. *)
Fixpoint power_page (power_oid : string) (interface_indices : list Z)
    (vbs : list (string * RawValue)) (power_data : zdict string)
  : zdict string * option PyExc :=
  match vbs with
  | [] => (power_data, None)
  | (name_str, val) :: rest =>
      if negb (startswith name_str power_oid)
      then power_page power_oid interface_indices rest power_data
      else
        let step :=
          if_index <- index_of_name name_str ;;
          if zin if_index interface_indices then
            power_value <- as_int val ;;
            s <- render_power power_value ;;
            Ok (zset if_index s power_data)
          else Ok power_data in
        match step with
        | Raise e =>
            if is_value_or_index_error e
            then power_page power_oid interface_indices rest power_data
            else (power_data, Some e)
        | Ok power_data' =>
            power_page power_oid interface_indices rest power_data'
        end
  end.

(** The loop over [POWER_OID_MAPPING.items()]. The second component of the
    result records the prefix at which the loop was left by [break] (the
    winning prefix), [None] when the loop ran to its end. *)
Fixpoint power_loop (a : Agent) (interface_indices : list Z)
    (oids : list (string * string)) (power_data : zdict string)
  : zdict string * option string :=
  match oids with
  | [] => (power_data, None)
  | (_, power_oid) :: rest =>
      match bulk_cmd a power_oid 0 20 power_oid with
      | Raise _ => power_loop a interface_indices rest power_data
      | Ok result =>
          if usable result then
            match power_page power_oid interface_indices (varBinds result)
                    power_data with
            | (power_data', Some _) =>
                power_loop a interface_indices rest power_data'
            | (power_data', None) =>
                if nonempty power_data' then (power_data', Some power_oid)
                else power_loop a interface_indices rest power_data'
            end
          else power_loop a interface_indices rest power_data
      end
  end.

(** The [try] block of [_get_power_data_bulk]. *)
Definition power_try (a : Agent) (interface_indices : list Z)
  : zdict string * option string :=
  match create_target a 1 0 with
  | Raise _ => ([], None)
  | Ok _ => power_loop a interface_indices POWER_OID_MAPPING []
  end.

Definition _get_power_data_bulk (a : Agent) (interface_indices : list Z)
  : PyResult (zdict string) :=
  Ok (fill_na interface_indices (fst (power_try a interface_indices))).

(** The prefix whose readings the result holds, if the loop stopped at one. *)
Definition winning_prefix (a : Agent) (interface_indices : list Z) : option string :=
  snd (power_try a interface_indices).

(** ** Orchestrator: [_fetch_interface_data] and [run] *)

Record InterfaceRecord : Type := {
  Index : Z;
  Description : TypedValue;
  OpStatus : TypedValue;
  AdminStatus : TypedValue;
  VLAN : string;
  InOctets : TypedValue;
  OutOctets : TypedValue;
  Speed : TypedValue;
  Type' : TypedValue;
  PhysAddress : TypedValue;
  Power : string
}.

(** [d.get(k, default)] *)
Definition get_default {K V : Type} (eqb : K -> K -> bool) (k : K) (default : V)
    (d : list (K * V)) : V :=
  match dict_get eqb k d with
  | Some v => v
  | None => default
  end.

(** The body of [for if_index, data in interface_data.items()]. *)
Definition assemble (vlan_data power_data : zdict string)
    (entry : Z * sdict TypedValue) : InterfaceRecord :=
  let if_index := fst entry in
  let data := snd entry in
  {| Index := if_index;
     Description :=
       get_default String.eqb "ifDescr"
         (VStr ("Interface-" ++ py_str_of_int if_index)) data;
     OpStatus := get_default String.eqb "ifOperStatus" (VInt 2) data;
     AdminStatus := get_default String.eqb "ifAdminStatus" (VInt 2) data;
     VLAN := get_default Z.eqb if_index "N/A" vlan_data;
     InOctets := get_default String.eqb "ifInOctets" (VInt 0) data;
     OutOctets := get_default String.eqb "ifOutOctets" (VInt 0) data;
     Speed := get_default String.eqb "ifSpeed" (VInt 0) data;
     Type' := get_default String.eqb "ifType" (VInt 1) data;
     PhysAddress := get_default String.eqb "ifPhysAddress" (VStr "") data;
     Power := get_default Z.eqb if_index "N/A" power_data |}.

(** [if isinstance(x, Exception): x = {}] *)
Definition or_empty {V : Type} (r : PyResult (zdict V)) : zdict V :=
  match r with
  | Ok d => d
  | Raise _ => []
  end.

(** The list a result holds, the empty list for an exception. *)
Definition or_empty_list {A : Type} (r : PyResult (list A)) : list A :=
  match r with
  | Ok l => l
  | Raise _ => []
  end.

Inductive LogLevel : Type := DEBUG | INFO | WARNING | ERROR.

(** [_fetch_interface_data]: the messages the orchestrator itself logs, and
    the list it returns. Every step below it recovers from its own
    exceptions, so the [except ... raise] of the source has nothing to
    re-raise in the model and the result is always [Ok]. The count is an
    integer on every path, so the [isinstance(interface_count, Exception)]
    test of the source never holds and has no counterpart here. *)
Definition _fetch_interface_data (w : SNMPWorker) (a : Agent)
  : list (LogLevel * string) * PyResult (list InterfaceRecord) :=
  let log0 := [(INFO, "Starting optimized SNMP data collection for " ++ host w)] in
  if negb (_test_connectivity w a) then (log0, Ok [])
  else
    let interface_count := _get_interface_count w a in
    let m1 := "Found " ++ py_str_of_int interface_count
              ++ " interfaces on " ++ host w in
    let log1 := List.app log0 [(DEBUG, m1)] in
    let interface_data := _bulk_fetch_interface_data w a interface_count in
    if negb (nonempty interface_data) then
      (List.app log1 [(WARNING, "No interfaces found for " ++ host w)], Ok [])
    else
      let keys := dict_keys interface_data in
      let vlan_data := or_empty (_get_vlan_data_bulk a keys) in
      let power_data := or_empty (_get_power_data_bulk a keys) in
      let result := map (assemble vlan_data power_data) interface_data in
      let m2 := "Successfully retrieved "
                ++ py_str_of_int (Z.of_nat (List.length result))
                ++ " interfaces from " ++ host w in
      (List.app log1 [(INFO, m2)], Ok result).

(** The Qt signals of the worker. *)
Inductive Signal : Type :=
| success (result : list InterfaceRecord)
| error (msg : string)
| finished.

(** [run]: the signals emitted, in order. *)
Definition run (w : SNMPWorker) (a : Agent) : list Signal :=
  List.app
    match snd (_fetch_interface_data w a) with
    | Ok result =>
        if nonempty result then [success result]
        else [error "No interface data retrieved"]
    | Raise e => [error ("SNMP operation failed: " ++ str_of_exc e)]
    end
    [finished].

(** ** Notions used to state the properties *)

(** A lowercase hexadecimal digit, and its value. *)
Definition is_lower_hex (c : ascii) : bool :=
  let n := N_of_ascii c in
  ((48 <=? n) && (n <=? 57) || (97 <=? n) && (n <=? 102))%N.

Definition hex_val (c : ascii) : N :=
  let n := N_of_ascii c in
  if (n <=? 57)%N then (n - 48)%N else (n - 87)%N.

(** The fallback count walk itself, before [max(count, 10)] and the default. *)
Definition fallback_walk (a : Agent) : PyResult Z :=
  _ <- create_target a 1 0 ;; estimate_loop a 32 0 0 oid_ifDescr.

(** The scalar read of the interface count came back with an error
    indication or an error status. *)
Definition scalar_read_failed (a : Agent) : Prop :=
  exists result,
    get_cmd a oid_ifNumber0 = Ok result
    /\ errorIndication result || errorStatus result = true.

(** The walk of [oid_base] for the field [oid_name] received, in some page,
    a binding whose identifier has the prefix [oid_base] and the trailing
    segment [k], and whose value converts to [v]. *)
Definition in_prefix_row (a : Agent) (oid_name oid_base : string)
    (k : Z) (v : TypedValue) : Prop :=
  exists page cur result name_str val,
    bulk_cmd a oid_base page 10 cur = Ok result
    /\ In (name_str, val) (varBinds result)
    /\ startswith name_str oid_base = true
    /\ index_of_name name_str = Ok k
    /\ _convert_snmp_value oid_name val = Ok v.


(** [walk_loop] with its requests recorded: next to the result, the page
    number and the cursor of every [bulk_cmd] call the loop makes, in the
    order of the calls. The first component is [walk_loop] itself (lemma
    [walk_trace_result]). *)
Fixpoint walk_trace (fuel : nat) (a : Agent) (oid_name oid_base : string)
    (max_interfaces : Z) (page : nat) (st : WalkState)
  : zdict TypedValue * list (nat * string) :=
  match fuel with
  | O => (oid_data st, [])
  | S fuel' =>
      if interfaces_found st <? max_interfaces then
        let request := (page, current_oid st) in
        match bulk_cmd a oid_base page 10 (current_oid st) with
        | Raise _ => (oid_data st, [request])
        | Ok result =>
            if errorIndication result then (oid_data st, [request])
            else if errorStatus result then (oid_data st, [request])
            else
              match varBinds result with
              | [] => (oid_data st, [request])
              | vbs =>
                  match walk_page oid_name oid_base vbs (start_page st) with
                  | (st', Some _) => (oid_data st', [request])
                  | (st', None) =>
                      if found_in_batch st'
                      then
                        let (d, requests) :=
                          walk_trace fuel' a oid_name oid_base max_interfaces
                            (S page) st' in
                        (d, request :: requests)
                      else (oid_data st', [request])
                  end
              end
        end
      else (oid_data st, [])
  end.

(** The identifier [name] lies in the subtree of the identifier [base]: the
    segments of [base] are the first segments of [name]. *)
Fixpoint segments_prefix (p l : list string) : bool :=
  match p, l with
  | [], _ => true
  | x :: p', y :: l' => String.eqb x y && segments_prefix p' l'
  | _ :: _, [] => false
  end.

Definition in_subtree (name base : string) : bool :=
  segments_prefix (split_dot base) (split_dot name).

(** The integer [k] is nearest to the rational [n * 2^e / d] (for [d > 0]
    and any sign of [e]), and is the even one of the two nearest when the
    rational lies halfway between them. The rational is the quotient of
    [scaled_num n e] by [scaled_den d e]. *)
Definition scaled_num (n e : Z) : Z := if 0 <=? e then n * 2 ^ e else n.
Definition scaled_den (d e : Z) : Z := if 0 <=? e then d else d * 2 ^ (- e).

Definition nearest_even (n d e k : Z) : Prop :=
  2 * Z.abs (scaled_den d e * k - scaled_num n e) <= scaled_den d e
  /\ (2 * Z.abs (scaled_den d e * k - scaled_num n e) = scaled_den d e ->
      Z.even k = true).

(** The number [m * 2^e] is the normal binary64 number nearest to [a / b],
    ties to the even significand: [m] has exactly 53 bits, [e] is in the
    range of the format, and [m] is the integer nearest to
    [a / (b * 2^e)]. Below the significand [2^52] the numbers of the format
    lie twice as close, so that the quotient may lie a quarter of a unit
    below [2^52], not half a unit. *)
Definition nearest_binary64 (a b m e : Z) : Prop :=
  2 ^ 52 <= m < 2 ^ 53
  /\ -1074 <= e <= 971
  /\ nearest_even a b (- e) m
  /\ (m = 2 ^ 52 ->
      4 * (scaled_den b (- e) * m - scaled_num a (- e)) <= scaled_den b (- e)).

(** The decimal text with one fractional digit for [t] tenths, [t >= 0]. *)
Definition one_decimal (t : Z) : string :=
  py_str_of_int (t / 10) ++ "." ++ py_str_of_int (t mod 10).

(** The single page the device returns for the table [oid] holds no binding
    whose identifier has the prefix [oid] and the trailing segment [i]. *)
Definition no_row (a : Agent) (oid : string) (i : Z) : Prop :=
  forall result name val,
    bulk_cmd a oid 0 20 oid = Ok result ->
    In (name, val) (varBinds result) ->
    startswith name oid = true ->
    index_of_name name <> Ok i.

(** The final VLAN string [v] is derived from the VLAN id string [s]: it is
    [s] itself, or [s] rewritten to "<id> (<name>)" with the name the name
    table gives for that id. *)
Definition derived_from (vlan_names : zdict string) (s v : string) : Prop :=
  v = s
  \/ exists vlan_id nm,
       py_int_of_str s = Ok vlan_id
       /\ zget vlan_id vlan_names = Some nm
       /\ v = py_str_of_int vlan_id ++ " (" ++ nm ++ ")".

(** The keys of a list in order of first occurrence: [see] appends a key
    that was not seen before. *)
Definition see (acc : list Z) (k : Z) : list Z :=
  if zin k acc then acc else List.app acc [k].

Definition first_occurrences (l : list Z) : list Z := fold_left see l [].

(** The indices the successful walks collected, field after field in the
    order of [core_oids], each walk in its own collection order. *)
Definition discovered (rs : list (string * PyResult (zdict TypedValue))) : list Z :=
  List.concat (map (fun r => dict_keys (or_empty (snd r))) rs).

(** Ascending order of a list of indices. *)
Fixpoint ascending (l : list Z) : bool :=
  match l with
  | x :: ((y :: _) as rest) => (x <? y) && ascending rest
  | _ => true
  end.

(** ** Devices used as concrete inputs *)

Module Scenario.

Definition worker : SNMPWorker :=
  {| host := "192.0.2.10"; community := "public"; port := 161;
     timeout := 2; retries := 1 |}.

(** An integer-valued object and an octet-string-valued object. *)
Definition raw_int (n : Z) : RawValue :=
  {| as_int := Ok n; as_str := py_str_of_int n; as_octets := None |}.

Definition raw_octets (s : string) : RawValue :=
  {| as_int := Raise ValueError; as_str := s;
     as_octets := Some (list_byte_of_string s) |}.

Definition raw_bytes (bs : list Byte.byte) : RawValue :=
  {| as_int := Raise ValueError; as_str := string_of_list_byte bs;
     as_octets := Some bs |}.

(** A request that timed out, and a response carrying bindings. *)
Definition timed_out : SnmpResult :=
  {| errorIndication := true; errorStatus := false; varBinds := [] |}.

Definition response (vbs : list (string * RawValue)) : SnmpResult :=
  {| errorIndication := false; errorStatus := false; varBinds := vbs |}.

(** The row [base.i] of a column. *)
Definition row (base : string) (i : Z) (v : RawValue) : string * RawValue :=
  (base ++ "." ++ py_str_of_int i, v).

Definition descr_row (i : Z) : string * RawValue :=
  row oid_ifDescr i (raw_octets ("Gi0/" ++ py_str_of_int i)).

Definition sys_descr : string * RawValue :=
  (oid_sysDescr0, raw_octets "Switch").

(** A device that answers nothing. *)
Definition silent : Agent :=
  {| create_target := fun _ _ => Ok tt;
     get_cmd := fun _ => Ok timed_out;
     next_cmd := fun _ _ => Ok timed_out;
     bulk_cmd := fun _ _ _ _ => Ok timed_out |}.

(** A device that answers the system descriptor and nothing else. *)
Definition descr_only : Agent :=
  {| create_target := fun _ _ => Ok tt;
     get_cmd := fun oid =>
       if String.eqb oid oid_sysDescr0 then Ok (response [sys_descr])
       else Ok timed_out;
     next_cmd := fun _ _ => Ok timed_out;
     bulk_cmd := fun _ _ _ _ => Ok timed_out |}.

(** A device whose description table gains interface 3 between the first
    and the second page of the walk. *)
Definition growing : Agent :=
  {| create_target := fun _ _ => Ok tt;
     get_cmd := fun _ => Ok timed_out;
     next_cmd := fun _ _ => Ok timed_out;
     bulk_cmd := fun base page _ _ =>
       if String.eqb base oid_ifDescr then
         match page with
         | O => Ok (response [descr_row 1; descr_row 2;
                              row "1.3.6.1.2.1.2.2.1.3" 1 (raw_int 6)])
         | S O => Ok (response [descr_row 3;
                                row "1.3.6.1.2.1.2.2.1.3" 1 (raw_int 6)])
         | _ => Ok (response [row "1.3.6.1.2.1.2.2.1.3" 1 (raw_int 6)])
         end
       else Ok timed_out |}.



(** A device whose description walk times out and whose status columns
    are sparse: operational status exists for interface 2 only,
    administrative status for interfaces 1 and 2. *)
Definition sparse : Agent :=
  {| create_target := fun _ _ => Ok tt;
     get_cmd := fun oid =>
       if String.eqb oid oid_sysDescr0 then Ok (response [sys_descr])
       else Ok timed_out;
     next_cmd := fun _ _ => Ok timed_out;
     bulk_cmd := fun base page _ _ =>
       match page with
       | O =>
           if String.eqb base "1.3.6.1.2.1.2.2.1.8" then
             Ok (response [row "1.3.6.1.2.1.2.2.1.8" 2 (raw_int 1);
                           row "1.3.6.1.2.1.2.2.1.9" 1 (raw_int 0)])
           else if String.eqb base "1.3.6.1.2.1.2.2.1.7" then
             Ok (response [row "1.3.6.1.2.1.2.2.1.7" 1 (raw_int 1);
                           row "1.3.6.1.2.1.2.2.1.7" 2 (raw_int 1);
                           row "1.3.6.1.2.1.2.2.1.8" 2 (raw_int 1)])
           else Ok timed_out
       | S _ => Ok timed_out
       end |}.

(** What the fetch returns for [sparse]. *)
Definition sparse_records : list InterfaceRecord :=
  Eval vm_compute in or_empty_list (snd (_fetch_interface_data worker sparse)).

(** A device with two powered ports. *)
Definition powered : Agent :=
  {| create_target := fun _ _ => Ok tt;
     get_cmd := fun _ => Ok timed_out;
     next_cmd := fun _ _ => Ok timed_out;
     bulk_cmd := fun base _ _ _ =>
       if String.eqb base "1.3.6.1.4.1.9.9.402.1.2.1.7" then
         Ok (response [row "1.3.6.1.4.1.9.9.402.1.2.1.7" 1 (raw_int 15400);
                       row "1.3.6.1.4.1.9.9.402.1.2.1.7" 2 (raw_int 0)])
       else Ok timed_out |}.

(** A device with PVID 10 on ports 1 and 2, a vendor table that says 20
    for ports 1 to 4, and a name for VLAN 10. *)
Definition two_vlan_sources : Agent :=
  {| create_target := fun _ _ => Ok tt;
     get_cmd := fun _ => Ok timed_out;
     next_cmd := fun _ _ => Ok timed_out;
     bulk_cmd := fun base _ _ _ =>
       if String.eqb base oid_dot1qPvid then
         Ok (response [row oid_dot1qPvid 1 (raw_int 10)])
       else if String.eqb base oid_vmVlan then
         Ok (response [row oid_vmVlan 1 (raw_int 20);
                       row oid_vmVlan 2 (raw_int 20);
                       row oid_vmVlan 3 (raw_int 20)])
       else if String.eqb base oid_dot1qVlanStaticName then
         Ok (response [row oid_dot1qVlanStaticName 10 (raw_octets "users")])
       else Ok timed_out |}.

Definition mac : RawValue :=
  raw_bytes [Byte.x00; Byte.x1a; Byte.x2b; Byte.x3c; Byte.x4d; Byte.x5e].

End Scenario.

(** ** Further notions: fields of the aggregated map, the console's cells *)

(** [interface_data.get(i, {}).get(oid_name)]: the value the aggregated map
    holds for the field [oid_name] of the index [i]. *)
Definition get_field (oid_name : string) (i : Z)
    (interface_data : zdict (sdict TypedValue)) : option TypedValue :=
  match zget i interface_data with
  | Some fields => sget oid_name fields
  | None => None
  end.

(** The value the walk of the field [oid_name] collected for the index [i]. *)
Definition walk_value (a : Agent) (max_interfaces : Z) (oid_name : string)
    (i : Z) : option TypedValue :=
  zget i (or_empty (_bulk_fetch_single_oid a oid_name max_interfaces)).

(** [x if x is not None else default] *)
Definition or_default {A : Type} (x : option A) (default : A) : A :=
  match x with
  | Some v => v
  | None => default
  end.

Definition oid_cethPsePortPower : string := "1.3.6.1.4.1.9.9.402.1.2.1.7".
Definition oid_pethPsePortPowerConsumption : string := "1.3.6.1.2.1.105.1.1.1.4".

(** The string [s] is the rendering of a reading that the page of one of the
    power prefixes holds for the index [i]. *)
Definition power_reading (a : Agent) (i : Z) (s : string) : Prop :=
  exists power_oid result name val r,
    In power_oid (map snd POWER_OID_MAPPING)
    /\ bulk_cmd a power_oid 0 20 power_oid = Ok result
    /\ In (name, val) (varBinds result)
    /\ startswith name power_oid = true
    /\ index_of_name name = Ok i
    /\ as_int val = Ok r
    /\ render_power r = Ok s.

(** Every key of the dictionary is one of the requested indices. *)
Definition keys_within {V : Type} (d : zdict V) (interface_indices : list Z) : Prop :=
  forall k, In k (dict_keys d) -> In k interface_indices.

(** The label the resolver shows for the VLAN id [n]: the id followed by its
    name in parentheses when the id is not negative and the name table has
    a name for it, the bare id otherwise. *)
Definition vlan_label (vlan_names : zdict string) (n : Z) : string :=
  if 0 <=? n then
    match zget n vlan_names with
    | Some nm => py_str_of_int n ++ " (" ++ nm ++ ")"
    | None => py_str_of_int n
    end
  else py_str_of_int n.

(** The interpreter's limit on the decimal digits of an integer that is
    converted from or to a string ([sys.get_int_max_str_digits()], 4300
    unless reconfigured). The engine's identifiers and VLAN ids stay far
    below it; the console's byte counters are formatted whatever their
    size, so there it is written out. *)
Definition int_max_str_digits : Z := 4300.

(** The number of decimal digits in a literal. *)
Fixpoint count_digits (s : string) : Z :=
  match s with
  | EmptyString => 0
  | String c rest =>
      (if is_ascii_digit c then 1 else 0) + count_digits rest
  end.

(** [int(s)] under the digit limit: a well-formed literal with more than
    [int_max_str_digits] digits raises [ValueError] too. *)
Definition py_int_of_str_limited (s : string) : PyResult Z :=
  n <- py_int_of_str s ;;
  if int_max_str_digits <? count_digits s then Raise ValueError else Ok n.

(** [str(n)], and [n] inside an f-string, under the digit limit:
    [ValueError] when [n] has more than [int_max_str_digits] digits. *)
Definition py_str_of_int_limited (n : Z) : PyResult string :=
  if 10 ^ int_max_str_digits <=? Z.abs n then Raise ValueError
  else Ok (py_str_of_int n).

(** [DeviceDetailPage._format_bytes] of [ui/device_detail_page.py], on the
    values a record holds for [InOctets] and [OutOctets] (an integer or a
    string): a string goes through [int()], and gives ["0 B"] when [int()]
    raises; an integer below 1024 is shown in bytes, a larger one divided by
    the power of 1024 of its unit and shown with one decimal.

    [format_int_bytes] is the chain of comparisons inside the [try];
    [format_bytes_handler] is the [except Exception] branch, which formats
    the value into the warning text before it returns ["0 B"], so that an
    integer beyond the digit limit raises again, out of the function. *)
Definition format_scaled (n divisor : Z) (unit : string) : PyResult string :=
  x <- py_truediv n divisor ;; Ok (format_1f x ++ unit).

Definition format_int_bytes (n : Z) : PyResult string :=
  if n <? 1024 then s <- py_str_of_int_limited n ;; Ok (s ++ " B")
  else if n <? 1024 ^ 2 then format_scaled n 1024 " KB"
  else if n <? 1024 ^ 3 then format_scaled n (1024 ^ 2) " MB"
  else if n <? 1024 ^ 4 then format_scaled n (1024 ^ 3) " GB"
  else format_scaled n (1024 ^ 4) " TB".

Definition format_bytes_handler (n : Z) : PyResult string :=
  _ <- py_str_of_int_limited n ;; Ok "0 B".

Definition _format_bytes (num_bytes : TypedValue) : PyResult string :=
  match num_bytes with
  | VStr s =>
      match py_int_of_str_limited s with
      | Raise _ => Ok "0 B"
      | Ok n =>
          match format_int_bytes n with
          | Ok text => Ok text
          | Raise _ => format_bytes_handler n
          end
      end
  | VInt n =>
      match format_int_bytes n with
      | Ok text => Ok text
      | Raise _ => format_bytes_handler n
      end
  end.

(** The divisor and the suffix [_format_bytes] uses from 1024 bytes on. *)
Definition byte_unit (n : Z) : Z * string :=
  if n <? 1024 ^ 2 then (1024, " KB")
  else if n <? 1024 ^ 3 then (1024 ^ 2, " MB")
  else if n <? 1024 ^ 4 then (1024 ^ 3, " GB")
  else (1024 ^ 4, " TB").

(** The value is an integer; the value is a string. *)
Definition is_int (v : TypedValue) : Prop := exists n, v = VInt n.
Definition is_str (v : TypedValue) : Prop := exists s, v = VStr s.



(** Further concrete inputs. *)
Module Sample.

(** A value object whose [int()] fails with an exception that is neither a
    [ValueError] nor a [TypeError]. *)
Definition raw_broken : RawValue :=
  {| as_int := Raise (OtherError "decode"); as_str := "?"; as_octets := None |}.

(** A device that reports an interface count of [-5] and serves one row of
    the description table. *)
Definition negative_count : Agent :=
  {| create_target := fun _ _ => Ok tt;
     get_cmd := fun oid =>
       if String.eqb oid oid_sysDescr0
       then Ok (Scenario.response [Scenario.sys_descr])
       else Ok (Scenario.response [(oid_ifNumber0, Scenario.raw_int (-5))]);
     next_cmd := fun _ _ => Ok Scenario.timed_out;
     bulk_cmd := fun base page _ _ =>
       if String.eqb base oid_ifDescr
       then Ok (Scenario.response [Scenario.descr_row 1])
       else Ok Scenario.timed_out |}.

(** [Scenario.powered] with the standard PoE table answering too. *)
Definition powered_both : Agent :=
  {| create_target := fun _ _ => Ok tt;
     get_cmd := fun _ => Ok Scenario.timed_out;
     next_cmd := fun _ _ => Ok Scenario.timed_out;
     bulk_cmd := fun base page max_repetitions cur =>
       if String.eqb base oid_pethPsePortPowerConsumption then
         Ok (Scenario.response
               [Scenario.row oid_pethPsePortPowerConsumption 1 (Scenario.raw_int 7000);
                Scenario.row oid_pethPsePortPowerConsumption 3 (Scenario.raw_int 7000)])
       else bulk_cmd Scenario.powered base page max_repetitions cur |}.

(** A device with a PVID for port 1 only and a vendor table for ports 1
    and 2. *)
Definition pvid_half : Agent :=
  {| create_target := fun _ _ => Ok tt;
     get_cmd := fun _ => Ok Scenario.timed_out;
     next_cmd := fun _ _ => Ok Scenario.timed_out;
     bulk_cmd := fun base _ _ _ =>
       if String.eqb base oid_dot1qPvid then
         Ok (Scenario.response [Scenario.row oid_dot1qPvid 1 (Scenario.raw_int 10)])
       else if String.eqb base oid_vmVlan then
         Ok (Scenario.response [Scenario.row oid_vmVlan 1 (Scenario.raw_int 20);
                                Scenario.row oid_vmVlan 2 (Scenario.raw_int 20)])
       else Ok Scenario.timed_out |}.

(** A device whose standard VLAN name table does not answer and whose
    vendor name table does. *)
Definition vendor_names_only : Agent :=
  {| create_target := fun _ _ => Ok tt;
     get_cmd := fun _ => Ok Scenario.timed_out;
     next_cmd := fun _ _ => Ok Scenario.timed_out;
     bulk_cmd := fun base _ _ _ =>
       if String.eqb base oid_vtpVlanName then
         Ok (Scenario.response
               [(oid_vtpVlanName ++ ".10.0", Scenario.raw_octets "users")])
       else Ok Scenario.timed_out |}.


(** A device that implements the description column and the column 20 of
    the interface table only: the page of the description walk continues
    with a row of column 20, whose identifier begins with the characters of
    the description prefix without lying in its subtree. *)
Definition sibling_column : Agent :=
  {| create_target := fun _ _ => Ok tt;
     get_cmd := fun _ => Ok Scenario.timed_out;
     next_cmd := fun _ _ => Ok Scenario.timed_out;
     bulk_cmd := fun base page _ _ =>
       if String.eqb base oid_ifDescr then
         match page with
         | O => Ok (Scenario.response
                      [Scenario.descr_row 1;
                       Scenario.row "1.3.6.1.2.1.2.2.1.20" 7 (Scenario.raw_int 0)])
         | S _ => Ok Scenario.timed_out
         end
       else Ok Scenario.timed_out |}.

(** The state of the description walk of [Scenario.growing] after its first
    page. *)
Definition growing_after_first_page : WalkState :=
  Eval vm_compute in
    fst (walk_page "ifDescr" oid_ifDescr
           [Scenario.descr_row 1; Scenario.descr_row 2]
           (start_page (walk_init oid_ifDescr))).

End Sample.

(** * Properties *)

(** ** ValueCodec *)

Lemma hex2_lower_hex (b : Byte.byte) :
  exists hi lo,
    hex2 b = String hi (String lo EmptyString)
    /\ is_lower_hex hi = true /\ is_lower_hex lo = true
    /\ (16 * hex_val hi + hex_val lo)%N = Byte.to_N b.
Proof.
  unfold hex2.
  eexists; eexists; split; [reflexivity|].
  destruct b; vm_compute; repeat split; reflexivity.
Qed.

(** C9. For the physical-address field, [_convert_snmp_value] on a raw value
    that is a sequence of exactly six bytes returns the six bytes rendered as
    two-digit lowercase hexadecimal octets joined by colons; on any other raw
    value it returns the value's string form. The bytes
    [00 1a 2b 3c 4d 5e] give ["00:1a:2b:3c:4d:5e"]. *)
Theorem C9_convert_phys_address :
  (forall value : RawValue,
     _convert_snmp_value "ifPhysAddress" value =
     Ok (VStr match as_octets value with
              | Some [b0; b1; b2; b3; b4; b5] =>
                  hex2 b0 ++ ":" ++ hex2 b1 ++ ":" ++ hex2 b2 ++ ":"
                  ++ hex2 b3 ++ ":" ++ hex2 b4 ++ ":" ++ hex2 b5
              | _ => as_str value
              end))
  /\ (forall b : Byte.byte,
        exists hi lo,
          hex2 b = String hi (String lo EmptyString)
          /\ is_lower_hex hi = true /\ is_lower_hex lo = true
          /\ (16 * hex_val hi + hex_val lo)%N = Byte.to_N b)
  /\ _convert_snmp_value "ifPhysAddress" Scenario.mac
     = Ok (VStr "00:1a:2b:3c:4d:5e").
Proof.
  split; [|split; [exact hex2_lower_hex | reflexivity]].
  intros value.
  unfold _convert_snmp_value, convert_body.
  change (sin "ifPhysAddress" status_type_fields) with false.
  change (sin "ifPhysAddress" counter_fields) with false.
  change ("ifPhysAddress" =? "ifPhysAddress")%string with true.
  cbv iota.
  destruct (as_octets value) as [octets|]; [|reflexivity].
  destruct octets as [|b0 [|b1 [|b2 [|b3 [|b4 [|b5 [|b6 rest]]]]]]];
    reflexivity.
Qed.

(** ** InterfaceCountEstimator *)

Lemma estimate_loop_bounds (a : Agent) :
  forall n step count cur c,
    estimate_loop a n step count cur = Ok c ->
    count <= c <= count + Z.of_nat n.
Proof.
  induction n as [|n IH]; intros step count cur c H; simpl in H.
  - inversion H; subst. lia.
  - destruct (next_cmd a step cur) as [result|e]; simpl in H; [|discriminate].
    destruct (errorIndication result || errorStatus result).
    + inversion H; subst. lia.
    + destruct (varBinds result) as [|[name v] rest]; [discriminate|].
      destruct (negb (startswith name oid_ifDescr)).
      * inversion H; subst. lia.
      * apply IH in H. lia.
Qed.

Lemma fallback_walk_bounds (a : Agent) (c : Z) :
  fallback_walk a = Ok c -> 0 <= c <= 32.
Proof.
  unfold fallback_walk. intros H.
  destruct (create_target a 1 0); unfold bind in H; [|discriminate].
  apply estimate_loop_bounds in H. simpl in H. lia.
Qed.

Lemma estimate_interface_count_eq (a : Agent) :
  _estimate_interface_count a =
  match fallback_walk a with
  | Ok count => Z.max count 10
  | Raise _ => 20
  end.
Proof. reflexivity. Qed.

Lemma estimate_interface_count_range (a : Agent) :
  10 <= _estimate_interface_count a <= 32.
Proof.
  rewrite estimate_interface_count_eq.
  destruct (fallback_walk a) as [c|e] eqn:E; [|lia].
  apply fallback_walk_bounds in E. lia.
Qed.

(** C10. On every execution path the interface-count estimate is at most 64:
    a successful scalar read of [count] gives [min(count + 5, 64)]; the
    fallback walk counts at most 32 entries and gives [max(count, 10)]; an
    exception in either gives 20. The orchestrator bounds the core field
    walks by this estimate. *)
Theorem C10_interface_count_at_most_64 (w : SNMPWorker) (a : Agent) :
  _get_interface_count w a <= 64
  /\ (forall result name v rest count,
        create_target a (timeout w) (retries w) = Ok tt ->
        get_cmd a oid_ifNumber0 = Ok result ->
        errorIndication result = false -> errorStatus result = false ->
        varBinds result = (name, v) :: rest ->
        as_int v = Ok count ->
        _get_interface_count w a = Z.min (count + 5) 64)
  /\ (forall result,
        create_target a (timeout w) (retries w) = Ok tt ->
        get_cmd a oid_ifNumber0 = Ok result ->
        errorIndication result || errorStatus result = true ->
        _get_interface_count w a = _estimate_interface_count a)
  /\ (forall count, fallback_walk a = Ok count ->
        count <= 32 /\ _estimate_interface_count a = Z.max count 10)
  /\ (forall e, fallback_walk a = Raise e -> _estimate_interface_count a = 20)
  /\ (forall e,
        (_ <- create_target a (timeout w) (retries w) ;; get_cmd a oid_ifNumber0)
        = Raise e ->
        _get_interface_count w a = 20)
  /\ (_test_connectivity w a = true ->
      forall r, In r (gather_walks a (_get_interface_count w a)) ->
        exists oid_name max_interfaces,
          r = (oid_name, _bulk_fetch_single_oid a oid_name max_interfaces)
          /\ max_interfaces <= 64).
Proof.
  assert (Hle : _get_interface_count w a <= 64).
  { unfold _get_interface_count.
    destruct (create_target a (timeout w) (retries w)); simpl; [|lia].
    destruct (get_cmd a oid_ifNumber0) as [result|]; simpl; [|lia].
    destruct (negb (errorIndication result) && negb (errorStatus result)).
    - destruct (varBinds result) as [|[name v] rest]; [lia|].
      destruct (as_int v); simpl; lia.
    - pose proof (estimate_interface_count_range a). lia. }
  split; [exact Hle|].
  split.
  { intros result name v rest count Hc Hg Hi Hs Hv Hn.
    unfold _get_interface_count. rewrite Hc; simpl. rewrite Hg; simpl.
    rewrite Hi, Hs, Hv; simpl. rewrite Hn. reflexivity. }
  split.
  { intros result Hc Hg Hf.
    unfold _get_interface_count. rewrite Hc; simpl. rewrite Hg; simpl.
    destruct (errorIndication result), (errorStatus result);
      try discriminate; reflexivity. }
  split.
  { intros count H. split.
    - apply fallback_walk_bounds in H. lia.
    - rewrite estimate_interface_count_eq, H. reflexivity. }
  split.
  { intros e H. rewrite estimate_interface_count_eq, H. reflexivity. }
  split.
  { intros e H. unfold _get_interface_count.
    destruct (create_target a (timeout w) (retries w)); simpl in *.
    - rewrite H. reflexivity.
    - reflexivity. }
  intros _ r Hr. unfold gather_walks in Hr.
  apply in_map_iff in Hr. destruct Hr as [oid_name [Hr _]].
  exists oid_name, (_get_interface_count w a). split; [symmetry; exact Hr|exact Hle].
Qed.

Lemma C10_witness :
  create_target Scenario.descr_only 2 1 = Ok tt
  /\ get_cmd Scenario.descr_only oid_ifNumber0 = Ok Scenario.timed_out
  /\ _get_interface_count Scenario.worker Scenario.descr_only
     = _estimate_interface_count Scenario.descr_only
  /\ _get_interface_count Scenario.worker Scenario.descr_only <= 64.
Proof.
  split; [reflexivity|]. split; [reflexivity|]. split.
  - apply (proj1 (proj2 (proj2
      (C10_interface_count_at_most_64 Scenario.worker Scenario.descr_only)))
      Scenario.timed_out); reflexivity.
  - apply (C10_interface_count_at_most_64 Scenario.worker Scenario.descr_only).
Defined.

(** C4, as stated, fails: the device [Scenario.descr_only] answers neither the
    count scalar nor the first request of the fallback walk (zero entries),
    and the estimate is 10, not 20. *)
Lemma C4_counterexample :
  create_target Scenario.descr_only 2 1 = Ok tt
  /\ scalar_read_failed Scenario.descr_only
  /\ fallback_walk Scenario.descr_only = Ok 0
  /\ _get_interface_count Scenario.worker Scenario.descr_only = 10
  /\ _get_interface_count Scenario.worker Scenario.descr_only <> 20.
Proof.
  split; [reflexivity|]. split.
  - exists Scenario.timed_out. split; reflexivity.
  - split; [reflexivity|]. split; [reflexivity|discriminate].
Qed.

(** C4, amended. When the scalar read of the interface count reports an error
    indication or status, the estimate is [max(count, 10)] for the number
    [count] of entries the fallback walk counted: it is 10 when the walk ends
    with zero entries because its first request comes back with an error
    report or with an identifier outside the description prefix. The
    estimate is 20 when the fallback walk raises (the target cannot be
    created, the first request raises or comes back without bindings) and
    when the walk counts exactly 20 entries, and in no other case. It is 20
    as well, with no fallback walk at all, when the scalar read itself
    raises: the target cannot be created, the request raises, the response
    holds no binding, or its value is not an integer. *)
Theorem C4_estimate_after_failed_scalar_read (w : SNMPWorker) (a : Agent) :
  (forall result,
     create_target a (timeout w) (retries w) = Ok tt ->
     get_cmd a oid_ifNumber0 = Ok result ->
     errorIndication result || errorStatus result = true ->
     (fallback_walk a = Ok 0 -> _get_interface_count w a = 10)
     /\ (forall count, fallback_walk a = Ok count ->
           _get_interface_count w a = Z.max count 10)
     /\ (forall e, fallback_walk a = Raise e -> _get_interface_count w a = 20)
     /\ (_get_interface_count w a = 20 <->
         (exists e, fallback_walk a = Raise e) \/ fallback_walk a = Ok 20)
     /\ (forall e, create_target a 1 0 = Raise e ->
           _get_interface_count w a = 20)
     /\ (forall e,
           create_target a 1 0 = Ok tt ->
           next_cmd a 0 oid_ifDescr = Raise e ->
           _get_interface_count w a = 20)
     /\ (forall first,
           create_target a 1 0 = Ok tt ->
           next_cmd a 0 oid_ifDescr = Ok first ->
           (errorIndication first || errorStatus first = true ->
            fallback_walk a = Ok 0 /\ _get_interface_count w a = 10)
           /\ (errorIndication first || errorStatus first = false ->
               varBinds first = [] ->
               _get_interface_count w a = 20)
           /\ (forall name val rest,
                 errorIndication first || errorStatus first = false ->
                 varBinds first = (name, val) :: rest ->
                 startswith name oid_ifDescr = false ->
                 fallback_walk a = Ok 0 /\ _get_interface_count w a = 10)))
  /\ (forall e,
        (_ <- create_target a (timeout w) (retries w) ;; get_cmd a oid_ifNumber0)
        = Raise e ->
        _get_interface_count w a = 20)
  /\ (forall result,
        create_target a (timeout w) (retries w) = Ok tt ->
        get_cmd a oid_ifNumber0 = Ok result ->
        errorIndication result = false -> errorStatus result = false ->
        (varBinds result = [] -> _get_interface_count w a = 20)
        /\ (forall name v rest e,
              varBinds result = (name, v) :: rest ->
              as_int v = Raise e ->
              _get_interface_count w a = 20)).
Proof.
  split; [|split].
  - intros result Hc Hg Hf.
    assert (E : _get_interface_count w a = _estimate_interface_count a).
    { unfold _get_interface_count. rewrite Hc; simpl. rewrite Hg; simpl.
      destruct (errorIndication result), (errorStatus result);
        try discriminate; reflexivity. }
    rewrite E, estimate_interface_count_eq.
    split; [intros H; rewrite H; reflexivity|].
    split; [intros count H; rewrite H; reflexivity|].
    split; [intros e H; rewrite H; reflexivity|].
    split.
    { destruct (fallback_walk a) as [count|e] eqn:Hw.
      - split.
        + intros H. right. f_equal. lia.
        + intros [[e H]|H]; [discriminate|]. inversion H. reflexivity.
      - split; [intros _; left; exists e; reflexivity|reflexivity]. }
    unfold fallback_walk.
    split; [intros e H; rewrite H; reflexivity|].
    split.
    { intros e Ht H. rewrite Ht. cbn [bind estimate_loop]. rewrite H.
      reflexivity. }
    intros first Ht Hn. rewrite Ht. cbn [bind estimate_loop]. rewrite Hn.
    cbn [bind].
    split; [intros H; rewrite H; split; reflexivity|].
    split.
    + intros H Hv. rewrite H, Hv. reflexivity.
    + intros name val rest H Hv Hout. rewrite H, Hv, Hout. split; reflexivity.
  - intros e H. unfold _get_interface_count.
    destruct (create_target a (timeout w) (retries w)); simpl in *.
    + rewrite H. reflexivity.
    + reflexivity.
  - intros result Hc Hg Hi Hs. unfold _get_interface_count.
    rewrite Hc; cbn [bind]. rewrite Hg; cbn [bind]. rewrite Hi, Hs.
    cbn [negb andb].
    split.
    + intros Hv. rewrite Hv. reflexivity.
    + intros name v rest e Hv Hn. rewrite Hv, Hn. reflexivity.
Qed.

Lemma C4_witness :
  create_target Scenario.descr_only 2 1 = Ok tt
  /\ get_cmd Scenario.descr_only oid_ifNumber0 = Ok Scenario.timed_out
  /\ next_cmd Scenario.descr_only 0 oid_ifDescr = Ok Scenario.timed_out
  /\ fallback_walk Scenario.descr_only = Ok 0
  /\ _get_interface_count Scenario.worker Scenario.descr_only = 10.
Proof.
  split; [reflexivity|]. split; [reflexivity|]. split; [reflexivity|].
  apply (proj1 (proj2 (proj2 (proj2 (proj2 (proj2 (proj2 (proj1
    (C4_estimate_after_failed_scalar_read Scenario.worker Scenario.descr_only)
    Scenario.timed_out eq_refl eq_refl eq_refl))))))
    Scenario.timed_out eq_refl eq_refl)).
  reflexivity.
Defined.

(** ** Orchestrator: the two fatal outcomes *)

Lemma fetch_probe_failed (w : SNMPWorker) (a : Agent) :
  _test_connectivity w a = false ->
  snd (_fetch_interface_data w a) = Ok [].
Proof.
  intros H. unfold _fetch_interface_data. rewrite H. reflexivity.
Qed.

Lemma fetch_aggregation_empty (w : SNMPWorker) (a : Agent) :
  _test_connectivity w a = true ->
  _bulk_fetch_interface_data w a (_get_interface_count w a) = [] ->
  _fetch_interface_data w a =
  ([(INFO, "Starting optimized SNMP data collection for " ++ host w);
    (DEBUG, "Found " ++ py_str_of_int (_get_interface_count w a)
            ++ " interfaces on " ++ host w);
    (WARNING, "No interfaces found for " ++ host w)],
   Ok []).
Proof.
  intros Hp Ha. unfold _fetch_interface_data. rewrite Hp, Ha. reflexivity.
Qed.

(** C1, as stated, fails: [Scenario.descr_only] passes the connectivity probe
    and its aggregation is empty, yet the error delivered is
    ["No interface data retrieved"], the very error delivered for
    [Scenario.silent], whose probe fails; no error ["no interfaces found"] is
    delivered. *)
Lemma C1_counterexample :
  _test_connectivity Scenario.worker Scenario.descr_only = true
  /\ _bulk_fetch_interface_data Scenario.worker Scenario.descr_only
       (_get_interface_count Scenario.worker Scenario.descr_only) = []
  /\ _test_connectivity Scenario.worker Scenario.silent = false
  /\ run Scenario.worker Scenario.descr_only
     = [error "No interface data retrieved"; finished]
  /\ run Scenario.worker Scenario.descr_only = run Scenario.worker Scenario.silent.
Proof. repeat split; reflexivity. Qed.

(** C1, amended. For every target for which the connectivity probe succeeds
    but the aggregation over the core fields yields an empty map,
    [_fetch_interface_data] returns the empty list and logs the warning
    "No interfaces found for <host>"; [run] then delivers the error
    ["No interface data retrieved"], the same error it delivers when the
    probe fails, followed by the [finished] signal. *)
Theorem C1_empty_aggregation_error (w : SNMPWorker) (a : Agent) :
  (_test_connectivity w a = true ->
   _bulk_fetch_interface_data w a (_get_interface_count w a) = [] ->
   snd (_fetch_interface_data w a) = Ok []
   /\ In (WARNING, "No interfaces found for " ++ host w)
         (fst (_fetch_interface_data w a))
   /\ run w a = [error "No interface data retrieved"; finished])
  /\ (_test_connectivity w a = false ->
      run w a = [error "No interface data retrieved"; finished]).
Proof.
  split.
  - intros Hp Ha.
    pose proof (fetch_aggregation_empty w a Hp Ha) as E.
    unfold run. rewrite E. simpl.
    split; [reflexivity|]. split; [|reflexivity].
    right. right. left. reflexivity.
  - intros Hp. unfold run. rewrite (fetch_probe_failed w a Hp). reflexivity.
Qed.

Lemma C1_witness :
  _test_connectivity Scenario.worker Scenario.descr_only = true
  /\ _bulk_fetch_interface_data Scenario.worker Scenario.descr_only
       (_get_interface_count Scenario.worker Scenario.descr_only) = []
  /\ run Scenario.worker Scenario.descr_only
     = [error "No interface data retrieved"; finished].
Proof.
  split; [reflexivity|]. split; [reflexivity|].
  apply (proj1 (C1_empty_aggregation_error Scenario.worker Scenario.descr_only));
    reflexivity.
Defined.

(** ** Dictionaries *)

Section DictFacts.
Context {K V : Type} (eqb : K -> K -> bool).
Hypothesis eqb_eq : forall x y, eqb x y = true <-> x = y.

Lemma eqb_refl' (x : K) : eqb x x = true.
Proof. apply eqb_eq. reflexivity. Qed.

Lemma eqb_neq (x y : K) : x <> y -> eqb x y = false.
Proof.
  intros H. destruct (eqb x y) eqn:E; [|reflexivity].
  apply eqb_eq in E. contradiction.
Qed.

Lemma dict_get_set_same (k : K) (v : V) (d : list (K * V)) :
  dict_get eqb k (dict_set eqb k v d) = Some v.
Proof.
  induction d as [|[k' v'] d IH]; simpl.
  - rewrite eqb_refl'. reflexivity.
  - destruct (eqb k k') eqn:E; simpl; rewrite E; [reflexivity|exact IH].
Qed.

Lemma dict_get_set_other (k k0 : K) (v : V) (d : list (K * V)) :
  k0 <> k ->
  dict_get eqb k0 (dict_set eqb k v d) = dict_get eqb k0 d.
Proof.
  intros Hne. induction d as [|[k' v'] d IH]; simpl.
  - rewrite (eqb_neq k0 k Hne). reflexivity.
  - destruct (eqb k k') eqn:E; simpl.
    + apply eqb_eq in E. subst k'.
      rewrite (eqb_neq k0 k Hne). reflexivity.
    + rewrite IH. reflexivity.
Qed.

Lemma dict_mem_In (k : K) (d : list (K * V)) :
  dict_mem eqb k d = true <-> In k (dict_keys d).
Proof.
  unfold dict_mem. induction d as [|[k' v'] d IH]; simpl.
  - split; [discriminate|tauto].
  - destruct (eqb k k') eqn:E.
    + apply eqb_eq in E. subst. split; auto.
    + rewrite IH. split; [auto|].
      intros [H|H]; [|exact H]. subst. rewrite eqb_refl' in E. discriminate.
Qed.

Lemma dict_mem_get (k : K) (d : list (K * V)) :
  dict_mem eqb k d = true <-> exists v, dict_get eqb k d = Some v.
Proof.
  unfold dict_mem. destruct (dict_get eqb k d) as [v|].
  - split; eauto.
  - split; [discriminate|]. intros [v H]. discriminate.
Qed.

Lemma dict_mem_false_get (k : K) (d : list (K * V)) :
  dict_mem eqb k d = false <-> dict_get eqb k d = None.
Proof.
  unfold dict_mem. destruct (dict_get eqb k d); split; congruence.
Qed.

Lemma dict_keys_set (k : K) (v : V) (d : list (K * V)) :
  dict_keys (dict_set eqb k v d) =
  if dict_mem eqb k d then dict_keys d else List.app (dict_keys d) [k].
Proof.
  unfold dict_mem. induction d as [|[k' v'] d IH]; simpl.
  - reflexivity.
  - destruct (eqb k k') eqn:E; simpl.
    + reflexivity.
    + rewrite IH. destruct (dict_get eqb k d); reflexivity.
Qed.

Lemma dict_set_length (k : K) (v : V) (d : list (K * V)) :
  (List.length (dict_set eqb k v d) <= S (List.length d))%nat.
Proof.
  induction d as [|[k' v'] d IH]; simpl; [lia|].
  destruct (eqb k k'); simpl; lia.
Qed.

Lemma dict_set_nonempty (k : K) (v : V) (d : list (K * V)) :
  dict_set eqb k v d <> [].
Proof.
  destruct d as [|[k' v'] d]; simpl; [discriminate|].
  destruct (eqb k k'); discriminate.
Qed.

Lemma dict_keys_set_NoDup (k : K) (v : V) (d : list (K * V)) :
  NoDup (dict_keys d) -> NoDup (dict_keys (dict_set eqb k v d)).
Proof.
  intros H. rewrite dict_keys_set.
  destruct (dict_mem eqb k d) eqn:E; [exact H|].
  apply NoDup_app; [exact H | constructor; [simpl; tauto|constructor] |].
  intros x Hx [Hk|[]]. subst x.
  apply dict_mem_In in Hx. congruence.
Qed.

Lemma dict_get_In (k : K) (v : V) (d : list (K * V)) :
  dict_get eqb k d = Some v -> In (k, v) d.
Proof.
  induction d as [|[k' v'] d IH]; simpl; [discriminate|].
  destruct (eqb k k') eqn:E.
  - apply eqb_eq in E. subst. intros H; inversion H; subst. auto.
  - auto.
Qed.

Lemma dict_In_get (k : K) (v : V) (d : list (K * V)) :
  NoDup (dict_keys d) -> In (k, v) d -> dict_get eqb k d = Some v.
Proof.
  induction d as [|[k' v'] d IH]; simpl; [tauto|].
  intros Hnd [H|H].
  - inversion H; subst. rewrite eqb_refl'. reflexivity.
  - inversion Hnd as [|? ? Hnotin Hnd']; subst.
    destruct (eqb k k') eqn:E.
    + apply eqb_eq in E. subst. exfalso. apply Hnotin.
      change k' with (fst (k', v)). apply in_map. exact H.
    + auto.
Qed.
End DictFacts.

Lemma Zeqb_eq' (x y : Z) : (x =? y) = true <-> x = y.
Proof. apply Z.eqb_eq. Qed.

Lemma zin_In (x : Z) (l : list Z) : zin x l = true <-> In x l.
Proof.
  unfold zin. rewrite existsb_exists. split.
  - intros [y [Hy E]]. apply Z.eqb_eq in E. subst. exact Hy.
  - intros H. exists x. split; [exact H|apply Z.eqb_refl].
Qed.

Lemma zget_zset_same {V : Type} (k : Z) (v : V) (d : zdict V) :
  zget k (zset k v d) = Some v.
Proof. apply (dict_get_set_same Z.eqb Zeqb_eq'). Qed.

Lemma zget_zset_other {V : Type} (k k0 : Z) (v : V) (d : zdict V) :
  k0 <> k -> zget k0 (zset k v d) = zget k0 d.
Proof. apply (dict_get_set_other Z.eqb Zeqb_eq'). Qed.

Lemma zget_zset {V : Type} (k k0 : Z) (v : V) (d : zdict V) :
  zget k0 (zset k v d) = if k0 =? k then Some v else zget k0 d.
Proof.
  destruct (Z.eqb_spec k0 k) as [->|Hne].
  - apply zget_zset_same.
  - apply zget_zset_other. exact Hne.
Qed.

(** ** BulkTableWalker *)

Section Walk.
Variable a : Agent.
Variables oid_name oid_base : string.

(** Steps of the page loop, one per shape of the binding at its head. *)
Ltac page_step :=
  simpl;
  match goal with
  | |- context [negb (startswith ?n oid_base)] =>
      destruct (startswith n oid_base) eqn:?; simpl
  end;
  [ match goal with
    | |- context [index_of_name ?n] =>
        destruct (index_of_name n) as [?|?] eqn:?
    end;
    [ match goal with
      | |- context [_convert_snmp_value oid_name ?v] =>
          destruct (_convert_snmp_value oid_name v) as [?|?] eqn:?
      end;
      [ | match goal with
          | |- context [is_value_or_index_error ?e] =>
              destruct (is_value_or_index_error e)
          end ]
    | match goal with
      | |- context [is_value_or_index_error ?e] =>
          destruct (is_value_or_index_error e)
      end ]
  | ].

Lemma walk_page_stops_at_out_of_prefix
    (pre post : list (string * RawValue)) (name : string) (val : RawValue) :
  startswith name oid_base = false ->
  forall st,
    walk_page oid_name oid_base (List.app pre ((name, val) :: post)) st
    = walk_page oid_name oid_base pre st.
Proof.
  intros Hout. induction pre as [|[n v] pre IH]; intros st.
  - simpl. rewrite Hout. reflexivity.
  - page_step; try reflexivity; apply IH.
Qed.

Lemma walk_page_counts (vbs : list (string * RawValue)) :
  forall st st' exc,
    walk_page oid_name oid_base vbs st = (st', exc) ->
    interfaces_found st <= interfaces_found st'
      <= interfaces_found st + Z.of_nat (List.length vbs)
    /\ Z.of_nat (List.length (oid_data st')) - interfaces_found st'
       <= Z.of_nat (List.length (oid_data st)) - interfaces_found st
    /\ (found_in_batch st' = true ->
        found_in_batch st = true \/ interfaces_found st < interfaces_found st').
Proof.
  induction vbs as [|[n v] vbs IH]; intros st st' exc.
  - simpl. intros H; inversion H; subst. repeat split; try lia. auto.
  - page_step; intros H;
      try (inversion H; subst; repeat split; try lia; auto; fail);
      apply IH in H; cbn [interfaces_found oid_data found_in_batch] in H;
      destruct H as [H1 [H2 H3]].
    + match type of H2 with
      | context [zset ?k ?x ?d] =>
          pose proof (dict_set_length Z.eqb k x d) as L
      end.
      unfold zset in H2.
      repeat split; solve [lia | intros _; right; lia].
    + repeat split; solve [lia | exact H3].
    + repeat split; solve [lia | exact H3].
Qed.

Lemma walk_page_rows (page : nat) (cur : string) (result : SnmpResult) :
  bulk_cmd a oid_base page 10 cur = Ok result ->
  forall vbs st st' exc,
    incl vbs (varBinds result) ->
    (forall k v, zget k (oid_data st) = Some v ->
                 in_prefix_row a oid_name oid_base k v) ->
    walk_page oid_name oid_base vbs st = (st', exc) ->
    forall k v, zget k (oid_data st') = Some v ->
                in_prefix_row a oid_name oid_base k v.
Proof.
  intros Hres. induction vbs as [|[n v0] vbs IH]; intros st st' exc Hincl Hinv.
  - simpl. intros H; inversion H; subst. exact Hinv.
  - assert (Hincl' : incl vbs (varBinds result))
      by (intros x Hx; apply Hincl; right; exact Hx).
    assert (Hin : In (n, v0) (varBinds result)) by (apply Hincl; left; reflexivity).
    page_step; intros H;
      try (inversion H; subst; exact Hinv; fail);
      try (eapply IH; [exact Hincl' | exact Hinv | exact H]; fail).
    eapply IH; [exact Hincl' | | exact H].
    cbn [oid_data]. intros k v. rewrite zget_zset.
    destruct (Z.eqb_spec k a0) as [->|Hne].
    + intros E; inversion E; subst.
      exists page, cur, result, n, v0. repeat split; assumption.
    + apply Hinv.
Qed.

Variable max_interfaces : Z.

Lemma walk_loop_rows :
  forall fuel page st,
    (forall k v, zget k (oid_data st) = Some v ->
                 in_prefix_row a oid_name oid_base k v) ->
    forall k v,
      zget k (walk_loop fuel a oid_name oid_base max_interfaces page st) = Some v ->
      in_prefix_row a oid_name oid_base k v.
Proof.
  induction fuel as [|fuel IH]; intros page st Hinv; cbn [walk_loop]; [exact Hinv|].
  destruct (interfaces_found st <? max_interfaces); [|exact Hinv].
  destruct (bulk_cmd a oid_base page 10 (current_oid st)) as [result|e] eqn:Hres;
    [|exact Hinv].
  destruct (errorIndication result); [exact Hinv|].
  destruct (errorStatus result); [exact Hinv|].
  destruct (varBinds result) as [|vb vbs] eqn:Hvb; [exact Hinv|].
  destruct (walk_page oid_name oid_base (vb :: vbs) (start_page st))
    as [st' exc] eqn:Hpage.
  assert (Hinv' : forall k v, zget k (oid_data st') = Some v ->
                              in_prefix_row a oid_name oid_base k v).
  { eapply walk_page_rows; [exact Hres | | | exact Hpage].
    - rewrite Hvb. apply incl_refl.
    - exact Hinv. }
  destruct exc; [exact Hinv'|].
  destruct (found_in_batch st'); [apply IH; exact Hinv'|exact Hinv'].
Qed.


Lemma walk_loop_fuel :
  forall f1 f2 page st,
    (Z.to_nat (max_interfaces - interfaces_found st) <= f1)%nat ->
    (Z.to_nat (max_interfaces - interfaces_found st) <= f2)%nat ->
    walk_loop f1 a oid_name oid_base max_interfaces page st
    = walk_loop f2 a oid_name oid_base max_interfaces page st.
Proof.
  induction f1 as [|f1 IH]; intros f2 page st H1 H2.
  - destruct f2 as [|f2]; cbn [walk_loop]; [reflexivity|].
    destruct (Z.ltb_spec (interfaces_found st) max_interfaces); [lia|reflexivity].
  - destruct f2 as [|f2]; cbn [walk_loop].
    + destruct (Z.ltb_spec (interfaces_found st) max_interfaces); [lia|reflexivity].
    + destruct (Z.ltb_spec (interfaces_found st) max_interfaces) as [Hlt|Hge];
        [|reflexivity].
      destruct (bulk_cmd a oid_base page 10 (current_oid st)) as [result|e];
        [|reflexivity].
      destruct (errorIndication result); [reflexivity|].
      destruct (errorStatus result); [reflexivity|].
      destruct (varBinds result) as [|vb vbs]; [reflexivity|].
      destruct (walk_page oid_name oid_base (vb :: vbs) (start_page st))
        as [st' exc] eqn:Hpage.
      destruct exc; [reflexivity|].
      destruct (found_in_batch st') eqn:Hf; [|reflexivity].
      apply walk_page_counts in Hpage.
      cbn [start_page interfaces_found oid_data found_in_batch] in Hpage.
      destruct Hpage as [_ [_ H3]].
      destruct (H3 Hf) as [H|H]; [discriminate|].
      apply IH; lia.
Qed.
Lemma walk_page_found_mono (vbs : list (string * RawValue)) :
  forall st st' exc,
    walk_page oid_name oid_base vbs st = (st', exc) ->
    found_in_batch st = true -> found_in_batch st' = true.
Proof.
  induction vbs as [|[n v] vbs IH]; intros st st' exc.
  - simpl. intros H; inversion H; subst. auto.
  - page_step; intros H Hf;
      try (inversion H; subst; exact Hf; fail);
      try (eapply IH; [exact H|exact Hf]; fail).
    eapply IH; [exact H|reflexivity].
Qed.

Lemma walk_page_nothing_found (vbs : list (string * RawValue)) :
  forall st st' exc,
    walk_page oid_name oid_base vbs st = (st', exc) ->
    found_in_batch st' = false -> st' = st.
Proof.
  induction vbs as [|[n v] vbs IH]; intros st st' exc.
  - simpl. intros H; inversion H; subst. reflexivity.
  - page_step; intros H Hf;
      try (inversion H; subst; reflexivity; fail);
      try (eapply IH; [exact H|exact Hf]; fail).
    apply walk_page_found_mono in H; [|reflexivity]. congruence.
Qed.

Lemma walk_page_cursor (vbs : list (string * RawValue)) :
  forall st st' exc,
    walk_page oid_name oid_base vbs st = (st', exc) ->
    st' = st
    \/ exists before val after,
         vbs = List.app before ((current_oid st', val) :: after)
         /\ startswith (current_oid st') oid_base = true
         /\ fst (walk_page oid_name oid_base after st') = st'.
Proof.
  induction vbs as [|[n v] vbs IH]; intros st st' exc.
  - simpl. intros H; inversion H; subst. left. reflexivity.
  - page_step; intros H;
      try (inversion H; subst; left; reflexivity; fail);
      try (destruct (IH _ _ _ H) as [E|[before [val [after [Hv [Hp Hl]]]]]];
           [ left; exact E
           | right; exists ((n, v) :: before), val, after;
             split; [rewrite Hv; reflexivity|split; [exact Hp|exact Hl]] ];
           fail).
    destruct (IH _ _ _ H) as [E|[before [val [after [Hv [Hp Hl]]]]]].
    + right. exists [], v, vbs. subst st'. cbn [current_oid List.app].
      split; [reflexivity|]. split; [assumption|].
      rewrite H. reflexivity.
    + right. exists ((n, v) :: before), val, after.
      split; [rewrite Hv; reflexivity|split; [exact Hp|exact Hl]].
Qed.

Lemma walk_trace_result :
  forall fuel page st,
    fst (walk_trace fuel a oid_name oid_base max_interfaces page st)
    = walk_loop fuel a oid_name oid_base max_interfaces page st.
Proof.
  induction fuel as [|fuel IH]; intros page st; cbn [walk_trace walk_loop];
    [reflexivity|].
  destruct (interfaces_found st <? max_interfaces); [|reflexivity].
  destruct (bulk_cmd a oid_base page 10 (current_oid st)) as [result|e];
    [|reflexivity].
  destruct (errorIndication result); [reflexivity|].
  destruct (errorStatus result); [reflexivity|].
  destruct (varBinds result) as [|vb vbs]; [reflexivity|].
  destruct (walk_page oid_name oid_base (vb :: vbs) (start_page st))
    as [st' exc].
  destruct exc; [reflexivity|].
  destruct (found_in_batch st'); [|reflexivity].
  rewrite <- IH.
  destruct (walk_trace fuel a oid_name oid_base max_interfaces (S page) st');
    reflexivity.
Qed.

Lemma walk_trace_first_request :
  forall fuel page st,
    interfaces_found st < max_interfaces ->
    exists requests,
      snd (walk_trace (S fuel) a oid_name oid_base max_interfaces page st)
      = (page, current_oid st) :: requests.
Proof.
  intros fuel page st Hlt. cbn [walk_trace].
  apply Z.ltb_lt in Hlt. rewrite Hlt.
  destruct (bulk_cmd a oid_base page 10 (current_oid st)) as [result|e];
    [|eexists; reflexivity].
  destruct (errorIndication result); [eexists; reflexivity|].
  destruct (errorStatus result); [eexists; reflexivity|].
  destruct (varBinds result) as [|vb vbs]; [eexists; reflexivity|].
  destruct (walk_page oid_name oid_base (vb :: vbs) (start_page st))
    as [st' exc].
  destruct exc; [eexists; reflexivity|].
  destruct (found_in_batch st'); [|eexists; reflexivity].
  destruct (walk_trace fuel a oid_name oid_base max_interfaces (S page) st').
  eexists; reflexivity.
Qed.

Lemma walk_trace_at_bound :
  forall fuel page st,
    max_interfaces <= interfaces_found st ->
    walk_trace fuel a oid_name oid_base max_interfaces page st
    = (oid_data st, []).
Proof.
  intros fuel page st Hge. destruct fuel; cbn [walk_trace]; [reflexivity|].
  destruct (Z.ltb_spec (interfaces_found st) max_interfaces); [lia|reflexivity].
Qed.
End Walk.

(** The loop of [_bulk_fetch_single_oid] ends by itself: any amount of fuel
    from [max_interfaces] on gives the same result. *)
Lemma bulk_fetch_single_oid_terminates (a : Agent) (oid_name oid_base : string)
    (max_interfaces : Z) (extra : nat) :
  sget oid_name OID_MAPPING = Some oid_base ->
  _bulk_fetch_single_oid a oid_name max_interfaces =
  Ok (walk_loop (Z.to_nat max_interfaces + extra) a oid_name oid_base
        max_interfaces 0 (walk_init oid_base)).
Proof.
  intros H. unfold _bulk_fetch_single_oid. rewrite H. f_equal.
  apply walk_loop_fuel; simpl; lia.
Qed.

(** C2, as stated, fails: the first page [Scenario.growing] returns for the
    description walk holds rows 1 and 2 and then an identifier outside the
    prefix, yet the walk does not end there: a second page is requested from
    the identifier of row 2, and row 3, which that page holds, is
    collected. *)
Lemma C2_counterexample :
  bulk_cmd Scenario.growing oid_ifDescr 0 10 oid_ifDescr
  = Ok (Scenario.response
          [Scenario.descr_row 1; Scenario.descr_row 2;
           ("1.3.6.1.2.1.2.2.1.3.1", Scenario.raw_int 6)])
  /\ startswith "1.3.6.1.2.1.2.2.1.3.1" oid_ifDescr = false
  /\ bulk_cmd Scenario.growing oid_ifDescr 1 10 "1.3.6.1.2.1.2.2.1.2.2"
     = Ok (Scenario.response
             [Scenario.descr_row 3;
              ("1.3.6.1.2.1.2.2.1.3.1", Scenario.raw_int 6)])
  /\ _bulk_fetch_single_oid Scenario.growing "ifDescr" 20
     = Ok [(1, VStr "Gi0/1"); (2, VStr "Gi0/2"); (3, VStr "Gi0/3")].
Proof. repeat split; reflexivity. Qed.

(** The prefix test of the walk compares characters, not identifier
    segments: a row of column 20 of the interface table passes the test for
    the description column (prefix ending in [.2]) and is collected by the
    description walk, under the trailing segment of its identifier. The
    statements on the walk below are about identifiers that fail the test
    and say nothing about such rows. *)
Example sibling_column_collected :
  startswith "1.3.6.1.2.1.2.2.1.20.7" oid_ifDescr = true
  /\ in_subtree "1.3.6.1.2.1.2.2.1.20.7" oid_ifDescr = false
  /\ in_subtree "1.3.6.1.2.1.2.2.1.2.7" oid_ifDescr = true
  /\ _bulk_fetch_single_oid Sample.sibling_column "ifDescr" 20
     = Ok [(1, VStr "Gi0/1"); (7, VStr "0")].
Proof. repeat split; reflexivity. Qed.

(** C2, amended. In every page of a walk, the first identifier that does
    not begin with the prefix ends the processing of that page, even when
    fewer than [max_interfaces] rows have been collected and bindings remain
    in the page: the page leaves the walk in the state its bindings before
    that identifier produce. The walk itself ends there, with no further
    request, when none of those bindings was collected (the result is then
    what it was before the page), when the number of collected rows has
    reached [max_interfaces], or when one of them raised an unexpected
    exception. Otherwise the walk goes on: the next request is sent, from
    the identifier of the last row of that page that was collected (the
    bindings after it leave the state as it is), and the result of the walk
    is the result of the walk continued from there. *)
Theorem C2_walk_stops_at_prefix_boundary
    (a : Agent) (oid_name oid_base : string) (max_interfaces : Z)
    (fuel page : nat) (st st' : WalkState) (exc : option PyExc)
    (result : SnmpResult) (pre post : list (string * RawValue))
    (name : string) (val : RawValue) :
  sget oid_name OID_MAPPING = Some oid_base ->
  (Z.to_nat (max_interfaces - interfaces_found st) <= fuel)%nat ->
  interfaces_found st < max_interfaces ->
  bulk_cmd a oid_base page 10 (current_oid st) = Ok result ->
  errorIndication result = false -> errorStatus result = false ->
  varBinds result = List.app pre ((name, val) :: post) ->
  startswith name oid_base = false ->
  walk_page oid_name oid_base pre (start_page st) = (st', exc) ->
  _bulk_fetch_single_oid a oid_name max_interfaces
  = Ok (fst (walk_trace (Z.to_nat max_interfaces) a oid_name oid_base
               max_interfaces 0 (walk_init oid_base)))
  /\ walk_page oid_name oid_base (varBinds result) (start_page st) = (st', exc)
  /\ (found_in_batch st' = false -> oid_data st' = oid_data st)
  /\ (found_in_batch st' = false
      \/ max_interfaces <= interfaces_found st'
      \/ exc <> None ->
      walk_trace fuel a oid_name oid_base max_interfaces page st
      = (oid_data st', [(page, current_oid st)]))
  /\ (found_in_batch st' = true ->
      interfaces_found st' < max_interfaces ->
      exc = None ->
      (exists before v after,
         pre = List.app before ((current_oid st', v) :: after)
         /\ startswith (current_oid st') oid_base = true
         /\ fst (walk_page oid_name oid_base after st') = st')
      /\ exists requests,
           walk_trace fuel a oid_name oid_base max_interfaces page st
           = (walk_loop fuel a oid_name oid_base max_interfaces (S page) st',
              (page, current_oid st) :: (S page, current_oid st') :: requests)).
Proof.
  intros Hbase Hfuel Hlt Hres Hi Hs Hvb Hout Hpre.
  assert (Hpage : walk_page oid_name oid_base (varBinds result) (start_page st)
                  = (st', exc)).
  { rewrite Hvb.
    rewrite (walk_page_stops_at_out_of_prefix oid_name oid_base pre post
               name val Hout).
    exact Hpre. }
  assert (Hstep :
    forall f,
      walk_trace (S f) a oid_name oid_base max_interfaces page st
      = match exc with
        | Some _ => (oid_data st', [(page, current_oid st)])
        | None =>
            if found_in_batch st'
            then
              let (d, requests) :=
                walk_trace f a oid_name oid_base max_interfaces (S page) st' in
              (d, (page, current_oid st) :: requests)
            else (oid_data st', [(page, current_oid st)])
        end).
  { intros f. cbn [walk_trace].
    pose proof Hlt as Hlt'. apply Z.ltb_lt in Hlt'. rewrite Hlt', Hres, Hi, Hs.
    destruct (varBinds result) as [|vb vbs] eqn:E.
    - destruct pre; discriminate.
    - rewrite Hpage. destruct exc; reflexivity. }
  destruct fuel as [|f]; [lia|].
  split; [|split; [|split; [|split]]].
  - unfold _bulk_fetch_single_oid. rewrite Hbase.
    rewrite walk_trace_result. reflexivity.
  - exact Hpage.
  - intros Hf. apply walk_page_nothing_found in Hpre; [|exact Hf].
    subst st'. reflexivity.
  - intros Hend. rewrite Hstep.
    destruct exc as [e|]; [reflexivity|].
    destruct (found_in_batch st') eqn:Hf; [|reflexivity].
    destruct Hend as [Hend|[Hend|Hend]]; [discriminate| |congruence].
    rewrite (walk_trace_at_bound a oid_name oid_base max_interfaces f (S page)
               st' Hend).
    reflexivity.
  - intros Hf Hlt' Hexc. subst exc. split.
    + destruct (walk_page_cursor oid_name oid_base pre _ _ _ Hpre)
        as [E|H]; [|exact H].
      subst st'. discriminate.
    + pose proof (walk_page_counts oid_name oid_base pre _ _ _ Hpre) as Hc.
      cbn [start_page interfaces_found found_in_batch] in Hc.
      destruct Hc as [_ [_ Hc]].
      destruct (Hc Hf) as [Hc'|Hc']; [discriminate|].
      destruct f as [|f']; [lia|].
      rewrite Hstep, Hf.
      destruct (walk_trace_first_request a oid_name oid_base max_interfaces
                  f' (S page) st' Hlt') as [requests Hreq].
      pose proof (walk_trace_result a oid_name oid_base max_interfaces
                    (S f') (S page) st') as Hfst.
      destruct (walk_trace (S f') a oid_name oid_base max_interfaces
                  (S page) st') as [d requests'].
      cbn [fst snd] in Hreq, Hfst. subst requests' d.
      exists requests. f_equal.
      apply walk_loop_fuel; lia.
Qed.

Lemma C2_witness :
  interfaces_found (walk_init oid_ifDescr) < 20
  /\ startswith "1.3.6.1.2.1.2.2.1.3.1" oid_ifDescr = false
  /\ found_in_batch Sample.growing_after_first_page = true
  /\ current_oid Sample.growing_after_first_page = "1.3.6.1.2.1.2.2.1.2.2"
  /\ exists requests,
       walk_trace 20 Scenario.growing "ifDescr" oid_ifDescr 20 0
         (walk_init oid_ifDescr)
       = (walk_loop 20 Scenario.growing "ifDescr" oid_ifDescr 20 1
            Sample.growing_after_first_page,
          (0%nat, current_oid (walk_init oid_ifDescr))
          :: (1%nat, current_oid Sample.growing_after_first_page) :: requests).
Proof.
  split; [reflexivity|]. split; [reflexivity|]. split; [reflexivity|].
  split; [reflexivity|].
  apply (proj2 (proj2 (proj2 (proj2
    (C2_walk_stops_at_prefix_boundary Scenario.growing "ifDescr" oid_ifDescr 20
       20 0 (walk_init oid_ifDescr) Sample.growing_after_first_page None
       (Scenario.response
          [Scenario.descr_row 1; Scenario.descr_row 2;
           ("1.3.6.1.2.1.2.2.1.3.1", Scenario.raw_int 6)])
       [Scenario.descr_row 1; Scenario.descr_row 2] []
       "1.3.6.1.2.1.2.2.1.3.1" (Scenario.raw_int 6)
       eq_refl (Nat.le_refl 20) eq_refl eq_refl eq_refl eq_refl eq_refl eq_refl
       eq_refl)))));
    reflexivity.
Defined.





(** ** InterfaceDataAggregator and the order of the records *)

Lemma zmem_zin {V : Type} (k : Z) (d : zdict V) :
  zmem k d = zin k (dict_keys d).
Proof.
  destruct (zin k (dict_keys d)) eqn:E.
  - apply zin_In in E. apply (dict_mem_In Z.eqb Zeqb_eq'). exact E.
  - destruct (zmem k d) eqn:M; [|reflexivity].
    apply (dict_mem_In Z.eqb Zeqb_eq') in M. apply zin_In in M. congruence.
Qed.

Lemma merge_entry_keys (oid_name : string) (d : zdict (sdict TypedValue))
    (kv : Z * TypedValue) :
  dict_keys (merge_entry oid_name d kv) = see (dict_keys d) (fst kv).
Proof.
  unfold merge_entry, see. rewrite <- zmem_zin.
  destruct (zmem (fst kv) d) eqn:M.
  - destruct (zget (fst kv) d) as [fields|] eqn:G.
    + unfold zset. rewrite (dict_keys_set Z.eqb).
      fold (@zmem (sdict TypedValue)). rewrite M. reflexivity.
    + reflexivity.
  - rewrite zget_zset_same.
    unfold zset. rewrite (dict_keys_set Z.eqb).
    match goal with
    | |- (if ?c then _ else _) = _ =>
        assert (M1 : c = true);
        [ apply (dict_mem_get Z.eqb); eexists;
          apply (dict_get_set_same Z.eqb Zeqb_eq')
        | rewrite M1 ]
    end.
    rewrite (dict_keys_set Z.eqb).
    fold (@zmem (sdict TypedValue)). rewrite M. reflexivity.
Qed.

Lemma merge_entries_keys (oid_name : string) (result : zdict TypedValue) :
  forall d,
    dict_keys (fold_left (merge_entry oid_name) result d)
    = fold_left see (dict_keys result) (dict_keys d).
Proof.
  induction result as [|kv result IH]; intros d; simpl; [reflexivity|].
  rewrite IH, merge_entry_keys. reflexivity.
Qed.

Lemma merge_results_keys (rs : list (string * PyResult (zdict TypedValue))) :
  forall d,
    dict_keys (fold_left merge_result rs d)
    = fold_left see (discovered rs) (dict_keys d).
Proof.
  induction rs as [|r rs IH]; intros d; simpl; [reflexivity|].
  unfold discovered in *. simpl. rewrite fold_left_app, IH.
  f_equal. unfold merge_result.
  destruct (snd r) as [result|e]; simpl; [apply merge_entries_keys|reflexivity].
Qed.

Lemma see_all_NoDup (l : list Z) :
  forall acc, NoDup acc -> NoDup (fold_left see l acc).
Proof.
  induction l as [|k l IH]; intros acc H; simpl; [exact H|].
  apply IH. unfold see. destruct (zin k acc) eqn:E; [exact H|].
  apply NoDup_app; [exact H | constructor; [simpl; tauto|constructor] |].
  intros x Hx [Hk|[]]. subst x. apply zin_In in Hx. congruence.
Qed.

Lemma see_all_In (l : list Z) :
  forall acc x, In x (fold_left see l acc) <-> In x acc \/ In x l.
Proof.
  induction l as [|k l IH]; intros acc x; simpl; [tauto|].
  rewrite IH. unfold see. destruct (zin k acc) eqn:E.
  - apply zin_In in E. split; [tauto|]. intros [H|[H|H]]; subst; auto.
  - rewrite in_app_iff. simpl. tauto.
Qed.

Lemma assemble_Index (vlan_data power_data : zdict string)
    (d : zdict (sdict TypedValue)) :
  map Index (map (assemble vlan_data power_data) d) = dict_keys d.
Proof.
  unfold dict_keys. rewrite map_map. apply map_ext. intros [k f]. reflexivity.
Qed.

(** What a successful fetch returns: the records assembled from the
    aggregated map, which is not empty. *)
Lemma run_success (w : SNMPWorker) (a : Agent) (recs : list InterfaceRecord) :
  run w a = [success recs; finished] ->
  exists vlan_data power_data,
    recs = map (assemble vlan_data power_data)
               (_bulk_fetch_interface_data w a (_get_interface_count w a))
    /\ create_target a (timeout w) (retries w) = Ok tt.
Proof.
  unfold run, _fetch_interface_data.
  destruct (_test_connectivity w a); simpl; [|discriminate].
  destruct (_bulk_fetch_interface_data w a (_get_interface_count w a))
    as [|e d] eqn:E; simpl; [discriminate|].
  intros H. inversion H; subst.
  eexists; eexists. split; [reflexivity|].
  unfold _bulk_fetch_interface_data in E.
  destruct (create_target a (timeout w) (retries w)) as [[]|]; [reflexivity|discriminate].
Qed.

(** C5, as stated, fails: for [Scenario.sparse] the fetch succeeds and
    returns the record of interface 2 before the record of interface 1. *)
Lemma C5_counterexample :
  run Scenario.worker Scenario.sparse = [success Scenario.sparse_records; finished]
  /\ map Index Scenario.sparse_records = [2; 1]
  /\ ascending (map Index Scenario.sparse_records) = false.
Proof. repeat split; vm_compute; reflexivity. Qed.

(** C5, amended. For every successful fetch, the returned list contains
    exactly one record per discovered interface index, in the order in which
    the indices were first collected: the core fields in their fixed order,
    each walk in the order in which it collected its rows. The list is not
    sorted. *)
Theorem C5_one_record_per_index_in_discovery_order
    (w : SNMPWorker) (a : Agent) (recs : list InterfaceRecord) :
  run w a = [success recs; finished] ->
  map Index recs
  = first_occurrences (discovered (gather_walks a (_get_interface_count w a)))
  /\ NoDup (map Index recs)
  /\ (forall i,
        In i (map Index recs)
        <-> In i (discovered (gather_walks a (_get_interface_count w a)))).
Proof.
  intros H. apply run_success in H.
  destruct H as [vlan_data [power_data [Hrecs Hc]]].
  assert (E : map Index recs
              = first_occurrences
                  (discovered (gather_walks a (_get_interface_count w a)))).
  { rewrite Hrecs, assemble_Index.
    unfold _bulk_fetch_interface_data. rewrite Hc.
    rewrite merge_results_keys. reflexivity. }
  rewrite E. unfold first_occurrences.
  split; [reflexivity|]. split.
  - apply see_all_NoDup. constructor.
  - intros i. rewrite see_all_In. simpl. tauto.
Qed.

Lemma C5_witness :
  run Scenario.worker Scenario.sparse = [success Scenario.sparse_records; finished]
  /\ map Index Scenario.sparse_records
     = first_occurrences
         (discovered (gather_walks Scenario.sparse
                        (_get_interface_count Scenario.worker Scenario.sparse))).
Proof.
  assert (H : run Scenario.worker Scenario.sparse
              = [success Scenario.sparse_records; finished])
    by (vm_compute; reflexivity).
  split; [exact H|].
  exact (proj1 (C5_one_record_per_index_in_discovery_order Scenario.worker
                  Scenario.sparse Scenario.sparse_records H)).
Defined.

(** ** VlanResolver *)

Lemma zget_none_not_in {V : Type} (i : Z) (d : zdict V) :
  zget i d = None -> forall k v, In (k, v) d -> k <> i.
Proof.
  intros H k v Hin E. subst k.
  assert (M : zmem i d = true).
  { apply (dict_mem_In Z.eqb Zeqb_eq'). change i with (fst (i, v)).
    apply in_map. exact Hin. }
  apply (dict_mem_get Z.eqb) in M. destruct M as [x M].
  unfold zget in H. congruence.
Qed.

Lemma zset_fresh {V : Type} (k : Z) (v : V) (d : zdict V) :
  zget k d = None -> zset k v d = List.app d [(k, v)].
Proof.
  induction d as [|[k' v'] d IH]; simpl; [reflexivity|].
  destruct (k =? k') eqn:E; [discriminate|].
  intros H. f_equal. apply IH. exact H.
Qed.

Lemma zset_keys_NoDup {V : Type} (k : Z) (v : V) (d : zdict V) :
  NoDup (dict_keys d) -> NoDup (dict_keys (zset k v d)).
Proof. apply (dict_keys_set_NoDup Z.eqb Zeqb_eq'). Qed.

Lemma dict_update_app {V : Type} (e : zdict V) :
  forall d,
    NoDup (List.app (dict_keys d) (dict_keys e)) ->
    dict_update Z.eqb d e = List.app d e.
Proof.
  unfold dict_update.
  induction e as [|[k v] e IH]; intros d H; simpl.
  - rewrite app_nil_r. reflexivity.
  - assert (Hk : zget k d = None).
    { apply (dict_mem_false_get Z.eqb).
      destruct (dict_mem Z.eqb k d) eqn:M; [|reflexivity].
      apply (dict_mem_In Z.eqb Zeqb_eq') in M.
      apply NoDup_remove_2 in H. exfalso. apply H.
      apply in_or_app. left. exact M. }
    fold (@zset V). rewrite (zset_fresh k v d Hk).
    rewrite IH.
    + rewrite <- app_assoc. reflexivity.
    + unfold dict_keys in *. rewrite map_app. simpl.
      rewrite <- app_assoc. exact H.
Qed.

Lemma dict_update_nil {V : Type} (e : zdict V) :
  NoDup (dict_keys e) -> dict_update Z.eqb [] e = e.
Proof. intros H. apply (dict_update_app e []). exact H. Qed.

Lemma fill_na_keeps (i : Z) (v : string) :
  forall l d, zget i d = Some v -> zget i (fill_na l d) = Some v.
Proof.
  unfold fill_na. induction l as [|k l IH]; intros d H; simpl; [exact H|].
  apply IH. destruct (zmem k d) eqn:M; [exact H|].
  rewrite zget_zset. destruct (Z.eqb_spec i k) as [->|Hne]; [|exact H].
  apply (dict_mem_false_get Z.eqb) in M. unfold zget in H. congruence.
Qed.

Lemma fill_na_fills (i : Z) :
  forall l d, In i l -> zget i d = None -> zget i (fill_na l d) = Some "N/A".
Proof.
  induction l as [|k l IH]; intros d Hin H; [contradiction|].
  change (fill_na (k :: l) d)
    with (fill_na l (if zmem k d then d else zset k "N/A" d)).
  destruct (Z.eqb_spec i k) as [->|Hne].
  - apply fill_na_keeps.
    destruct (zmem k d) eqn:M.
    + apply (dict_mem_get Z.eqb) in M. destruct M as [x M].
      unfold zget in H. congruence.
    + apply zget_zset_same.
  - destruct Hin as [E|Hin]; [congruence|].
    apply IH; [exact Hin|].
    destruct (zmem k d); [exact H|].
    rewrite zget_zset_other; [exact H|exact Hne].
Qed.

Lemma fill_na_total (i : Z) (l : list Z) (d : zdict string) :
  In i l -> exists v, zget i (fill_na l d) = Some v.
Proof.
  intros Hin. destruct (zget i d) as [v|] eqn:E.
  - exists v. apply fill_na_keeps. exact E.
  - exists "N/A". apply fill_na_fills; assumption.
Qed.

Lemma vlan_id_page_NoDup (oid : string) (indices : list Z)
    (vbs : list (string * RawValue)) :
  forall data,
    NoDup (dict_keys data) ->
    NoDup (dict_keys (fst (vlan_id_page oid indices vbs data))).
Proof.
  induction vbs as [|[n v] vbs IH]; intros data H; simpl; [exact H|].
  destruct (negb (startswith n oid)); [apply IH; exact H|].
  destruct (idx <- index_of_name n;; vlan_id <- as_int v;; Ok (idx, vlan_id))
    as [[idx vlan_id]|e].
  - destruct (zin idx indices); apply IH; [|exact H].
    apply zset_keys_NoDup. exact H.
  - destruct (is_value_or_index_error e); [apply IH; exact H|exact H].
Qed.

Lemma vlan_id_page_no_row (oid : string) (indices : list Z) (i : Z)
    (vbs : list (string * RawValue)) :
  (forall name val, In (name, val) vbs -> startswith name oid = true ->
                    index_of_name name <> Ok i) ->
  forall data,
    zget i (fst (vlan_id_page oid indices vbs data)) = zget i data.
Proof.
  induction vbs as [|[n v] vbs IH]; intros Hno data; simpl; [reflexivity|].
  assert (Hno' : forall name val, In (name, val) vbs ->
                   startswith name oid = true -> index_of_name name <> Ok i)
    by (intros name val Hin; apply (Hno name val); right; exact Hin).
  destruct (startswith n oid) eqn:Hs; cbn [negb]; [|apply IH; exact Hno'].
  assert (Hn : index_of_name n <> Ok i)
    by (apply (Hno n v); [left; reflexivity|exact Hs]).
  destruct (index_of_name n) as [k|e]; cbn [bind].
  - destruct (as_int v) as [vlan_id|e]; cbn [bind].
    + destruct (zin k indices); [|apply IH; exact Hno'].
      rewrite IH; [|exact Hno']. apply zget_zset_other. congruence.
    + destruct (is_value_or_index_error e); [apply IH; exact Hno'|reflexivity].
  - destruct (is_value_or_index_error e); [apply IH; exact Hno'|reflexivity].
Qed.

Lemma fetch_vlan_id_table_no_row (a : Agent) (oid : string) (indices : list Z)
    (i : Z) :
  no_row a oid i -> zget i (fetch_vlan_id_table a oid indices) = None.
Proof.
  intros Hno. unfold fetch_vlan_id_table.
  destruct (bulk_cmd a oid 0 20 oid) as [result|e] eqn:Hres; [|reflexivity].
  destruct (usable result); [|reflexivity].
  rewrite vlan_id_page_no_row; [reflexivity|].
  intros name val Hin. apply (Hno result name val Hres Hin).
Qed.

Lemma fetch_vlan_id_table_NoDup (a : Agent) (oid : string) (indices : list Z) :
  NoDup (dict_keys (fetch_vlan_id_table a oid indices)).
Proof.
  unfold fetch_vlan_id_table.
  destruct (bulk_cmd a oid 0 20 oid) as [result|e]; [|constructor].
  destruct (usable result); [|constructor].
  apply vlan_id_page_NoDup. constructor.
Qed.

Lemma merge_missing_get (i : Z) (c : zdict string) :
  forall d,
    zget i (fold_left merge_missing c d)
    = match zget i d with
      | Some s => Some s
      | None => zget i c
      end.
Proof.
  induction c as [|[k x] c IH]; intros d; simpl.
  - destruct (zget i d); reflexivity.
  - rewrite IH. unfold merge_missing. simpl.
    destruct (Z.eqb_spec i k) as [->|Hne].
    + destruct (zmem k d) eqn:M.
      * apply (dict_mem_get Z.eqb) in M. destruct M as [y M].
        unfold zget. rewrite M. reflexivity.
      * rewrite zget_zset_same.
        apply (dict_mem_false_get Z.eqb) in M. unfold zget. rewrite M.
        reflexivity.
    + destruct (zmem k d); [reflexivity|].
      rewrite zget_zset_other; [reflexivity|exact Hne].
Qed.

Lemma merge_missing_NoDup (c : zdict string) :
  forall d, NoDup (dict_keys d) -> NoDup (dict_keys (fold_left merge_missing c d)).
Proof.
  induction c as [|[k x] c IH]; intros d H; simpl; [exact H|].
  apply IH. unfold merge_missing. simpl.
  destruct (zmem k d); [exact H|apply zset_keys_NoDup; exact H].
Qed.

Lemma enhance_loop_other (vlan_names : zdict string) (i : Z) :
  forall items vlan_data,
    (forall k info, In (k, info) items -> k <> i) ->
    zget i (fst (enhance_loop vlan_names items vlan_data)) = zget i vlan_data.
Proof.
  induction items as [|[k info] items IH]; intros vd H; simpl; [reflexivity|].
  assert (H' : forall k0 info0, In (k0, info0) items -> k0 <> i)
    by (intros k0 info0 Hin; apply (H k0 info0); right; exact Hin).
  assert (Hk : k <> i) by (apply (H k info); left; reflexivity).
  destruct (isdigit info); [|apply IH; exact H'].
  destruct (py_int_of_str info) as [vlan_id|e]; [|reflexivity].
  destruct (zget vlan_id vlan_names) as [nm|]; [|apply IH; exact H'].
  rewrite IH; [|exact H'].
  apply zget_zset_other. congruence.
Qed.

Lemma enhance_loop_value (vlan_names : zdict string) (i : Z) (s : string) :
  forall items vlan_data,
    (forall info, In (i, info) items -> info = s) ->
    (exists v, zget i vlan_data = Some v /\ derived_from vlan_names s v) ->
    exists v,
      zget i (fst (enhance_loop vlan_names items vlan_data)) = Some v
      /\ derived_from vlan_names s v.
Proof.
  induction items as [|[k info] items IH]; intros vd H Hv; simpl; [exact Hv|].
  assert (H' : forall info0, In (i, info0) items -> info0 = s)
    by (intros info0 Hin; apply H; right; exact Hin).
  destruct (isdigit info); [|apply IH; assumption].
  destruct (py_int_of_str info) as [vlan_id|e] eqn:Eint; [|exact Hv].
  destruct (zget vlan_id vlan_names) as [nm|] eqn:Enm; [|apply IH; assumption].
  apply IH; [exact H'|].
  rewrite zget_zset. destruct (Z.eqb_spec i k) as [->|Hne]; [|exact Hv].
  assert (info = s) by (apply H; left; reflexivity). subst info.
  eexists. split; [reflexivity|]. right. exists vlan_id, nm. auto.
Qed.

(** The [try] block of [_get_vlan_data_bulk] once the transport exists: the
    PVID data, completed from the vendor table when coverage is empty or
    below half, then the rewriting with names. *)
Lemma vlan_try_eq (a : Agent) (indices : list Z) :
  create_target a 2 1 = Ok tt ->
  vlan_try a indices =
  let pvid := _fetch_pvid_data a indices in
  let merged :=
    if negb (nonempty pvid) || below_half pvid indices
    then fold_left merge_missing (_fetch_cisco_vlan_data a indices) pvid
    else pvid in
  if nonempty merged then
    if nonempty (_fetch_vlan_names a)
    then enhance_loop (_fetch_vlan_names a) merged merged
    else (merged, None)
  else (merged, None).
Proof.
  intros Hc. unfold vlan_try. rewrite Hc. cbv zeta.
  assert (E1 : (if nonempty (_fetch_pvid_data a indices)
                then dict_update Z.eqb [] (_fetch_pvid_data a indices)
                else []) = _fetch_pvid_data a indices).
  { destruct (_fetch_pvid_data a indices) as [|kv d] eqn:E; [reflexivity|].
    cbn [nonempty]. apply dict_update_nil. rewrite <- E.
    apply fetch_vlan_id_table_NoDup. }
  rewrite E1.
  assert (E2 : (if nonempty (_fetch_cisco_vlan_data a indices)
                then fold_left merge_missing (_fetch_cisco_vlan_data a indices)
                       (_fetch_pvid_data a indices)
                else _fetch_pvid_data a indices)
               = fold_left merge_missing (_fetch_cisco_vlan_data a indices)
                   (_fetch_pvid_data a indices)).
  { destruct (_fetch_cisco_vlan_data a indices); reflexivity. }
  rewrite E2. reflexivity.
Qed.

Lemma vlan_try_no_evidence (a : Agent) (indices : list Z) (i : Z) :
  zget i (_fetch_pvid_data a indices) = None ->
  zget i (_fetch_cisco_vlan_data a indices) = None ->
  zget i (fst (vlan_try a indices)) = None.
Proof.
  intros Hp Hv.
  destruct (create_target a 2 1) as [[]|e] eqn:Hc.
  - rewrite (vlan_try_eq a indices Hc). cbv zeta.
    set (merged := if negb (nonempty (_fetch_pvid_data a indices))
                      || below_half (_fetch_pvid_data a indices) indices
                   then fold_left merge_missing (_fetch_cisco_vlan_data a indices)
                          (_fetch_pvid_data a indices)
                   else _fetch_pvid_data a indices).
    assert (Hm : zget i merged = None).
    { unfold merged.
      destruct (negb (nonempty (_fetch_pvid_data a indices))
                || below_half (_fetch_pvid_data a indices) indices);
        [|exact Hp].
      rewrite merge_missing_get, Hp. exact Hv. }
    destruct (nonempty merged); [|exact Hm].
    destruct (nonempty (_fetch_vlan_names a)); [|exact Hm].
    rewrite enhance_loop_other; [exact Hm|].
    apply zget_none_not_in. exact Hm.
  - unfold vlan_try. rewrite Hc. reflexivity.
Qed.

Lemma vlan_try_derived (a : Agent) (indices : list Z) (i : Z) (s : string) :
  create_target a 2 1 = Ok tt ->
  (zget i (_fetch_pvid_data a indices) = Some s
   \/ (zget i (_fetch_pvid_data a indices) = None
       /\ negb (nonempty (_fetch_pvid_data a indices))
          || below_half (_fetch_pvid_data a indices) indices = true
       /\ zget i (_fetch_cisco_vlan_data a indices) = Some s)) ->
  exists v,
    zget i (fst (vlan_try a indices)) = Some v
    /\ derived_from (_fetch_vlan_names a) s v.
Proof.
  intros Hc Hs. rewrite (vlan_try_eq a indices Hc). cbv zeta.
  set (merged := if negb (nonempty (_fetch_pvid_data a indices))
                    || below_half (_fetch_pvid_data a indices) indices
                 then fold_left merge_missing (_fetch_cisco_vlan_data a indices)
                        (_fetch_pvid_data a indices)
                 else _fetch_pvid_data a indices).
  assert (Hm : zget i merged = Some s).
  { unfold merged. destruct Hs as [Hp|[Hp [Hcov Hv]]].
    - destruct (negb (nonempty (_fetch_pvid_data a indices))
                || below_half (_fetch_pvid_data a indices) indices);
        [|exact Hp].
      rewrite merge_missing_get, Hp. reflexivity.
    - rewrite Hcov, merge_missing_get, Hp. exact Hv. }
  assert (Hnd : NoDup (dict_keys merged)).
  { unfold merged.
    destruct (negb (nonempty (_fetch_pvid_data a indices))
              || below_half (_fetch_pvid_data a indices) indices).
    - apply merge_missing_NoDup. apply fetch_vlan_id_table_NoDup.
    - apply fetch_vlan_id_table_NoDup. }
  assert (Hv0 : exists v, zget i merged = Some v
                          /\ derived_from (_fetch_vlan_names a) s v).
  { exists s. split; [exact Hm|left; reflexivity]. }
  destruct (nonempty merged); [|exact Hv0].
  destruct (nonempty (_fetch_vlan_names a)); [|exact Hv0].
  apply enhance_loop_value; [|exact Hv0].
  intros info Hin.
  apply (dict_In_get Z.eqb Zeqb_eq' i info merged Hnd) in Hin.
  unfold zget in Hm. congruence.
Qed.

(** C6. For every device and every list of requested indices,
    [_get_vlan_data_bulk] does not raise and returns a map with an entry for
    every requested index; an index for which neither the PVID step nor the
    vendor step has a value (the name step only rewrites values) is mapped
    to ["N/A"]. In particular an index that appears in no row of the PVID
    page and in no row of the vendor page is mapped to ["N/A"]. *)
Theorem C6_vlan_resolver_total (a : Agent) (interface_indices : list Z) :
  exists m,
    _get_vlan_data_bulk a interface_indices = Ok m
    /\ (forall i, In i interface_indices -> exists v, zget i m = Some v)
    /\ (forall i,
          In i interface_indices ->
          zget i (_fetch_pvid_data a interface_indices) = None ->
          zget i (_fetch_cisco_vlan_data a interface_indices) = None ->
          zget i m = Some "N/A")
    /\ (forall i,
          In i interface_indices ->
          no_row a oid_dot1qPvid i -> no_row a oid_vmVlan i ->
          zget i m = Some "N/A").
Proof.
  eexists. split; [reflexivity|]. split; [|split].
  - intros i Hin. apply fill_na_total. exact Hin.
  - intros i Hin Hp Hv. apply fill_na_fills; [exact Hin|].
    apply vlan_try_no_evidence; assumption.
  - intros i Hin Hp Hv. apply fill_na_fills; [exact Hin|].
    apply vlan_try_no_evidence; apply fetch_vlan_id_table_no_row; assumption.
Qed.

Lemma C6_witness :
  exists m,
    _get_vlan_data_bulk Scenario.two_vlan_sources [1; 2; 3; 4] = Ok m
    /\ zget 4 m = Some "N/A".
Proof.
  destruct (C6_vlan_resolver_total Scenario.two_vlan_sources [1; 2; 3; 4])
    as [m [Hm [_ [Hna _]]]].
  exists m. split; [exact Hm|].
  apply Hna; [simpl; tauto | reflexivity | reflexivity].
Defined.

(** C7. For every index for which the PVID table yields a value, the final
    VLAN value of that index is derived from the PVID value, whatever the
    vendor table says: it is the PVID string, possibly rewritten with the
    VLAN name. A vendor value appears in the result only for an index the
    PVID step left missing. *)
Theorem C7_pvid_takes_precedence
    (a : Agent) (interface_indices : list Z) (i : Z) :
  create_target a 2 1 = Ok tt ->
  (forall s,
     zget i (_fetch_pvid_data a interface_indices) = Some s ->
     exists m v,
       _get_vlan_data_bulk a interface_indices = Ok m
       /\ zget i m = Some v
       /\ derived_from (_fetch_vlan_names a) s v)
  /\ (forall c,
        zget i (_fetch_pvid_data a interface_indices) = None ->
        negb (nonempty (_fetch_pvid_data a interface_indices))
        || below_half (_fetch_pvid_data a interface_indices) interface_indices
        = true ->
        zget i (_fetch_cisco_vlan_data a interface_indices) = Some c ->
        exists m v,
          _get_vlan_data_bulk a interface_indices = Ok m
          /\ zget i m = Some v
          /\ derived_from (_fetch_vlan_names a) c v).
Proof.
  intros Hc. split.
  - intros s Hs.
    destruct (vlan_try_derived a interface_indices i s Hc (or_introl Hs))
      as [v [Hv Hd]].
    eexists; exists v. split; [reflexivity|]. split; [|exact Hd].
    apply fill_na_keeps. exact Hv.
  - intros c Hp Hcov Hv.
    destruct (vlan_try_derived a interface_indices i c Hc
                (or_intror (conj Hp (conj Hcov Hv)))) as [v [Hv' Hd]].
    eexists; exists v. split; [reflexivity|]. split; [|exact Hd].
    apply fill_na_keeps. exact Hv'.
Qed.

Lemma C7_witness :
  create_target Scenario.two_vlan_sources 2 1 = Ok tt
  /\ zget 1 (_fetch_pvid_data Scenario.two_vlan_sources [1; 2; 3; 4]) = Some "10"
  /\ zget 1 (_fetch_cisco_vlan_data Scenario.two_vlan_sources [1; 2; 3; 4])
     = Some "20"
  /\ exists m v,
       _get_vlan_data_bulk Scenario.two_vlan_sources [1; 2; 3; 4] = Ok m
       /\ zget 1 m = Some v
       /\ derived_from (_fetch_vlan_names Scenario.two_vlan_sources) "10" v.
Proof.
  split; [reflexivity|]. split; [reflexivity|]. split; [reflexivity|].
  apply (proj1 (C7_pvid_takes_precedence Scenario.two_vlan_sources [1; 2; 3; 4] 1
                  eq_refl)).
  reflexivity.
Defined.

(** ** PowerResolver *)

Lemma render_power_raises (r : Z) (e : PyExc) :
  render_power r = Raise e -> e = OverflowError.
Proof.
  unfold render_power, py_truediv.
  destruct (0 <? r); [|discriminate].
  match goal with
  | |- context [let '(m', e') := ?p in _] => destruct p as [m' e']
  end.
  destruct (971 <? e'); simpl; congruence.
Qed.

Lemma render_power_cases (r : Z) (s : string) :
  render_power r = Ok s ->
  (r <= 0 -> s = "0W")
  /\ (0 < r -> exists x, py_truediv r 1000 = Ok x /\ s = format_1f x ++ "W").
Proof.
  unfold render_power.
  destruct (Z.ltb_spec 0 r) as [Hpos|Hle]; intros H.
  - split; [lia|]. intros _.
    destruct (py_truediv r 1000) as [x|e]; simpl in H; [|discriminate].
    exists x. split; [reflexivity|congruence].
  - split; [congruence|lia].
Qed.

Section PowerPage.
Variable power_oid : string.
Variable interface_indices : list Z.
Variable i : Z.

Lemma power_page_tail (vb : string * RawValue) (rest : list (string * RawValue)) :
  forall pd pd',
    power_page power_oid interface_indices (vb :: rest) pd = (pd', None) ->
    exists pd1, power_page power_oid interface_indices rest pd1 = (pd', None).
Proof.
  intros pd pd'. destruct vb as [n v]. cbn [power_page].
  destruct (negb (startswith n power_oid)); [eauto|].
  match goal with
  | |- context [match ?step with Ok _ => _ | Raise _ => _ end] =>
      destruct step as [pd1|e]
  end.
  - eauto.
  - destruct (is_value_or_index_error e); [eauto|discriminate].
Qed.

Lemma power_page_skip (post : list (string * RawValue)) :
  (forall n v, In (n, v) post -> startswith n power_oid = true ->
               index_of_name n <> Ok i) ->
  forall pd pd' exc,
    power_page power_oid interface_indices post pd = (pd', exc) ->
    zget i pd' = zget i pd.
Proof.
  induction post as [|[n v] post IH]; intros Hno pd pd' exc.
  - simpl. intros H; inversion H; reflexivity.
  - assert (Hno' : forall n0 v0, In (n0, v0) post ->
                     startswith n0 power_oid = true -> index_of_name n0 <> Ok i)
      by (intros n0 v0 Hin; apply (Hno n0 v0); right; exact Hin).
    cbn [power_page].
    destruct (startswith n power_oid) eqn:Hs; cbn [negb]; [|apply IH; exact Hno'].
    assert (Hn : index_of_name n <> Ok i)
      by (apply (Hno n v); [left; reflexivity|exact Hs]).
    destruct (index_of_name n) as [k|e]; cbn [bind].
    + assert (Hk : i <> k) by congruence.
      destruct (zin k interface_indices); [|apply IH; exact Hno'].
      destruct (as_int v) as [pv|e]; cbn [bind].
      * destruct (render_power pv) as [s|e]; cbn [bind].
        -- intros H. apply IH in H; [|exact Hno'].
           rewrite H. apply zget_zset_other. exact Hk.
        -- destruct (is_value_or_index_error e); [apply IH; exact Hno'|].
           intros H; inversion H; reflexivity.
      * destruct (is_value_or_index_error e); [apply IH; exact Hno'|].
        intros H; inversion H; reflexivity.
    + destruct (is_value_or_index_error e); [apply IH; exact Hno'|].
      intros H; inversion H; reflexivity.
Qed.

Lemma power_page_reading (name : string) (val : RawValue) (r : Z)
    (post : list (string * RawValue)) :
  startswith name power_oid = true ->
  index_of_name name = Ok i ->
  zin i interface_indices = true ->
  as_int val = Ok r ->
  (forall n v, In (n, v) post -> startswith n power_oid = true ->
               index_of_name n <> Ok i) ->
  forall pre pd pd',
    power_page power_oid interface_indices
      (List.app pre ((name, val) :: post)) pd = (pd', None) ->
    exists s, render_power r = Ok s /\ zget i pd' = Some s.
Proof.
  intros Hs Hi Hin Hr Hno.
  induction pre as [|vb pre IH]; intros pd pd' H.
  - cbn [List.app power_page] in H.
    rewrite Hs, Hi in H. cbn [negb bind] in H. rewrite Hin, Hr in H.
    cbn [bind] in H.
    destruct (render_power r) as [s|e] eqn:Er; cbn [bind] in H.
    + exists s. split; [reflexivity|].
      apply (power_page_skip post Hno) in H. rewrite H. apply zget_zset_same.
    + apply render_power_raises in Er. subst e. simpl in H. discriminate.
  - change (List.app (vb :: pre) ((name, val) :: post))
      with (vb :: List.app pre ((name, val) :: post)) in H.
    apply power_page_tail in H. destruct H as [pd1 H].
    apply (IH pd1 pd'). exact H.
Qed.
End PowerPage.

Lemma power_loop_winner (a : Agent) (interface_indices : list Z) :
  forall oids pd pdf oid,
    power_loop a interface_indices oids pd = (pdf, Some oid) ->
    exists result pd0,
      bulk_cmd a oid 0 20 oid = Ok result
      /\ usable result = true
      /\ power_page oid interface_indices (varBinds result) pd0 = (pdf, None).
Proof.
  induction oids as [|[nm power_oid] oids IH]; intros pd pdf oid; cbn [power_loop].
  - discriminate.
  - destruct (bulk_cmd a power_oid 0 20 power_oid) as [result|e] eqn:Hres;
      [|apply IH].
    destruct (usable result) eqn:Hu; [|apply IH].
    destruct (power_page power_oid interface_indices (varBinds result) pd)
      as [pd1 [e|]] eqn:Hpage; [apply IH|].
    destruct (nonempty pd1); [|apply IH].
    intros H. inversion H; subst.
    exists result, pd. auto.
Qed.

(** ** Checks of the string and number helpers *)

Lemma round_half_even_nearest (p q : Z) :
  0 < q -> 2 * Z.abs (q * round_half_even p q - p) <= q.
Proof.
  intros Hq. unfold round_half_even.
  pose proof (Z.div_mod p q ltac:(lia)) as Hdm.
  pose proof (Z.mod_pos_bound p q Hq) as Hm.
  destruct (Z.ltb_spec (2 * (p mod q)) q).
  - nia.
  - destruct (Z.ltb_spec q (2 * (p mod q))).
    + nia.
    + destruct (Z.even (p / q)); nia.
Qed.

Example split_dot_ex : split_dot "1.3.6.10" = ["1"; "3"; "6"; "10"].
Proof. reflexivity. Qed.

Example index_of_name_ex : index_of_name "1.3.6.1.2.1.2.2.1.2.24" = Ok 24.
Proof. reflexivity. Qed.

Example index_of_name_malformed : index_of_name "1.3.6.x" = Raise ValueError.
Proof. reflexivity. Qed.

Example index2_of_name_ex :
  index2_of_name "1.3.6.1.4.1.9.9.46.1.3.1.1.4.1.30" = Ok 1
  /\ index2_of_name "30" = Raise IndexError.
Proof. split; reflexivity. Qed.

Example startswith_is_textual :
  startswith "1.3.6.1.2.1.2.2.1.20.1" oid_ifDescr = true
  /\ startswith "1.3.6.1.2.1.2.2.1.3.1" oid_ifDescr = false.
Proof. split; reflexivity. Qed.

Example py_str_of_int_ex :
  py_str_of_int 154 = "154" /\ py_str_of_int (-7) = "-7" /\ py_str_of_int 0 = "0".
Proof. repeat split; reflexivity. Qed.

Example render_power_ties :
  render_power 250 = Ok "0.2W"
  /\ render_power 750 = Ok "0.8W"
  /\ render_power 150 = Ok "0.1W"
  /\ render_power 50 = Ok "0.1W"
  /\ render_power (-3) = Ok "0W".
Proof. repeat split; reflexivity. Qed.

Example power_scenario :
  _get_power_data_bulk Scenario.powered [1; 2; 3]
  = Ok [(1, "15.4W"); (2, "0W"); (3, "N/A")].
Proof. reflexivity. Qed.

Example vlan_scenario :
  _get_vlan_data_bulk Scenario.two_vlan_sources [1; 2; 3; 4]
  = Ok [(1, "10 (users)"); (2, "20"); (3, "20"); (4, "N/A")].
Proof. reflexivity. Qed.

(** * Further properties of the engine *)

(** ** ValueCodec on the other fields *)

Lemma numeric_fields_cases (oid_name : string) :
  sin oid_name numeric_fields = true ->
  sin oid_name status_type_fields = true
  \/ (sin oid_name status_type_fields = false
      /\ sin oid_name counter_fields = true).
Proof.
  unfold sin, numeric_fields, status_type_fields, counter_fields. simpl.
  destruct (oid_name =? "ifOperStatus")%string; [auto|].
  destruct (oid_name =? "ifAdminStatus")%string; [auto|].
  destruct (oid_name =? "ifType")%string; [auto|].
  simpl. rewrite !orb_false_r. intros H. right. split; [reflexivity|exact H].
Qed.

Lemma non_numeric_fields_cases (oid_name : string) :
  sin oid_name numeric_fields = false ->
  sin oid_name status_type_fields = false
  /\ sin oid_name counter_fields = false.
Proof.
  unfold sin, numeric_fields, status_type_fields, counter_fields. simpl.
  destruct (oid_name =? "ifOperStatus")%string;
  destruct (oid_name =? "ifAdminStatus")%string;
  destruct (oid_name =? "ifType")%string;
  destruct (oid_name =? "ifInOctets")%string;
  destruct (oid_name =? "ifOutOctets")%string;
  destruct (oid_name =? "ifSpeed")%string; simpl; intros H;
    try discriminate; split; reflexivity.
Qed.

Lemma convert_numeric (oid_name : string) (value : RawValue) :
  sin oid_name numeric_fields = true ->
  _convert_snmp_value oid_name value =
  match as_int value with
  | Ok n => Ok (VInt n)
  | Raise e => if is_value_or_type_error e then Ok (VInt 0) else Raise e
  end.
Proof.
  intros H. unfold _convert_snmp_value, convert_body. rewrite H.
  destruct (numeric_fields_cases oid_name H) as [Hs|[Hs Hc]].
  - rewrite Hs. destruct (as_int value) as [n|e]; simpl; [reflexivity|].
    destruct (is_value_or_type_error e); reflexivity.
  - rewrite Hs, Hc. destruct (as_int value) as [n|e]; [reflexivity|].
    destruct (is_value_or_type_error e) eqn:E; [reflexivity|].
    rewrite E. reflexivity.
Qed.

Lemma convert_non_numeric (oid_name : string) (value : RawValue) :
  sin oid_name numeric_fields = false ->
  exists s, _convert_snmp_value oid_name value = Ok (VStr s).
Proof.
  intros H. unfold _convert_snmp_value, convert_body.
  destruct (non_numeric_fields_cases oid_name H) as [Hs Hc].
  rewrite Hs, Hc.
  destruct (oid_name =? "ifPhysAddress")%string; [|eauto].
  destruct (as_octets value) as [octets|]; [|eauto].
  destruct (List.length octets =? 6)%nat; eauto.
Qed.

(** X1. [_convert_snmp_value] never lets a [ValueError] or a [TypeError]
    escape, whatever the field and the value. An exception leaves it only
    for one of the six numeric fields, and it is then the exception
    [int(value)] raised. *)
Theorem X1_convert_recovers_value_and_type_errors
    (oid_name : string) (value : RawValue) (e : PyExc) :
  _convert_snmp_value oid_name value = Raise e ->
  is_value_or_type_error e = false
  /\ sin oid_name numeric_fields = true
  /\ as_int value = Raise e.
Proof.
  intros H. destruct (sin oid_name numeric_fields) eqn:N.
  - rewrite (convert_numeric oid_name value N) in H.
    destruct (as_int value) as [n|e0]; [discriminate|].
    destruct (is_value_or_type_error e0) eqn:E; [discriminate|].
    inversion H; subst. auto.
  - destruct (convert_non_numeric oid_name value N) as [s Hs]. congruence.
Qed.

(** X2. For each of the six numeric fields, a value that converts gives an
    integer: [int(value)] when that succeeds, and 0 when [int(value)]
    raises [ValueError] or [TypeError]. For every other field name the
    conversion always succeeds and gives a string. *)
Theorem X2_convert_field_types (oid_name : string) (value : RawValue) :
  (sin oid_name numeric_fields = true ->
   forall v, _convert_snmp_value oid_name value = Ok v ->
     exists n, v = VInt n
       /\ (as_int value = Ok n
           \/ (n = 0 /\ exists e, as_int value = Raise e
                                  /\ is_value_or_type_error e = true)))
  /\ (sin oid_name numeric_fields = false ->
      exists s, _convert_snmp_value oid_name value = Ok (VStr s)).
Proof.
  split.
  - intros N v H. rewrite (convert_numeric oid_name value N) in H.
    destruct (as_int value) as [n|e].
    + inversion H; subst. exists n. auto.
    + destruct (is_value_or_type_error e) eqn:E; [|discriminate].
      inversion H; subst. exists 0. split; [reflexivity|].
      right. split; [reflexivity|]. exists e. auto.
  - apply convert_non_numeric.
Qed.

Lemma X1_witness :
  _convert_snmp_value "ifSpeed" Sample.raw_broken = Raise (OtherError "decode")
  /\ is_value_or_type_error (OtherError "decode") = false
  /\ sin "ifSpeed" numeric_fields = true
  /\ as_int Sample.raw_broken = Raise (OtherError "decode").
Proof.
  split; [reflexivity|].
  apply (X1_convert_recovers_value_and_type_errors "ifSpeed" Sample.raw_broken).
  reflexivity.
Defined.

Lemma X2_witness :
  sin "ifInOctets" numeric_fields = true
  /\ _convert_snmp_value "ifInOctets" (Scenario.raw_octets "n/a") = Ok (VInt 0)
  /\ exists n, VInt 0 = VInt n
       /\ (as_int (Scenario.raw_octets "n/a") = Ok n
           \/ (n = 0 /\ exists e, as_int (Scenario.raw_octets "n/a") = Raise e
                                  /\ is_value_or_type_error e = true)).
Proof.
  split; [reflexivity|]. split; [reflexivity|].
  apply (proj1 (X2_convert_field_types "ifInOctets" (Scenario.raw_octets "n/a")));
    reflexivity.
Defined.

(** ** ConnectivityProbe and the outcomes of [run] *)

(** X3. The connectivity probe answers true exactly when the transport is
    created and the read of the system descriptor returns, without error
    indication and without error status, at least one binding; an exception,
    an error report or an empty response all give false. *)
Theorem X3_probe_true_iff (w : SNMPWorker) (a : Agent) :
  _test_connectivity w a = true <->
  exists result,
    create_target a (timeout w) (retries w) = Ok tt
    /\ get_cmd a oid_sysDescr0 = Ok result
    /\ errorIndication result = false
    /\ errorStatus result = false
    /\ varBinds result <> [].
Proof.
  unfold _test_connectivity. split.
  - destruct (create_target a (timeout w) (retries w)) as [[]|e];
      cbn [bind]; [|discriminate].
    destruct (get_cmd a oid_sysDescr0) as [result|e]; cbn [bind]; [|discriminate].
    destruct (errorIndication result) eqn:Hi; [discriminate|].
    destruct (errorStatus result) eqn:Hs; [discriminate|].
    destruct (varBinds result) as [|vb vbs] eqn:Hv; [discriminate|].
    intros _. exists result. rewrite Hv. repeat split; try assumption. discriminate.
  - intros [result [Hc [Hg [Hi [Hs Hv]]]]].
    rewrite Hc; cbn [bind]. rewrite Hg; cbn [bind]. rewrite Hi, Hs.
    destruct (varBinds result); [contradiction|reflexivity].
Qed.

Lemma X3_witness :
  _test_connectivity Scenario.worker Scenario.descr_only = true
  /\ exists result,
       create_target Scenario.descr_only 2 1 = Ok tt
       /\ get_cmd Scenario.descr_only oid_sysDescr0 = Ok result
       /\ errorIndication result = false
       /\ errorStatus result = false
       /\ varBinds result <> [].
Proof.
  split; [reflexivity|].
  apply (proj1 (X3_probe_true_iff Scenario.worker Scenario.descr_only)).
  reflexivity.
Defined.

Lemma probe_creates_target (w : SNMPWorker) (a : Agent) :
  _test_connectivity w a = true ->
  create_target a (timeout w) (retries w) = Ok tt.
Proof.
  unfold _test_connectivity.
  destruct (create_target a (timeout w) (retries w)) as [[]|e];
    [reflexivity|discriminate].
Qed.

Lemma aggregated_keys (w : SNMPWorker) (a : Agent) (max_interfaces : Z) :
  create_target a (timeout w) (retries w) = Ok tt ->
  dict_keys (_bulk_fetch_interface_data w a max_interfaces)
  = first_occurrences (discovered (gather_walks a max_interfaces)).
Proof.
  intros Hc. unfold _bulk_fetch_interface_data. rewrite Hc.
  apply merge_results_keys.
Qed.

Lemma aggregated_nonempty_iff (w : SNMPWorker) (a : Agent) (max_interfaces : Z) :
  create_target a (timeout w) (retries w) = Ok tt ->
  nonempty (_bulk_fetch_interface_data w a max_interfaces) = true
  <-> exists i, In i (discovered (gather_walks a max_interfaces)).
Proof.
  intros Hc. pose proof (aggregated_keys w a max_interfaces Hc) as K.
  pose proof (see_all_In (discovered (gather_walks a max_interfaces)) []) as SI.
  fold (first_occurrences (discovered (gather_walks a max_interfaces))) in SI.
  rewrite <- K in SI. split.
  - destruct (_bulk_fetch_interface_data w a max_interfaces) as [|[k f] d];
      [discriminate|].
    intros _. exists k.
    destruct (proj1 (SI k) (or_introl eq_refl)) as [[]|Hk]. exact Hk.
  - intros [i Hi].
    assert (Hin : In i (dict_keys (_bulk_fetch_interface_data w a max_interfaces)))
      by (apply (SI i); right; exact Hi).
    destruct (_bulk_fetch_interface_data w a max_interfaces); [contradiction|reflexivity].
Qed.

Lemma run_cases (w : SNMPWorker) (a : Agent) :
  run w a =
  if _test_connectivity w a
     && nonempty (_bulk_fetch_interface_data w a (_get_interface_count w a))
  then
    let interface_data :=
      _bulk_fetch_interface_data w a (_get_interface_count w a) in
    [success
       (map (assemble
               (or_empty (_get_vlan_data_bulk a (dict_keys interface_data)))
               (or_empty (_get_power_data_bulk a (dict_keys interface_data))))
            interface_data);
     finished]
  else [error "No interface data retrieved"; finished].
Proof.
  unfold run, _fetch_interface_data.
  destruct (_test_connectivity w a); cbn [negb andb]; [|reflexivity].
  destruct (_bulk_fetch_interface_data w a (_get_interface_count w a))
    as [|e d]; reflexivity.
Qed.

(** X4. Whatever the device does, [run] emits exactly two signals: either
    [success] with a list that is not empty or the error
    ["No interface data retrieved"], and then [finished]. *)
Theorem X4_run_signals (w : SNMPWorker) (a : Agent) :
  (exists recs, recs <> [] /\ run w a = [success recs; finished])
  \/ run w a = [error "No interface data retrieved"; finished].
Proof.
  rewrite run_cases.
  destruct (_test_connectivity w a
            && nonempty (_bulk_fetch_interface_data w a (_get_interface_count w a)))
    eqn:E; [|right; reflexivity].
  left. eexists. split; [|reflexivity].
  apply andb_prop in E. destruct E as [_ E].
  destruct (_bulk_fetch_interface_data w a (_get_interface_count w a));
    [discriminate|]. cbv zeta. simpl. discriminate.
Qed.

(** X5. [run] delivers [success] exactly when the connectivity probe
    succeeds and at least one of the core field walks collects at least one
    row. *)
Theorem X5_success_iff_probe_and_one_row (w : SNMPWorker) (a : Agent) :
  (exists recs, run w a = [success recs; finished])
  <-> (_test_connectivity w a = true
       /\ exists i,
            In i (discovered (gather_walks a (_get_interface_count w a)))).
Proof.
  rewrite run_cases. split.
  - intros [recs H].
    destruct (_test_connectivity w a) eqn:P; cbn [andb] in H; [|discriminate].
    split; [reflexivity|].
    apply (aggregated_nonempty_iff w a _ (probe_creates_target w a P)).
    destruct (nonempty (_bulk_fetch_interface_data w a (_get_interface_count w a)));
      [reflexivity|discriminate].
  - intros [P Hi].
    apply (aggregated_nonempty_iff w a _ (probe_creates_target w a P)) in Hi.
    rewrite P, Hi. eexists. reflexivity.
Qed.

Lemma X5_witness :
  _test_connectivity Scenario.worker Scenario.sparse = true
  /\ In 2 (discovered (gather_walks Scenario.sparse
                         (_get_interface_count Scenario.worker Scenario.sparse)))
  /\ exists recs, run Scenario.worker Scenario.sparse = [success recs; finished].
Proof.
  assert (P : _test_connectivity Scenario.worker Scenario.sparse = true)
    by reflexivity.
  assert (I : In 2 (discovered (gather_walks Scenario.sparse
                      (_get_interface_count Scenario.worker Scenario.sparse))))
    by (vm_compute; tauto).
  split; [exact P|]. split; [exact I|].
  apply (proj2 (X5_success_iff_probe_and_one_row Scenario.worker Scenario.sparse)).
  split; [exact P|]. exists 2. exact I.
Defined.

Lemma walks_empty_when_bound_not_positive (a : Agent) (max_interfaces : Z) :
  max_interfaces <= 0 ->
  discovered (gather_walks a max_interfaces) = [].
Proof.
  intros H. assert (E : Z.to_nat max_interfaces = 0%nat) by lia.
  unfold discovered, gather_walks, core_oids, _bulk_fetch_single_oid.
  rewrite E. reflexivity.
Qed.

(** X6. The estimate has no lower bound: when the device reports an
    interface count of [-5] or less, the estimate is zero or negative, no
    walk requests a page, and [run] delivers the error
    ["No interface data retrieved"] even if the probe succeeded and the
    tables hold rows. *)
Theorem X6_non_positive_estimate_fails (w : SNMPWorker) (a : Agent) :
  _get_interface_count w a <= 0 ->
  (forall oid_name, In oid_name core_oids ->
     _bulk_fetch_single_oid a oid_name (_get_interface_count w a) = Ok [])
  /\ run w a = [error "No interface data retrieved"; finished].
Proof.
  intros H. split.
  - intros oid_name Hin.
    assert (E : Z.to_nat (_get_interface_count w a) = 0%nat) by lia.
    unfold _bulk_fetch_single_oid. rewrite E.
    unfold core_oids in Hin. simpl in Hin.
    repeat (destruct Hin as [<-|Hin]; [reflexivity|]). contradiction.
  - rewrite run_cases.
    destruct (_test_connectivity w a) eqn:P; cbn [andb]; [|reflexivity].
    destruct (nonempty (_bulk_fetch_interface_data w a (_get_interface_count w a)))
      eqn:N; [|reflexivity].
    apply (aggregated_nonempty_iff w a _ (probe_creates_target w a P)) in N.
    rewrite (walks_empty_when_bound_not_positive a _ H) in N.
    destruct N as [i []].
Qed.

Lemma X6_witness :
  _get_interface_count Scenario.worker Sample.negative_count <= 0
  /\ _test_connectivity Scenario.worker Sample.negative_count = true
  /\ run Scenario.worker Sample.negative_count
     = [error "No interface data retrieved"; finished].
Proof.
  assert (H : _get_interface_count Scenario.worker Sample.negative_count <= 0)
    by (vm_compute; discriminate).
  split; [exact H|]. split; [reflexivity|].
  exact (proj2 (X6_non_positive_estimate_fails Scenario.worker
                  Sample.negative_count H)).
Defined.

(** ** Walk results: unique indices, rows kept *)

Lemma walk_page_keys (oid_name oid_base : string)
    (vbs : list (string * RawValue)) :
  forall st st' exc,
    walk_page oid_name oid_base vbs st = (st', exc) ->
    (NoDup (dict_keys (oid_data st)) -> NoDup (dict_keys (oid_data st')))
    /\ incl (dict_keys (oid_data st)) (dict_keys (oid_data st')).
Proof.
  induction vbs as [|[n v] vbs IH]; intros st st' exc.
  - simpl. intros H; inversion H; subst. split; [auto|apply incl_refl].
  - cbn [walk_page].
    destruct (negb (startswith n oid_base)).
    { intros H; inversion H; subst. split; [auto|apply incl_refl]. }
    destruct (index_of_name n) as [k|e].
    + destruct (_convert_snmp_value oid_name v) as [x|e].
      * intros H. apply IH in H. cbn [oid_data] in H. destruct H as [H1 H2].
        split.
        -- intros Hnd. apply H1. apply zset_keys_NoDup. exact Hnd.
        -- intros y Hy. apply H2. unfold zset.
           rewrite (dict_keys_set Z.eqb).
           destruct (dict_mem Z.eqb k (oid_data st)); [exact Hy|].
           apply in_or_app. left. exact Hy.
      * destruct (is_value_or_index_error e); [apply IH|].
        intros H; inversion H; subst. split; [auto|apply incl_refl].
    + destruct (is_value_or_index_error e); [apply IH|].
      intros H; inversion H; subst. split; [auto|apply incl_refl].
Qed.

Lemma walk_loop_keys (a : Agent) (oid_name oid_base : string)
    (max_interfaces : Z) :
  forall fuel page st,
    (NoDup (dict_keys (oid_data st)) ->
     NoDup (dict_keys (walk_loop fuel a oid_name oid_base max_interfaces page st)))
    /\ incl (dict_keys (oid_data st))
            (dict_keys (walk_loop fuel a oid_name oid_base max_interfaces page st)).
Proof.
  induction fuel as [|fuel IH]; intros page st; cbn [walk_loop];
    [split; [auto|apply incl_refl]|].
  destruct (interfaces_found st <? max_interfaces);
    [|split; [auto|apply incl_refl]].
  destruct (bulk_cmd a oid_base page 10 (current_oid st)) as [result|e];
    [|split; [auto|apply incl_refl]].
  destruct (errorIndication result); [split; [auto|apply incl_refl]|].
  destruct (errorStatus result); [split; [auto|apply incl_refl]|].
  destruct (varBinds result) as [|vb vbs]; [split; [auto|apply incl_refl]|].
  destruct (walk_page oid_name oid_base (vb :: vbs) (start_page st))
    as [st' exc] eqn:Hpage.
  apply walk_page_keys in Hpage. cbn [start_page oid_data] in Hpage.
  destruct Hpage as [H1 H2].
  destruct exc; [split; assumption|].
  destruct (found_in_batch st'); [|split; assumption].
  destruct (IH (S page) st') as [I1 I2]. split.
  - intros Hnd. apply I1, H1, Hnd.
  - intros y Hy. apply I2, H2, Hy.
Qed.

Lemma bulk_fetch_single_oid_NoDup (a : Agent) (oid_name : string)
    (max_interfaces : Z) :
  NoDup (dict_keys (or_empty (_bulk_fetch_single_oid a oid_name max_interfaces))).
Proof.
  unfold _bulk_fetch_single_oid.
  destruct (sget oid_name OID_MAPPING) as [oid_base|]; [|constructor].
  apply walk_loop_keys. constructor.
Qed.

(** X7. In the result of a table walk every interface index occurs once,
    and the walk never loses a row: whatever happens on later pages (an
    error report, an exception, an identifier outside the prefix), every
    index collected so far is in the result. *)
Theorem X7_walk_indices_unique_and_kept
    (a : Agent) (oid_name oid_base : string) (max_interfaces : Z) :
  (forall d, _bulk_fetch_single_oid a oid_name max_interfaces = Ok d ->
             NoDup (dict_keys d))
  /\ (forall fuel page st k,
        In k (dict_keys (oid_data st)) ->
        In k (dict_keys
                (walk_loop fuel a oid_name oid_base max_interfaces page st))).
Proof.
  split.
  - intros d H.
    pose proof (bulk_fetch_single_oid_NoDup a oid_name max_interfaces) as N.
    rewrite H in N. exact N.
  - intros fuel page st k Hk.
    apply (proj2 (walk_loop_keys a oid_name oid_base max_interfaces fuel page st)).
    exact Hk.
Qed.

Lemma X7_witness :
  exists d,
    _bulk_fetch_single_oid Scenario.growing "ifDescr" 20 = Ok d
    /\ NoDup (dict_keys d).
Proof.
  eexists. split; [reflexivity|].
  apply (proj1 (X7_walk_indices_unique_and_kept Scenario.growing "ifDescr"
                  oid_ifDescr 20)).
  reflexivity.
Defined.

(** ** Fields of the assembled records *)

Lemma String_eqb_eq' (x y : string) : (x =? y)%string = true <-> x = y.
Proof. apply String.eqb_eq. Qed.

Lemma sget_sset {V : Type} (n n0 : string) (v : V) (f : sdict V) :
  sget n0 (sset n v f) = if (n0 =? n)%string then Some v else sget n0 f.
Proof.
  destruct (String.eqb_spec n0 n) as [->|Hne].
  - apply (dict_get_set_same String.eqb String_eqb_eq').
  - apply (dict_get_set_other String.eqb String_eqb_eq'). exact Hne.
Qed.

Lemma merge_entry_field (n n0 : string) (i : Z)
    (d : zdict (sdict TypedValue)) (kv : Z * TypedValue) :
  get_field n0 i (merge_entry n d kv) =
  if (i =? fst kv) && (n0 =? n)%string then Some (snd kv) else get_field n0 i d.
Proof.
  unfold merge_entry, get_field. destruct kv as [k v]. cbn [fst snd].
  destruct (zmem k d) eqn:M.
  - destruct (zget k d) as [fields|] eqn:G.
    + rewrite zget_zset. destruct (Z.eqb_spec i k) as [->|Hne]; cbn [andb].
      * rewrite sget_sset, G. reflexivity.
      * reflexivity.
    + apply (dict_mem_get Z.eqb) in M. destruct M as [x M].
      unfold zget in G. congruence.
  - rewrite zget_zset_same. rewrite zget_zset.
    apply (dict_mem_false_get Z.eqb) in M. fold (@zget (sdict TypedValue)) in M.
    destruct (Z.eqb_spec i k) as [->|Hne]; cbn [andb].
    + rewrite sget_sset, M. destruct (n0 =? n)%string; reflexivity.
    + rewrite zget_zset_other; [reflexivity|exact Hne].
Qed.

Lemma merge_entries_field (n n0 : string) (i : Z) (result : zdict TypedValue) :
  NoDup (dict_keys result) ->
  forall d,
    get_field n0 i (fold_left (merge_entry n) result d) =
    if (n0 =? n)%string then
      match zget i result with
      | Some v => Some v
      | None => get_field n0 i d
      end
    else get_field n0 i d.
Proof.
  induction result as [|[k v] result IH]; intros Hnd d; cbn [fold_left].
  - destruct (n0 =? n)%string; reflexivity.
  - inversion Hnd as [|? ? Hk Hnd']; subst.
    rewrite (IH Hnd'), merge_entry_field. cbn [fst snd].
    destruct (n0 =? n)%string; [|rewrite andb_false_r; reflexivity].
    rewrite andb_true_r. cbn [zget dict_get].
    fold (@zget TypedValue i result).
    destruct (Z.eqb_spec i k) as [->|Hne]; [|reflexivity].
    assert (G : zget k result = None).
    { apply (dict_mem_false_get Z.eqb).
      destruct (dict_mem Z.eqb k result) eqn:M; [|reflexivity].
      apply (dict_mem_In Z.eqb Zeqb_eq') in M. contradiction. }
    rewrite G. reflexivity.
Qed.

Lemma merge_result_field (n0 : string) (i : Z)
    (d : zdict (sdict TypedValue)) (r : string * PyResult (zdict TypedValue)) :
  NoDup (dict_keys (or_empty (snd r))) ->
  get_field n0 i (merge_result d r) =
  if (n0 =? fst r)%string then
    match zget i (or_empty (snd r)) with
    | Some v => Some v
    | None => get_field n0 i d
    end
  else get_field n0 i d.
Proof.
  intros Hnd. unfold merge_result. destruct (snd r) as [result|e]; cbn [or_empty] in *.
  - apply merge_entries_field. exact Hnd.
  - destruct (n0 =? fst r)%string; reflexivity.
Qed.

Lemma merge_results_field (n0 : string) (i : Z)
    (rs : list (string * PyResult (zdict TypedValue))) :
  (forall r, In r rs -> NoDup (dict_keys (or_empty (snd r)))) ->
  NoDup (map fst rs) ->
  forall d,
    get_field n0 i (fold_left merge_result rs d) =
    match find (fun r => (n0 =? fst r)%string) rs with
    | Some r =>
        match zget i (or_empty (snd r)) with
        | Some v => Some v
        | None => get_field n0 i d
        end
    | None => get_field n0 i d
    end.
Proof.
  induction rs as [|r rs IH]; intros Hkeys Hnames d; cbn [fold_left find];
    [reflexivity|].
  inversion Hnames as [|? ? Hr Hnames']; subst.
  assert (Hkeys' : forall r0, In r0 rs -> NoDup (dict_keys (or_empty (snd r0))))
    by (intros r0 Hin; apply Hkeys; right; exact Hin).
  rewrite (IH Hkeys' Hnames').
  rewrite (merge_result_field n0 i d r (Hkeys r (or_introl eq_refl))).
  destruct (String.eqb_spec n0 (fst r)) as [E|Hne]; [|reflexivity].
  assert (F : find (fun r0 => (n0 =? fst r0)%string) rs = None).
  { destruct (find (fun r0 => (n0 =? fst r0)%string) rs) as [r0|] eqn:F;
      [|reflexivity].
    apply find_some in F. destruct F as [Hin Heq].
    apply String.eqb_eq in Heq. exfalso. apply Hr.
    rewrite <- E, Heq. apply in_map. exact Hin. }
  rewrite F. reflexivity.
Qed.

Lemma aggregated_field (w : SNMPWorker) (a : Agent) (max_interfaces : Z)
    (oid_name : string) (i : Z) :
  create_target a (timeout w) (retries w) = Ok tt ->
  In oid_name core_oids ->
  get_field oid_name i (_bulk_fetch_interface_data w a max_interfaces)
  = walk_value a max_interfaces oid_name i.
Proof.
  intros Hc Hin. unfold _bulk_fetch_interface_data. rewrite Hc.
  rewrite merge_results_field.
  - unfold gather_walks, core_oids, walk_value. cbn [map find fst snd].
    unfold core_oids in Hin. cbn [In] in Hin.
    repeat (destruct Hin as [<-|Hin];
            [cbn; destruct (zget i _); reflexivity|]).
    contradiction.
  - intros r Hr. unfold gather_walks in Hr. apply in_map_iff in Hr.
    destruct Hr as [n [<- _]]. apply bulk_fetch_single_oid_NoDup.
  - unfold gather_walks. rewrite map_map. cbn [fst]. rewrite map_id.
    unfold core_oids.
    repeat (constructor; [cbn [In]; intuition discriminate|]). constructor.
Qed.

Lemma get_default_or_default {V : Type} (n : string) (default : V) (f : sdict V) :
  get_default String.eqb n default f = or_default (sget n f) default.
Proof. reflexivity. Qed.

Lemma run_success_records (w : SNMPWorker) (a : Agent)
    (recs : list InterfaceRecord) :
  run w a = [success recs; finished] ->
  let interface_data := _bulk_fetch_interface_data w a (_get_interface_count w a) in
  create_target a (timeout w) (retries w) = Ok tt
  /\ recs = map (assemble
                   (or_empty (_get_vlan_data_bulk a (dict_keys interface_data)))
                   (or_empty (_get_power_data_bulk a (dict_keys interface_data))))
                interface_data.
Proof.
  rewrite run_cases.
  destruct (_test_connectivity w a) eqn:P; cbn [andb]; [|discriminate].
  destruct (nonempty (_bulk_fetch_interface_data w a (_get_interface_count w a)));
    [|discriminate].
  cbv zeta. intros H. inversion H. split; [|reflexivity].
  apply probe_creates_target. exact P.
Qed.

(** X8. In every record of a successful fetch, each of the eight core fields
    holds the value the walk of that field collected for the record's index,
    or, when that walk has no row for the index, the default of the field:
    the label "Interface-<index>", status 2 (down), counters and speed 0,
    type 1, an empty physical address. *)
Theorem X8_record_fields (w : SNMPWorker) (a : Agent)
    (recs : list InterfaceRecord) (r : InterfaceRecord) :
  run w a = [success recs; finished] ->
  In r recs ->
  let value := walk_value a (_get_interface_count w a) in
  Description r = or_default (value "ifDescr" (Index r))
                    (VStr ("Interface-" ++ py_str_of_int (Index r)))
  /\ OpStatus r = or_default (value "ifOperStatus" (Index r)) (VInt 2)
  /\ AdminStatus r = or_default (value "ifAdminStatus" (Index r)) (VInt 2)
  /\ InOctets r = or_default (value "ifInOctets" (Index r)) (VInt 0)
  /\ OutOctets r = or_default (value "ifOutOctets" (Index r)) (VInt 0)
  /\ Speed r = or_default (value "ifSpeed" (Index r)) (VInt 0)
  /\ Type' r = or_default (value "ifType" (Index r)) (VInt 1)
  /\ PhysAddress r = or_default (value "ifPhysAddress" (Index r)) (VStr "").
Proof.
  intros Hrun Hin. apply run_success_records in Hrun. cbv zeta in Hrun.
  destruct Hrun as [Hc Hrecs].
  set (count := _get_interface_count w a) in *.
  set (agg := _bulk_fetch_interface_data w a count) in *.
  rewrite Hrecs in Hin. apply in_map_iff in Hin.
  destruct Hin as [[i data] [Hr Hin]]. subst r.
  assert (Hnd : NoDup (dict_keys agg)).
  { unfold agg. rewrite (aggregated_keys w a count Hc).
    apply see_all_NoDup. constructor. }
  assert (G : zget i agg = Some data)
    by (apply (dict_In_get Z.eqb Zeqb_eq' i data agg Hnd Hin)).
  assert (F : forall n, In n core_oids -> sget n data = walk_value a count n i).
  { intros n Hn. rewrite <- (aggregated_field w a count n i Hc Hn).
    unfold get_field. fold agg. rewrite G. reflexivity. }
  cbv zeta. unfold assemble. cbn [fst snd Index Description OpStatus AdminStatus
    InOctets OutOctets Speed Type' PhysAddress].
  rewrite !get_default_or_default.
  rewrite <- !F by (unfold core_oids; cbn [In]; tauto).
  repeat split; reflexivity.
Qed.

Lemma X8_witness :
  run Scenario.worker Scenario.sparse = [success Scenario.sparse_records; finished]
  /\ forall r, In r Scenario.sparse_records ->
       OpStatus r
       = or_default
           (walk_value Scenario.sparse
              (_get_interface_count Scenario.worker Scenario.sparse)
              "ifOperStatus" (Index r))
           (VInt 2).
Proof.
  assert (H : run Scenario.worker Scenario.sparse
              = [success Scenario.sparse_records; finished])
    by (vm_compute; reflexivity).
  split; [exact H|].
  intros r Hr.
  exact (proj1 (proj2 (X8_record_fields Scenario.worker Scenario.sparse
                         Scenario.sparse_records r H Hr))).
Defined.

(** X9. In every record of a successful fetch the VLAN and the power strings
    are the entries the two resolvers return for the record's index: both
    resolvers are asked for exactly the aggregated indices and answer for
    each of them, so the ["N/A"] default of the assembly step is never what
    fills a record. *)
Theorem X9_record_vlan_and_power (w : SNMPWorker) (a : Agent)
    (recs : list InterfaceRecord) :
  run w a = [success recs; finished] ->
  exists vlan_data power_data,
    _get_vlan_data_bulk a (map Index recs) = Ok vlan_data
    /\ _get_power_data_bulk a (map Index recs) = Ok power_data
    /\ forall r, In r recs ->
         zget (Index r) vlan_data = Some (VLAN r)
         /\ zget (Index r) power_data = Some (Power r).
Proof.
  intros Hrun. apply run_success_records in Hrun. cbv zeta in Hrun.
  destruct Hrun as [Hc Hrecs].
  set (agg := _bulk_fetch_interface_data w a (_get_interface_count w a)) in *.
  assert (K : map Index recs = dict_keys agg)
    by (rewrite Hrecs; apply assemble_Index).
  rewrite K. eexists; eexists. split; [reflexivity|]. split; [reflexivity|].
  intros r Hin.
  assert (Hk : In (Index r) (dict_keys agg))
    by (rewrite <- K; apply in_map; exact Hin).
  rewrite Hrecs in Hin. apply in_map_iff in Hin.
  destruct Hin as [[i data] [Hr _]]. subst r.
  cbn [assemble Index VLAN Power fst snd] in *.
  unfold _get_vlan_data_bulk, _get_power_data_bulk, get_default.
  cbn [or_empty]. fold (@zget string).
  destruct (fill_na_total i (dict_keys agg)
              (fst (vlan_try a (dict_keys agg))) Hk) as [v Hv].
  destruct (fill_na_total i (dict_keys agg)
              (fst (power_try a (dict_keys agg))) Hk) as [p Hp].
  rewrite Hv, Hp. split; reflexivity.
Qed.

Lemma X9_witness :
  run Scenario.worker Scenario.sparse = [success Scenario.sparse_records; finished]
  /\ exists vlan_data power_data,
       _get_vlan_data_bulk Scenario.sparse (map Index Scenario.sparse_records)
       = Ok vlan_data
       /\ _get_power_data_bulk Scenario.sparse (map Index Scenario.sparse_records)
          = Ok power_data
       /\ forall r, In r Scenario.sparse_records ->
            zget (Index r) vlan_data = Some (VLAN r)
            /\ zget (Index r) power_data = Some (Power r).
Proof.
  assert (H : run Scenario.worker Scenario.sparse
              = [success Scenario.sparse_records; finished])
    by (vm_compute; reflexivity).
  split; [exact H|].
  exact (X9_record_vlan_and_power Scenario.worker Scenario.sparse
           Scenario.sparse_records H).
Defined.

(** ** Resolvers: the keys and the values of their results *)

Lemma zget_In_keys {V : Type} (i : Z) (v : V) (d : zdict V) :
  zget i d = Some v -> In i (dict_keys d).
Proof.
  intros H. apply (dict_get_In Z.eqb Zeqb_eq') in H.
  change i with (fst (i, v)). apply in_map. exact H.
Qed.

Lemma In_keys_zget {V : Type} (i : Z) (d : zdict V) :
  In i (dict_keys d) -> exists v, zget i d = Some v.
Proof.
  intros H. apply (dict_mem_In Z.eqb Zeqb_eq') in H.
  apply (dict_mem_get Z.eqb) in H. exact H.
Qed.

Lemma zset_keys_within {V : Type} (k : Z) (v : V) (d : zdict V) (l : list Z) :
  In k l -> keys_within d l -> keys_within (zset k v d) l.
Proof.
  intros Hk Hd x Hx. unfold zset in Hx. rewrite (dict_keys_set Z.eqb) in Hx.
  destruct (dict_mem Z.eqb k d); [apply Hd; exact Hx|].
  apply in_app_or in Hx. destruct Hx as [Hx|[<-|[]]]; [apply Hd; exact Hx|exact Hk].
Qed.

Lemma fill_na_keys (l : list Z) :
  forall d : zdict string,
    (NoDup (dict_keys d) -> NoDup (dict_keys (fill_na l d)))
    /\ (forall l0, incl l l0 -> keys_within d l0 -> keys_within (fill_na l d) l0).
Proof.
  unfold fill_na. induction l as [|k l IH]; intros d; cbn [fold_left].
  - split; auto.
  - destruct (IH (if zmem k d then d else zset k "N/A" d)) as [I1 I2]. split.
    + intros Hnd. apply I1. destruct (zmem k d); [exact Hnd|].
      apply zset_keys_NoDup. exact Hnd.
    + intros l0 Hincl Hd. apply I2.
      * intros x Hx. apply Hincl. right. exact Hx.
      * destruct (zmem k d); [exact Hd|].
        apply zset_keys_within; [apply Hincl; left; reflexivity|exact Hd].
Qed.

Lemma fill_na_inv (i : Z) (s : string) (l : list Z) :
  forall d, zget i (fill_na l d) = Some s -> zget i d = Some s \/ s = "N/A".
Proof.
  unfold fill_na. induction l as [|k l IH]; intros d; cbn [fold_left]; [auto|].
  intros H. apply IH in H. destruct H as [H|H]; [|auto].
  destruct (zmem k d); [auto|].
  rewrite zget_zset in H. destruct (i =? k); [|auto].
  inversion H. auto.
Qed.

Lemma power_page_keys (power_oid : string) (indices : list Z)
    (vbs : list (string * RawValue)) :
  forall pd,
    (NoDup (dict_keys pd) ->
     NoDup (dict_keys (fst (power_page power_oid indices vbs pd))))
    /\ (keys_within pd indices ->
        keys_within (fst (power_page power_oid indices vbs pd)) indices).
Proof.
  induction vbs as [|[n v] vbs IH]; intros pd; cbn [power_page]; [split; auto|].
  destruct (negb (startswith n power_oid)); [apply IH|].
  destruct (index_of_name n) as [k|e]; cbn [bind].
  - destruct (zin k indices) eqn:Z.
    + destruct (as_int v) as [pv|e]; cbn [bind].
      * destruct (render_power pv) as [s|e]; cbn [bind].
        -- destruct (IH (zset k s pd)) as [I1 I2]. split.
           ++ intros H. apply I1, zset_keys_NoDup, H.
           ++ intros H. apply I2, zset_keys_within; [apply zin_In; exact Z|exact H].
        -- destruct (is_value_or_index_error e); [apply IH|split; auto].
      * destruct (is_value_or_index_error e); [apply IH|split; auto].
    + apply IH.
  - destruct (is_value_or_index_error e); [apply IH|split; auto].
Qed.

Lemma power_loop_keys (a : Agent) (indices : list Z) :
  forall oids pd,
    (NoDup (dict_keys pd) ->
     NoDup (dict_keys (fst (power_loop a indices oids pd))))
    /\ (keys_within pd indices ->
        keys_within (fst (power_loop a indices oids pd)) indices).
Proof.
  induction oids as [|[nm power_oid] oids IH]; intros pd; cbn [power_loop];
    [split; auto|].
  destruct (bulk_cmd a power_oid 0 20 power_oid) as [result|e]; [|apply IH].
  destruct (usable result); [|apply IH].
  pose proof (power_page_keys power_oid indices (varBinds result) pd) as [P1 P2].
  destruct (power_page power_oid indices (varBinds result) pd) as [pd1 [e|]];
    cbn [fst] in *.
  - destruct (IH pd1) as [I1 I2]. split; auto.
  - destruct (nonempty pd1); [split; assumption|].
    destruct (IH pd1) as [I1 I2]. split; auto.
Qed.

Lemma keys_within_nil {V : Type} (l : list Z) : keys_within (@nil (Z * V)) l.
Proof. intros k []. Qed.

Lemma resolver_entries (indices : list Z) (d : zdict string) :
  NoDup (dict_keys d) -> keys_within d indices ->
  NoDup (dict_keys (fill_na indices d))
  /\ forall i, (exists v, zget i (fill_na indices d) = Some v) <-> In i indices.
Proof.
  intros Hnd Hk. destruct (fill_na_keys indices d) as [F1 F2]. split; [auto|].
  intros i. split.
  - intros [v Hv]. apply zget_In_keys in Hv.
    apply (F2 indices (incl_refl indices) Hk). exact Hv.
  - apply fill_na_total.
Qed.

(** X10. The map [_get_power_data_bulk] returns has one entry for each
    requested index and no other entry: a reading for an index that was not
    requested is never stored. *)
Theorem X10_power_entries_are_the_requested (a : Agent) (interface_indices : list Z) :
  exists m,
    _get_power_data_bulk a interface_indices = Ok m
    /\ NoDup (dict_keys m)
    /\ forall i, (exists v, zget i m = Some v) <-> In i interface_indices.
Proof.
  eexists. split; [reflexivity|].
  apply resolver_entries.
  - unfold power_try. destruct (create_target a 1 0); [|constructor].
    apply power_loop_keys. constructor.
  - unfold power_try. destruct (create_target a 1 0); [|apply keys_within_nil].
    apply power_loop_keys. apply keys_within_nil.
Qed.

Lemma enhance_loop_keys (vlan_names : zdict string) (indices : list Z) :
  forall items vlan_data,
    (forall k info, In (k, info) items -> In k indices) ->
    (NoDup (dict_keys vlan_data) ->
     NoDup (dict_keys (fst (enhance_loop vlan_names items vlan_data))))
    /\ (keys_within vlan_data indices ->
        keys_within (fst (enhance_loop vlan_names items vlan_data)) indices).
Proof.
  induction items as [|[k info] items IH]; intros vd Hit; cbn [enhance_loop];
    [split; auto|].
  assert (Hit' : forall k0 info0, In (k0, info0) items -> In k0 indices)
    by (intros k0 info0 Hin; apply (Hit k0 info0); right; exact Hin).
  assert (Hk : In k indices) by (apply (Hit k info); left; reflexivity).
  destruct (isdigit info); [|apply IH; exact Hit'].
  destruct (py_int_of_str info) as [vlan_id|e]; [|split; auto].
  destruct (zget vlan_id vlan_names) as [nm|]; [|apply IH; exact Hit'].
  match goal with
  | |- context [enhance_loop _ _ ?d] => destruct (IH d Hit') as [I1 I2]
  end.
  split.
  - intros H. apply I1, zset_keys_NoDup, H.
  - intros H. apply I2, zset_keys_within; [exact Hk|exact H].
Qed.

Lemma vlan_id_page_keys_within (oid : string) (indices : list Z)
    (vbs : list (string * RawValue)) :
  forall data,
    keys_within data indices ->
    keys_within (fst (vlan_id_page oid indices vbs data)) indices.
Proof.
  induction vbs as [|[n v] vbs IH]; intros data H; cbn [vlan_id_page]; [exact H|].
  destruct (negb (startswith n oid)); [apply IH; exact H|].
  destruct (idx <- index_of_name n;; vlan_id <- as_int v;; Ok (idx, vlan_id))
    as [[idx vlan_id]|e].
  - destruct (zin idx indices) eqn:Z; apply IH; [|exact H].
    apply zset_keys_within; [apply zin_In; exact Z|exact H].
  - destruct (is_value_or_index_error e); [apply IH; exact H|exact H].
Qed.

Lemma fetch_vlan_id_table_keys_within (a : Agent) (oid : string)
    (indices : list Z) :
  keys_within (fetch_vlan_id_table a oid indices) indices.
Proof.
  unfold fetch_vlan_id_table.
  destruct (bulk_cmd a oid 0 20 oid) as [result|e]; [|apply keys_within_nil].
  destruct (usable result); [|apply keys_within_nil].
  apply vlan_id_page_keys_within. apply keys_within_nil.
Qed.

Lemma merge_missing_keys_within (indices : list Z) (c : zdict string) :
  keys_within c indices ->
  forall d, keys_within d indices ->
            keys_within (fold_left merge_missing c d) indices.
Proof.
  induction c as [|[k x] c IH]; intros Hc d Hd; cbn [fold_left]; [exact Hd|].
  apply IH.
  - intros y Hy. apply Hc. right. exact Hy.
  - unfold merge_missing. cbn [fst snd]. destruct (zmem k d); [exact Hd|].
    apply zset_keys_within; [apply Hc; left; reflexivity|exact Hd].
Qed.

Lemma vlan_try_keys (a : Agent) (indices : list Z) :
  NoDup (dict_keys (fst (vlan_try a indices)))
  /\ keys_within (fst (vlan_try a indices)) indices.
Proof.
  destruct (create_target a 2 1) as [[]|e] eqn:Hc.
  - rewrite (vlan_try_eq a indices Hc). cbv zeta.
    set (merged := if negb (nonempty (_fetch_pvid_data a indices))
                      || below_half (_fetch_pvid_data a indices) indices
                   then fold_left merge_missing (_fetch_cisco_vlan_data a indices)
                          (_fetch_pvid_data a indices)
                   else _fetch_pvid_data a indices).
    assert (Hnd : NoDup (dict_keys merged)).
    { unfold merged.
      destruct (negb (nonempty (_fetch_pvid_data a indices))
                || below_half (_fetch_pvid_data a indices) indices).
      - apply merge_missing_NoDup. apply fetch_vlan_id_table_NoDup.
      - apply fetch_vlan_id_table_NoDup. }
    assert (Hk : keys_within merged indices).
    { unfold merged.
      destruct (negb (nonempty (_fetch_pvid_data a indices))
                || below_half (_fetch_pvid_data a indices) indices).
      - apply merge_missing_keys_within; apply fetch_vlan_id_table_keys_within.
      - apply fetch_vlan_id_table_keys_within. }
    destruct (nonempty merged); [|split; assumption].
    destruct (nonempty (_fetch_vlan_names a)); [|split; assumption].
    assert (Hit : forall k info, In (k, info) merged -> In k indices).
    { intros k info Hin. apply Hk. change k with (fst (k, info)).
      apply in_map. exact Hin. }
    destruct (enhance_loop_keys (_fetch_vlan_names a) indices merged merged Hit)
      as [E1 E2].
    split; auto.
  - unfold vlan_try. rewrite Hc. split; [constructor|apply keys_within_nil].
Qed.

(** X11. The map [_get_vlan_data_bulk] returns has one entry for each
    requested index and no other entry: rows of the PVID and vendor tables
    for ports that were not requested are never stored. *)
Theorem X11_vlan_entries_are_the_requested (a : Agent) (interface_indices : list Z) :
  exists m,
    _get_vlan_data_bulk a interface_indices = Ok m
    /\ NoDup (dict_keys m)
    /\ forall i, (exists v, zget i m = Some v) <-> In i interface_indices.
Proof.
  eexists. split; [reflexivity|].
  apply resolver_entries; apply vlan_try_keys.
Qed.

Lemma power_page_sourced (a : Agent) (power_oid : string) (indices : list Z)
    (result : SnmpResult) :
  In power_oid (map snd POWER_OID_MAPPING) ->
  bulk_cmd a power_oid 0 20 power_oid = Ok result ->
  forall vbs pd,
    incl vbs (varBinds result) ->
    (forall i s, zget i pd = Some s -> power_reading a i s) ->
    forall i s,
      zget i (fst (power_page power_oid indices vbs pd)) = Some s ->
      power_reading a i s.
Proof.
  intros Hoid Hres. induction vbs as [|[n v] vbs IH]; intros pd Hincl Hinv;
    cbn [power_page]; [exact Hinv|].
  assert (Hincl' : incl vbs (varBinds result))
    by (intros x Hx; apply Hincl; right; exact Hx).
  assert (Hin : In (n, v) (varBinds result)) by (apply Hincl; left; reflexivity).
  destruct (startswith n power_oid) eqn:Hs; cbn [negb];
    [|apply IH; assumption].
  destruct (index_of_name n) as [k|e] eqn:Hk; cbn [bind].
  - destruct (zin k indices).
    + destruct (as_int v) as [pv|e] eqn:Hv; cbn [bind].
      * destruct (render_power pv) as [s0|e] eqn:Hr; cbn [bind].
        -- apply IH; [exact Hincl'|].
           intros i s. rewrite zget_zset.
           destruct (Z.eqb_spec i k) as [->|Hne]; [|apply Hinv].
           intros E; inversion E; subst.
           exists power_oid, result, n, v, pv. repeat split; assumption.
        -- destruct (is_value_or_index_error e); [apply IH; assumption|exact Hinv].
      * destruct (is_value_or_index_error e); [apply IH; assumption|exact Hinv].
    + apply IH; assumption.
  - destruct (is_value_or_index_error e); [apply IH; assumption|exact Hinv].
Qed.

Lemma power_loop_sourced (a : Agent) (indices : list Z) :
  forall oids pd,
    incl (map snd oids) (map snd POWER_OID_MAPPING) ->
    (forall i s, zget i pd = Some s -> power_reading a i s) ->
    forall i s,
      zget i (fst (power_loop a indices oids pd)) = Some s ->
      power_reading a i s.
Proof.
  induction oids as [|[nm power_oid] oids IH]; intros pd Hincl Hinv;
    cbn [power_loop]; [exact Hinv|].
  assert (Hincl' : incl (map snd oids) (map snd POWER_OID_MAPPING))
    by (intros x Hx; apply Hincl; right; exact Hx).
  assert (Hoid : In power_oid (map snd POWER_OID_MAPPING))
    by (apply Hincl; left; reflexivity).
  destruct (bulk_cmd a power_oid 0 20 power_oid) as [result|e] eqn:Hres;
    [|apply IH; assumption].
  destruct (usable result); [|apply IH; assumption].
  pose proof (power_page_sourced a power_oid indices result Hoid Hres
                (varBinds result) pd (incl_refl _) Hinv) as Hpage.
  destruct (power_page power_oid indices (varBinds result) pd) as [pd1 [e|]];
    cbn [fst] in Hpage.
  - apply IH; assumption.
  - destruct (nonempty pd1); [exact Hpage|apply IH; assumption].
Qed.

(** X12. Every string in the map [_get_power_data_bulk] returns is ["N/A"]
    or the rendering of a reading that the page of one of the two power
    prefixes holds for that very index. *)
Theorem X12_power_values_come_from_readings
    (a : Agent) (interface_indices : list Z) (m : zdict string) (i : Z)
    (s : string) :
  _get_power_data_bulk a interface_indices = Ok m ->
  zget i m = Some s ->
  s = "N/A" \/ power_reading a i s.
Proof.
  unfold _get_power_data_bulk. intros Hm Hs. inversion Hm; subst m. clear Hm.
  apply fill_na_inv in Hs. destruct Hs as [Hs|Hs]; [|left; exact Hs].
  right. unfold power_try in Hs.
  destruct (create_target a 1 0); [|discriminate].
  revert Hs. apply power_loop_sourced; [apply incl_refl|discriminate].
Qed.

Lemma X12_witness :
  _get_power_data_bulk Scenario.powered [1; 2; 3]
  = Ok [(1, "15.4W"); (2, "0W"); (3, "N/A")]
  /\ ("15.4W" = "N/A" \/ power_reading Scenario.powered 1 "15.4W").
Proof.
  split; [reflexivity|].
  apply (X12_power_values_come_from_readings Scenario.powered [1; 2; 3]
           [(1, "15.4W"); (2, "0W"); (3, "N/A")] 1 "15.4W"); reflexivity.
Defined.

Lemma power_loop_winner_in (a : Agent) (indices : list Z) :
  forall oids pd pdf oid,
    power_loop a indices oids pd = (pdf, Some oid) -> In oid (map snd oids).
Proof.
  induction oids as [|[nm power_oid] oids IH]; intros pd pdf oid;
    cbn [power_loop]; [discriminate|].
  cbn [map snd In].
  destruct (bulk_cmd a power_oid 0 20 power_oid) as [result|e];
    [|intros H; right; eapply IH; exact H].
  destruct (usable result); [|intros H; right; eapply IH; exact H].
  destruct (power_page power_oid indices (varBinds result) pd) as [pd1 [e|]];
    [intros H; right; eapply IH; exact H|].
  destruct (nonempty pd1); [|intros H; right; eapply IH; exact H].
  intros H; inversion H; subst. left. reflexivity.
Qed.

(** X13. Once the first prefix (the Cisco PoE table) yields data, the second
    (the standard PoE table) is not consulted: two devices that answer the
    request for the first prefix alike get the same power map, whatever
    their answers for the second prefix. *)
Theorem X13_first_power_prefix_wins
    (a a' : Agent) (interface_indices : list Z) :
  winning_prefix a interface_indices = Some oid_cethPsePortPower ->
  create_target a' 1 0 = create_target a 1 0 ->
  bulk_cmd a' oid_cethPsePortPower 0 20 oid_cethPsePortPower
  = bulk_cmd a oid_cethPsePortPower 0 20 oid_cethPsePortPower ->
  _get_power_data_bulk a' interface_indices
  = _get_power_data_bulk a interface_indices.
Proof.
  unfold winning_prefix, _get_power_data_bulk, power_try.
  intros Hwin Hc Hb. rewrite Hc.
  destruct (create_target a 1 0); [|reflexivity].
  unfold POWER_OID_MAPPING in *. cbn [power_loop] in *.
  change "1.3.6.1.4.1.9.9.402.1.2.1.7" with oid_cethPsePortPower in *.
  rewrite Hb.
  assert (Hno : forall (b : Agent) pd,
            snd (power_loop b interface_indices
                   [("pethPsePortPowerConsumption", "1.3.6.1.2.1.105.1.1.1.4")] pd)
            <> Some oid_cethPsePortPower).
  { intros b pd H.
    destruct (power_loop b interface_indices
                [("pethPsePortPowerConsumption", "1.3.6.1.2.1.105.1.1.1.4")] pd)
      as [pdf win] eqn:E.
    cbn [snd] in H. subst win. apply power_loop_winner_in in E.
    cbn [map snd In] in E. destruct E as [E|[]]. discriminate. }
  destruct (bulk_cmd a oid_cethPsePortPower 0 20 oid_cethPsePortPower)
    as [result|e]; [|exfalso; exact (Hno a [] Hwin)].
  destruct (usable result); [|exfalso; exact (Hno a [] Hwin)].
  destruct (power_page oid_cethPsePortPower interface_indices (varBinds result) [])
    as [pd1 [e|]]; [exfalso; exact (Hno a pd1 Hwin)|].
  destruct (nonempty pd1); [reflexivity|exfalso; exact (Hno a pd1 Hwin)].
Qed.

Lemma X13_witness :
  winning_prefix Scenario.powered [1; 2; 3] = Some oid_cethPsePortPower
  /\ _get_power_data_bulk Sample.powered_both [1; 2; 3]
     = _get_power_data_bulk Scenario.powered [1; 2; 3].
Proof.
  split; [reflexivity|].
  apply (X13_first_power_prefix_wins Scenario.powered Sample.powered_both [1; 2; 3]);
    reflexivity.
Defined.

(** X14. When the PVID step covers at least half of the requested indices,
    the vendor table is not consulted: a requested index without a PVID
    value is mapped to ["N/A"], whatever the vendor table holds for it. *)
Theorem X14_vendor_step_skipped_at_half_coverage
    (a : Agent) (interface_indices : list Z) (i : Z) :
  create_target a 2 1 = Ok tt ->
  nonempty (_fetch_pvid_data a interface_indices) = true ->
  below_half (_fetch_pvid_data a interface_indices) interface_indices = false ->
  In i interface_indices ->
  zget i (_fetch_pvid_data a interface_indices) = None ->
  exists m,
    _get_vlan_data_bulk a interface_indices = Ok m
    /\ zget i m = Some "N/A".
Proof.
  intros Hc Hne Hhalf Hin Hp. eexists. split; [reflexivity|].
  apply fill_na_fills; [exact Hin|].
  rewrite (vlan_try_eq a interface_indices Hc). cbv zeta.
  rewrite Hne, Hhalf. cbn [negb orb]. rewrite Hne.
  destruct (nonempty (_fetch_vlan_names a)); [|exact Hp].
  rewrite enhance_loop_other; [exact Hp|].
  apply zget_none_not_in. exact Hp.
Qed.

Lemma X14_witness :
  zget 2 (_fetch_cisco_vlan_data Sample.pvid_half [1; 2]) = Some "20"
  /\ exists m,
       _get_vlan_data_bulk Sample.pvid_half [1; 2] = Ok m
       /\ zget 2 m = Some "N/A".
Proof.
  split; [reflexivity|].
  apply (X14_vendor_step_skipped_at_half_coverage Sample.pvid_half [1; 2] 2);
    try reflexivity.
  simpl. tauto.
Defined.

(** ** VLAN names *)

Lemma split_dot_aux_nonempty (s : string) : forall cur, split_dot_aux cur s <> [].
Proof.
  induction s as [|c s IH]; intros cur; cbn [split_dot_aux]; [discriminate|].
  destruct (is_dot c); [discriminate|apply IH].
Qed.

Lemma py_last_split_dot (s : string) : exists seg, py_last (split_dot s) = Ok seg.
Proof.
  unfold py_last, split_dot.
  pose proof (split_dot_aux_nonempty s EmptyString) as H.
  destruct (rev (split_dot_aux "" s)) as [|x l] eqn:E; [|eauto].
  exfalso. apply H. apply (f_equal (@rev string)) in E.
  rewrite rev_involutive in E. exact E.
Qed.

Lemma py_int_of_str_error (s : string) (e : PyExc) :
  py_int_of_str s = Raise e -> e = ValueError.
Proof.
  unfold py_int_of_str.
  repeat match goal with
         | |- context [match ?x with _ => _ end] => destruct x
         end; congruence.
Qed.

Lemma index_of_name_error (s : string) (e : PyExc) :
  index_of_name s = Raise e -> e = ValueError.
Proof.
  unfold index_of_name. destruct (py_last_split_dot s) as [seg ->]. cbn [bind].
  apply py_int_of_str_error.
Qed.

Lemma vlan_names_page_facts (oid : string) (id_of : string -> PyResult Z)
    (vbs : list (string * RawValue)) :
  (forall s e, id_of s = Raise e -> is_value_or_index_error e = true) ->
  forall vlan_names,
    (forall k nm, zget k vlan_names = Some nm -> nm <> "") ->
    snd (vlan_names_page oid id_of vbs vlan_names) = None
    /\ forall k nm,
         zget k (fst (vlan_names_page oid id_of vbs vlan_names)) = Some nm ->
         nm <> "".
Proof.
  intros Hid. induction vbs as [|[n v] vbs IH]; intros names Hinv;
    cbn [vlan_names_page]; [split; [reflexivity|exact Hinv]|].
  destruct (negb (startswith n oid)); [apply IH; exact Hinv|].
  destruct (id_of n) as [vlan_id|e] eqn:E.
  - destruct (strip (as_str v)) as [|c rest] eqn:S; cbn [list_ascii_of_string nonempty].
    + apply IH; exact Hinv.
    + apply IH. intros k nm. rewrite zget_zset.
      destruct (k =? vlan_id); [|apply Hinv].
      intros H; inversion H; discriminate.
  - rewrite (Hid n e E). apply IH; exact Hinv.
Qed.

Lemma index2_of_name_error (s : string) (e : PyExc) :
  index2_of_name s = Raise e -> is_value_or_index_error e = true.
Proof.
  unfold index2_of_name, py_last2.
  destruct (rev (split_dot s)) as [|x [|y l]]; cbn [bind];
    try (intros H; inversion H; reflexivity).
  intros H. apply py_int_of_str_error in H. subst. reflexivity.
Qed.

(** X15. The vendor VLAN name table is consulted only when the request for
    the standard name table raises: when that request returns, even with an
    error report or an empty page, the names are those of the standard page
    alone, none if the response is unusable. A stored name is never empty. *)
Theorem X15_vlan_names (a : Agent) :
  (forall result,
     bulk_cmd a oid_dot1qVlanStaticName 0 50 oid_dot1qVlanStaticName = Ok result ->
     _fetch_vlan_names a =
     if usable result
     then fst (vlan_names_page oid_dot1qVlanStaticName index_of_name
                 (varBinds result) [])
     else [])
  /\ (forall vlan_id nm, zget vlan_id (_fetch_vlan_names a) = Some nm -> nm <> "").
Proof.
  assert (H1 : forall s e, index_of_name s = Raise e ->
                           is_value_or_index_error e = true)
    by (intros s e H; apply index_of_name_error in H; subst; reflexivity).
  assert (Hnil : forall k nm, zget k (@nil (Z * string)) = Some nm -> nm <> "")
    by discriminate.
  split.
  - intros result Hres. unfold _fetch_vlan_names. rewrite Hres.
    destruct (usable result); [|reflexivity].
    pose proof (vlan_names_page_facts oid_dot1qVlanStaticName index_of_name
                  (varBinds result) H1 [] Hnil) as [E _].
    destruct (vlan_names_page oid_dot1qVlanStaticName index_of_name
                (varBinds result) []) as [names exc].
    cbn [snd] in E. subst exc. reflexivity.
  - unfold _fetch_vlan_names.
    destruct (bulk_cmd a oid_dot1qVlanStaticName 0 50 oid_dot1qVlanStaticName)
      as [result|e].
    + destruct (usable result).
      * pose proof (vlan_names_page_facts oid_dot1qVlanStaticName index_of_name
                      (varBinds result) H1 [] Hnil) as [E F].
        destruct (vlan_names_page oid_dot1qVlanStaticName index_of_name
                    (varBinds result) []) as [names exc].
        cbn [snd fst] in *. subst exc. exact F.
      * exact Hnil.
    + destruct (bulk_cmd a oid_vtpVlanName 0 50 oid_vtpVlanName) as [result|e2];
        [|exact Hnil].
      destruct (usable result); [|exact Hnil].
      apply (vlan_names_page_facts oid_vtpVlanName index2_of_name
               (varBinds result) index2_of_name_error [] Hnil).
Qed.

Lemma X15_witness :
  bulk_cmd Sample.vendor_names_only oid_vtpVlanName 0 50 oid_vtpVlanName
  = Ok (Scenario.response
          [(oid_vtpVlanName ++ ".10.0", Scenario.raw_octets "users")])
  /\ _fetch_vlan_names Sample.vendor_names_only = [].
Proof.
  split; [reflexivity|].
  apply (proj1 (X15_vlan_names Sample.vendor_names_only) Scenario.timed_out).
  reflexivity.
Defined.

(** ** The VLAN id through [str], [isdigit] and [int] *)

Lemma string_rev_aux_twice (s : string) :
  forall acc acc2,
    string_rev_aux (string_rev_aux s acc) acc2 = string_rev_aux acc (s ++ acc2).
Proof.
  induction s as [|c s IH]; intros acc acc2; cbn [string_rev_aux append];
    [reflexivity|].
  rewrite IH. reflexivity.
Qed.

Lemma string_rev_involutive (s : string) : string_rev (string_rev s) = s.
Proof.
  unfold string_rev. rewrite string_rev_aux_twice. cbn [string_rev_aux].
  induction s as [|c s IH]; cbn [append]; [reflexivity|]. rewrite IH. reflexivity.
Qed.

Lemma all_chars_rev_aux (p : ascii -> bool) (s : string) :
  forall acc,
    all_chars p (string_rev_aux s acc) = all_chars p s && all_chars p acc.
Proof.
  induction s as [|c s IH]; intros acc; cbn [string_rev_aux all_chars];
    [reflexivity|].
  rewrite IH. cbn [all_chars].
  destruct (p c), (all_chars p s), (all_chars p acc); reflexivity.
Qed.

Lemma int_lstrip_no_space (s : string) :
  all_chars (fun c => negb (is_int_space c)) s = true -> int_lstrip s = s.
Proof.
  destruct s as [|c s]; [reflexivity|]. cbn [all_chars int_lstrip].
  destruct (is_int_space c); [discriminate|reflexivity].
Qed.

Lemma int_strip_no_space (s : string) :
  all_chars (fun c => negb (is_int_space c)) s = true -> int_strip s = s.
Proof.
  intros H. unfold int_strip. rewrite (int_lstrip_no_space s H).
  rewrite int_lstrip_no_space.
  - apply string_rev_involutive.
  - unfold string_rev. rewrite all_chars_rev_aux. rewrite H. reflexivity.
Qed.

Lemma all_chars_impl (p q : ascii -> bool) (s : string) :
  (forall c, p c = true -> q c = true) ->
  all_chars p s = true -> all_chars q s = true.
Proof.
  intros Hpq. induction s as [|c s IH]; cbn [all_chars]; [reflexivity|].
  intros H. apply andb_prop in H. destruct H as [H1 H2].
  rewrite (Hpq c H1), (IH H2). reflexivity.
Qed.

Lemma digit_not_int_space (c : ascii) :
  is_ascii_digit c = true -> negb (is_int_space c) = true.
Proof.
  destruct c as [[] [] [] [] [] [] [] []]; vm_compute; congruence.
Qed.

Lemma digit_is_digit_char (c : ascii) :
  is_ascii_digit c = true -> is_digit_char c = true.
Proof. unfold is_digit_char. intros ->. reflexivity. Qed.

Lemma string_of_uint_digits (d : Decimal.uint) :
  all_chars is_ascii_digit (NilEmpty.string_of_uint d) = true.
Proof. induction d; cbn [NilEmpty.string_of_uint all_chars]; auto. Qed.

Lemma string_of_uint_nonempty (d : Decimal.uint) :
  d <> Decimal.Nil -> NilEmpty.string_of_uint d <> "".
Proof. destruct d; [congruence|..]; discriminate. Qed.

Lemma parse_digits_pos (d : Decimal.uint) :
  forall p,
    parse_digits (NilEmpty.string_of_uint d) (Z.pos p) true
    = Some (Z.pos (Pos.of_uint_acc d p)).
Proof.
  induction d; intros p;
    cbn [NilEmpty.string_of_uint parse_digits Pos.of_uint_acc];
    [reflexivity|..];
    match goal with
    | |- context [is_ascii_digit ?c] =>
        change (is_ascii_digit c) with true; cbv iota;
        let v := eval vm_compute in (digit_val c) in
        change (digit_val c) with v
    end;
    match goal with
    | |- parse_digits _ ?x true = Some (Z.pos (Pos.of_uint_acc _ ?q)) =>
        replace x with (Z.pos q) by lia
    end;
    apply IHd.
Qed.

Lemma parse_digits_zero (d : Decimal.uint) :
  forall b,
    d <> Decimal.Nil \/ b = true ->
    parse_digits (NilEmpty.string_of_uint d) 0 b = Some (Z.of_N (Pos.of_uint d)).
Proof.
  induction d; intros b Hb;
    cbn [NilEmpty.string_of_uint parse_digits Pos.of_uint].
  - destruct Hb as [Hb|Hb]; [congruence|]. subst b. reflexivity.
  - change (is_ascii_digit "0") with true. cbv iota.
    change (10 * 0 + digit_val "0") with 0. apply IHd. right. reflexivity.
  - exact (parse_digits_pos d 1).
  - exact (parse_digits_pos d 2).
  - exact (parse_digits_pos d 3).
  - exact (parse_digits_pos d 4).
  - exact (parse_digits_pos d 5).
  - exact (parse_digits_pos d 6).
  - exact (parse_digits_pos d 7).
  - exact (parse_digits_pos d 8).
  - exact (parse_digits_pos d 9).
Qed.

Lemma py_int_of_str_digits (s : string) :
  s <> "" -> all_chars is_ascii_digit s = true ->
  py_int_of_str s =
  match parse_digits s 0 false with
  | Some n => Ok n
  | None => Raise ValueError
  end.
Proof.
  intros Hne Hd. unfold py_int_of_str.
  rewrite int_strip_no_space
    by (apply (all_chars_impl is_ascii_digit);
        [exact digit_not_int_space|exact Hd]).
  destruct s as [|c rest]; [congruence|].
  cbn [all_chars] in Hd. apply andb_prop in Hd. destruct Hd as [Hc _].
  destruct c as [[] [] [] [] [] [] [] []]; try discriminate Hc; reflexivity.
Qed.

Lemma py_int_of_str_minus_digits (t : string) :
  all_chars is_ascii_digit t = true ->
  py_int_of_str (String "-" t) =
  match parse_digits t 0 false with
  | Some n => Ok (- n)
  | None => Raise ValueError
  end.
Proof.
  intros Hd. unfold py_int_of_str.
  rewrite int_strip_no_space; [reflexivity|].
  cbn [all_chars].
  change (negb (is_int_space "-")) with true. cbn [andb].
  apply (all_chars_impl is_ascii_digit); [exact digit_not_int_space|exact Hd].
Qed.

Lemma py_str_of_int_pos (p : positive) :
  py_str_of_int (Z.pos p) = NilEmpty.string_of_uint (Pos.to_uint p).
Proof.
  unfold py_str_of_int. cbn [Z.to_int NilZero.string_of_int].
  unfold NilZero.string_of_uint.
  pose proof (Unsigned.to_uint_nonnil p) as H.
  destruct (Pos.to_uint p); [congruence|..]; reflexivity.
Qed.

Lemma py_str_of_int_neg (p : positive) :
  py_str_of_int (Z.neg p) = String "-" (NilEmpty.string_of_uint (Pos.to_uint p)).
Proof.
  unfold py_str_of_int. cbn [Z.to_int NilZero.string_of_int].
  unfold NilZero.string_of_uint.
  pose proof (Unsigned.to_uint_nonnil p) as H.
  destruct (Pos.to_uint p); [congruence|..]; reflexivity.
Qed.

Lemma int_str_round_trip_pos (p : positive) :
  py_int_of_str (py_str_of_int (Z.pos p)) = Ok (Z.pos p)
  /\ isdigit (py_str_of_int (Z.pos p)) = true.
Proof.
  rewrite py_str_of_int_pos.
  pose proof (Unsigned.to_uint_nonnil p) as Hnil.
  pose proof (string_of_uint_digits (Pos.to_uint p)) as Hd.
  pose proof (string_of_uint_nonempty _ Hnil) as Hne.
  split.
  - rewrite (py_int_of_str_digits _ Hne Hd).
    rewrite parse_digits_zero by (left; exact Hnil).
    rewrite Unsigned.of_to. reflexivity.
  - unfold isdigit.
    destruct (NilEmpty.string_of_uint (Pos.to_uint p)) as [|c rest] eqn:E;
      [congruence|].
    rewrite <- E.
    apply (all_chars_impl is_ascii_digit); [exact digit_is_digit_char|].
    rewrite E. exact Hd.
Qed.

Lemma int_str_round_trip_neg (p : positive) :
  py_int_of_str (py_str_of_int (Z.neg p)) = Ok (Z.neg p)
  /\ isdigit (py_str_of_int (Z.neg p)) = false.
Proof.
  rewrite py_str_of_int_neg.
  pose proof (Unsigned.to_uint_nonnil p) as Hnil.
  pose proof (string_of_uint_digits (Pos.to_uint p)) as Hd.
  split.
  - rewrite (py_int_of_str_minus_digits _ Hd).
    rewrite parse_digits_zero by (left; exact Hnil).
    rewrite Unsigned.of_to. reflexivity.
  - reflexivity.
Qed.

Lemma int_str_round_trip (n : Z) :
  py_int_of_str (py_str_of_int n) = Ok n
  /\ isdigit (py_str_of_int n) = (0 <=? n).
Proof.
  destruct n as [|p|p].
  - split; reflexivity.
  - apply int_str_round_trip_pos.
  - apply int_str_round_trip_neg.
Qed.

(** X16. The string the PVID and vendor steps store for a VLAN id reads back
    as the same id in the naming step: [int(str(n))] is [n] for every
    integer [n], [str(n).isdigit()] holds exactly when [n] is not negative,
    and different ids are stored as different strings. *)
Theorem X16_vlan_id_string_round_trip (n : Z) :
  py_int_of_str (py_str_of_int n) = Ok n
  /\ isdigit (py_str_of_int n) = (0 <=? n)
  /\ forall m, py_str_of_int n = py_str_of_int m -> n = m.
Proof.
  assert (R : forall k, py_int_of_str (py_str_of_int k) = Ok k).
  { intros [|p|p].
    - reflexivity.
    - apply int_str_round_trip_pos.
    - apply int_str_round_trip_neg. }
  split; [apply R|]. split.
  - destruct n as [|p|p].
    + reflexivity.
    + apply int_str_round_trip_pos.
    + apply int_str_round_trip_neg.
  - intros m H. apply (f_equal py_int_of_str) in H.
    rewrite (R n), (R m) in H. inversion H. reflexivity.
Qed.

Lemma py_str_of_int_inj (n m : Z) : py_str_of_int n = py_str_of_int m -> n = m.
Proof.
  intros H. apply (f_equal py_int_of_str) in H.
  rewrite (proj1 (int_str_round_trip n)), (proj1 (int_str_round_trip m)) in H.
  inversion H. reflexivity.
Qed.

Lemma vlan_id_page_values (oid : string) (indices : list Z)
    (vbs : list (string * RawValue)) :
  forall data,
    (forall k s, zget k data = Some s -> exists n, s = py_str_of_int n) ->
    forall k s,
      zget k (fst (vlan_id_page oid indices vbs data)) = Some s ->
      exists n, s = py_str_of_int n.
Proof.
  induction vbs as [|[nm v] vbs IH]; intros data H; cbn [vlan_id_page];
    [exact H|].
  destruct (negb (startswith nm oid)); [apply IH; exact H|].
  destruct (idx <- index_of_name nm;; vlan_id <- as_int v;; Ok (idx, vlan_id))
    as [[idx vlan_id]|e].
  - destruct (zin idx indices); apply IH; [|exact H].
    intros k s. rewrite zget_zset. destruct (k =? idx); [|apply H].
    intros E; inversion E. eauto.
  - destruct (is_value_or_index_error e); [apply IH; exact H|exact H].
Qed.

Lemma fetch_vlan_id_table_values (a : Agent) (oid : string) (indices : list Z)
    (k : Z) (s : string) :
  zget k (fetch_vlan_id_table a oid indices) = Some s ->
  exists n, s = py_str_of_int n.
Proof.
  unfold fetch_vlan_id_table.
  destruct (bulk_cmd a oid 0 20 oid) as [result|e]; [|discriminate].
  destruct (usable result); [|discriminate].
  apply vlan_id_page_values. discriminate.
Qed.

Lemma enhance_loop_head (vlan_names : zdict string) (k m : Z)
    (rest : list (Z * string)) (vlan_data : zdict string) :
  zget k vlan_data = Some (py_str_of_int m) ->
  exists vd',
    enhance_loop vlan_names ((k, py_str_of_int m) :: rest) vlan_data
    = enhance_loop vlan_names rest vd'
    /\ zget k vd' = Some (vlan_label vlan_names m)
    /\ forall k0, k0 <> k -> zget k0 vd' = zget k0 vlan_data.
Proof.
  intros Hk. cbn [enhance_loop].
  destruct (int_str_round_trip m) as [Hint Hdig]. rewrite Hdig, Hint.
  unfold vlan_label.
  destruct (0 <=? m).
  - destruct (zget m vlan_names) as [nm|].
    + eexists. split; [reflexivity|]. split.
      * apply zget_zset_same.
      * intros k0 Hne. apply zget_zset_other. exact Hne.
    + exists vlan_data. auto.
  - exists vlan_data. auto.
Qed.

Lemma enhance_loop_exact (vlan_names : zdict string) :
  forall items vlan_data,
    NoDup (dict_keys items) ->
    (forall k info, In (k, info) items ->
       (exists n, info = py_str_of_int n) /\ zget k vlan_data = Some info) ->
    forall i n,
      In (i, py_str_of_int n) items ->
      zget i (fst (enhance_loop vlan_names items vlan_data))
      = Some (vlan_label vlan_names n).
Proof.
  induction items as [|[k info] items IH]; intros vd Hnd Hit i n Hin;
    [contradiction|].
  cbn [dict_keys map fst] in Hnd. inversion Hnd as [|? ? Hk Hnd']; subst.
  destruct (Hit k info (or_introl eq_refl)) as [[m ->] Hkv].
  destruct (enhance_loop_head vlan_names k m items vd Hkv)
    as [vd' [E [Hk' Hother]]].
  rewrite E.
  assert (Hne : forall k0 info0, In (k0, info0) items -> k0 <> k).
  { intros k0 info0 H0 ->. apply Hk.
    change k with (fst (k, info0)). apply in_map. exact H0. }
  destruct Hin as [Hin|Hin].
  - inversion Hin as [[Hi Hs]]. apply py_str_of_int_inj in Hs. subst.
    rewrite enhance_loop_other; [exact Hk'|exact Hne].
  - apply IH; [exact Hnd'| |exact Hin].
    intros k0 info0 H0. destruct (Hit k0 info0 (or_intror H0)) as [Hform Hv].
    split; [exact Hform|]. rewrite Hother; [exact Hv|]. eapply Hne. exact H0.
Qed.

Lemma vlan_label_no_names (n : Z) : vlan_label [] n = py_str_of_int n.
Proof. unfold vlan_label. destruct (0 <=? n); reflexivity. Qed.

Lemma vlan_try_exact (a : Agent) (indices : list Z) (i : Z) (s : string) :
  create_target a 2 1 = Ok tt ->
  (zget i (_fetch_pvid_data a indices) = Some s
   \/ (zget i (_fetch_pvid_data a indices) = None
       /\ negb (nonempty (_fetch_pvid_data a indices))
          || below_half (_fetch_pvid_data a indices) indices = true
       /\ zget i (_fetch_cisco_vlan_data a indices) = Some s)) ->
  exists n,
    s = py_str_of_int n
    /\ zget i (fst (vlan_try a indices))
       = Some (vlan_label (_fetch_vlan_names a) n).
Proof.
  intros Hc Hs. rewrite (vlan_try_eq a indices Hc). cbv zeta.
  set (merged := if negb (nonempty (_fetch_pvid_data a indices))
                    || below_half (_fetch_pvid_data a indices) indices
                 then fold_left merge_missing (_fetch_cisco_vlan_data a indices)
                        (_fetch_pvid_data a indices)
                 else _fetch_pvid_data a indices).
  assert (Hm : zget i merged = Some s).
  { unfold merged. destruct Hs as [Hp|[Hp [Hcov Hv]]].
    - destruct (negb (nonempty (_fetch_pvid_data a indices))
                || below_half (_fetch_pvid_data a indices) indices);
        [|exact Hp].
      rewrite merge_missing_get, Hp. reflexivity.
    - rewrite Hcov, merge_missing_get, Hp. exact Hv. }
  assert (Hnd : NoDup (dict_keys merged)).
  { unfold merged.
    destruct (negb (nonempty (_fetch_pvid_data a indices))
              || below_half (_fetch_pvid_data a indices) indices).
    - apply merge_missing_NoDup. apply fetch_vlan_id_table_NoDup.
    - apply fetch_vlan_id_table_NoDup. }
  assert (Hform : forall k x, zget k merged = Some x ->
                              exists n, x = py_str_of_int n).
  { intros k x. unfold merged.
    destruct (negb (nonempty (_fetch_pvid_data a indices))
              || below_half (_fetch_pvid_data a indices) indices).
    - rewrite merge_missing_get.
      destruct (zget k (_fetch_pvid_data a indices)) as [y|] eqn:E.
      + intros H; inversion H; subst.
        apply (fetch_vlan_id_table_values a oid_dot1qPvid indices k x E).
      + apply fetch_vlan_id_table_values.
    - apply fetch_vlan_id_table_values. }
  destruct (Hform i s Hm) as [n ->]. exists n. split; [reflexivity|].
  assert (Hne : nonempty merged = true).
  { destruct merged; [discriminate|reflexivity]. }
  rewrite Hne.
  destruct (_fetch_vlan_names a) as [|nm0 names] eqn:En.
  - cbn [nonempty fst]. rewrite vlan_label_no_names. exact Hm.
  - cbn [nonempty]. rewrite <- En.
    apply enhance_loop_exact; [exact Hnd| |].
    + intros k info Hin.
      apply (dict_In_get Z.eqb Zeqb_eq' k info merged Hnd) in Hin.
      split; [apply (Hform k info Hin)|exact Hin].
    + apply (dict_get_In Z.eqb Zeqb_eq'). exact Hm.
Qed.

(** X17. The final VLAN string of an index is exactly the label of its VLAN
    id: for an index with a PVID value, or without one but with a vendor
    value once the vendor step ran, the stored string is [str(n)] for an
    integer [n], and the result maps the index to "<n> (<name>)" when [n] is
    not negative and the name table names it, and to [str(n)] otherwise. *)
Theorem X17_vlan_label_exact
    (a : Agent) (interface_indices : list Z) (i : Z) (s : string) :
  create_target a 2 1 = Ok tt ->
  (zget i (_fetch_pvid_data a interface_indices) = Some s
   \/ (zget i (_fetch_pvid_data a interface_indices) = None
       /\ negb (nonempty (_fetch_pvid_data a interface_indices))
          || below_half (_fetch_pvid_data a interface_indices) interface_indices
          = true
       /\ zget i (_fetch_cisco_vlan_data a interface_indices) = Some s)) ->
  exists n m,
    s = py_str_of_int n
    /\ _get_vlan_data_bulk a interface_indices = Ok m
    /\ zget i m = Some (vlan_label (_fetch_vlan_names a) n).
Proof.
  intros Hc Hs.
  destruct (vlan_try_exact a interface_indices i s Hc Hs) as [n [Hn Hv]].
  exists n. eexists. split; [exact Hn|]. split; [reflexivity|].
  apply fill_na_keeps. exact Hv.
Qed.

Lemma X17_witness :
  zget 1 (_fetch_pvid_data Scenario.two_vlan_sources [1; 2; 3; 4]) = Some "10"
  /\ vlan_label (_fetch_vlan_names Scenario.two_vlan_sources) 10 = "10 (users)"
  /\ exists n m,
       "10" = py_str_of_int n
       /\ _get_vlan_data_bulk Scenario.two_vlan_sources [1; 2; 3; 4] = Ok m
       /\ zget 1 m
          = Some (vlan_label (_fetch_vlan_names Scenario.two_vlan_sources) n).
Proof.
  split; [reflexivity|]. split; [reflexivity|].
  apply (X17_vlan_label_exact Scenario.two_vlan_sources [1; 2; 3; 4] 1 "10");
    [reflexivity|left; reflexivity].
Defined.

(** ** Accuracy of the one-decimal rendering *)

Lemma pow2_double (k : Z) : 0 <= k -> 2 ^ (k + 1) = 2 * 2 ^ k.
Proof. intros H. rewrite Z.pow_add_r by lia. lia. Qed.

Lemma truediv_nearest (a b k : Z) :
  0 < a -> 0 < b -> 2 <= k ->
  Z.log2 a - Z.log2 b - 52 <= - k ->
  -1074 < Z.log2 a - Z.log2 b - 53 ->
  exists m e,
    py_truediv a b = Ok {| mant := m; expo := e |}
    /\ e <= 1 - k
    /\ 2 * Z.abs (b * m - a * 2 ^ (- e)) <= b.
Proof.
  intros Ha Hb Hk Hhi Hlo. unfold py_truediv.
  set (e0 := Z.log2 a - Z.log2 b - 52) in *.
  set (e1 := if floor_scaled a b e0 <? 2 ^ 52 then e0 - 1 else e0).
  assert (He1 : e0 - 1 <= e1 <= e0)
    by (unfold e1; destruct (floor_scaled a b e0 <? 2 ^ 52); lia).
  replace (Z.max e1 (-1074)) with e1 by lia.
  unfold round_scaled.
  destruct (Z.leb_spec 0 e1) as [Hge|Hlt]; [lia|].
  set (m := round_half_even (a * 2 ^ (- e1)) b).
  pose proof (round_half_even_nearest (a * 2 ^ (- e1)) b Hb) as Hm.
  fold m in Hm.
  destruct (Z.eqb_spec m (2 ^ 53)) as [E|NE].
  - destruct (Z.ltb_spec 971 (e1 + 1)) as [Hov|_]; [lia|].
    exists (2 ^ 52), (e1 + 1). split; [reflexivity|]. split; [lia|].
    assert (P : 2 ^ (- e1) = 2 * 2 ^ (- (e1 + 1))).
    { replace (- e1) with (- (e1 + 1) + 1) by lia. apply pow2_double. lia. }
    rewrite E, P in Hm.
    change (2 ^ 53) with (2 * 2 ^ 52) in Hm.
    replace (b * (2 * 2 ^ 52) - a * (2 * 2 ^ (- (e1 + 1))))
      with (2 * (b * 2 ^ 52 - a * 2 ^ (- (e1 + 1)))) in Hm by ring.
    rewrite Z.abs_mul in Hm. change (Z.abs 2) with 2 in Hm. lia.
  - destruct (Z.ltb_spec 971 e1) as [Hov|_]; [lia|].
    exists m, e1. split; [reflexivity|]. split; [lia|exact Hm].
Qed.

Lemma format_1f_nearest (m e : Z) :
  e < 0 ->
  exists t,
    format_1f {| mant := m; expo := e |}
    = py_str_of_int (t / 10) ++ "." ++ py_str_of_int (t mod 10)
    /\ 2 * Z.abs (2 ^ (- e) * t - 10 * m) <= 2 ^ (- e).
Proof.
  intros He. unfold format_1f. cbn [mant expo].
  destruct (Z.leb_spec 0 e) as [Hge|_]; [lia|].
  exists (round_half_even (10 * m) (2 ^ (- e))). split; [reflexivity|].
  apply round_half_even_nearest. apply Z.pow_pos_nonneg; lia.
Qed.

Lemma tenths_nearest (a b E m t : Z) :
  0 < b -> 10 * b < E ->
  2 * Z.abs (b * m - a * E) <= b ->
  2 * Z.abs (E * t - 10 * m) <= E ->
  2 * Z.abs (b * t - 10 * a) <= b.
Proof.
  intros Hb HE H1 H2.
  assert (Hkey : (b * t - 10 * a) * E = b * (E * t - 10 * m) + 10 * (b * m - a * E))
    by ring.
  assert (Hbound : 2 * Z.abs ((b * t - 10 * a) * E) <= b * E + 10 * b).
  { rewrite Hkey.
    pose proof (Z.abs_triangle (b * (E * t - 10 * m)) (10 * (b * m - a * E))) as T.
    rewrite !Z.abs_mul in T. rewrite (Z.abs_eq b) in T by lia.
    change (Z.abs 10) with 10 in T. nia. }
  rewrite Z.abs_mul, (Z.abs_eq E) in Hbound by lia.
  destruct (Z.le_gt_cases (2 * Z.abs (b * t - 10 * a)) b) as [Hle|Hgt];
    [exact Hle|].
  exfalso. nia.
Qed.

Lemma truediv_format_nearest (a b k : Z) :
  0 < a -> 0 < b -> 2 <= k ->
  10 * b < 2 ^ (k - 1) ->
  Z.log2 a - Z.log2 b - 52 <= - k ->
  -1074 < Z.log2 a - Z.log2 b - 53 ->
  exists x t,
    py_truediv a b = Ok x
    /\ format_1f x = py_str_of_int (t / 10) ++ "." ++ py_str_of_int (t mod 10)
    /\ 2 * Z.abs (b * t - 10 * a) <= b.
Proof.
  intros Ha Hb Hk HE Hhi Hlo.
  destruct (truediv_nearest a b k Ha Hb Hk Hhi Hlo) as [m [e [Hx [He Hm]]]].
  destruct (format_1f_nearest m e ltac:(lia)) as [t [Hf Ht]].
  exists {| mant := m; expo := e |}, t. split; [exact Hx|]. split; [exact Hf|].
  apply (tenths_nearest a b (2 ^ (- e)) m t Hb); [|exact Hm|exact Ht].
  assert (2 ^ (k - 1) <= 2 ^ (- e)) by (apply Z.pow_le_mono_r; lia). lia.
Qed.

(** X18. For every reading [r] with [0 < r < 2^47] the rendered power is
    [r / 1000] rounded to the nearest tenth of a watt: the string is
    "<t div 10>.<t mod 10>W" for an integer [t] with [|100 t - r| <= 50].
    The binary floating-point division never moves the displayed digit. *)
Theorem X18_power_rendering_accuracy (r : Z) :
  0 < r -> r < 2 ^ 47 ->
  exists t,
    render_power r
    = Ok ((py_str_of_int (t / 10) ++ "." ++ py_str_of_int (t mod 10)) ++ "W")
    /\ Z.abs (100 * t - r) <= 50.
Proof.
  intros Hpos Hlt.
  assert (Hlog : 0 <= Z.log2 r < 47).
  { split; [apply Z.log2_nonneg|]. apply Z.log2_lt_pow2; lia. }
  assert (L1000 : Z.log2 1000 = 9) by reflexivity.
  destruct (truediv_format_nearest r 1000 15) as [x [t [Hx [Hf Ht]]]];
    try lia.
  exists t. split.
  - unfold render_power. destruct (Z.ltb_spec 0 r) as [_|H]; [|lia].
    rewrite Hx. cbn [bind]. rewrite Hf. reflexivity.
  - lia.
Qed.

Lemma X18_witness :
  0 < 15449 /\ 15449 < 2 ^ 47
  /\ exists t,
       render_power 15449
       = Ok ((py_str_of_int (t / 10) ++ "." ++ py_str_of_int (t mod 10)) ++ "W")
       /\ Z.abs (100 * t - 15449) <= 50.
Proof.
  split; [lia|]. split; [reflexivity|].
  apply (X18_power_rendering_accuracy 15449); [lia|reflexivity].
Defined.

(** ** The power reading, from the division to the digits *)

Lemma round_half_even_tie (p q : Z) :
  0 < q ->
  2 * Z.abs (q * round_half_even p q - p) = q ->
  Z.even (round_half_even p q) = true.
Proof.
  intros Hq. unfold round_half_even.
  pose proof (Z.div_mod p q ltac:(lia)) as Hdm.
  pose proof (Z.mod_pos_bound p q Hq) as Hm.
  destruct (Z.ltb_spec (2 * (p mod q)) q) as [L1|L1].
  - intros T. exfalso. nia.
  - destruct (Z.ltb_spec q (2 * (p mod q))) as [L2|L2].
    + intros T. exfalso. nia.
    + destruct (Z.even (p / q)) eqn:E; intros _; [exact E|].
      rewrite Z.even_add, E. reflexivity.
Qed.

Lemma scaled_den_pos (d e : Z) : 0 < d -> 0 < scaled_den d e.
Proof.
  intros H. unfold scaled_den. destruct (Z.leb_spec 0 e); [exact H|].
  assert (0 < 2 ^ (- e)) by (apply Z.pow_pos_nonneg; lia). nia.
Qed.

Lemma scaled_step (n d e : Z) :
  (scaled_num n (e + 1) = 2 * scaled_num n e
   /\ scaled_den d (e + 1) = scaled_den d e)
  \/ (scaled_num n (e + 1) = scaled_num n e
      /\ scaled_den d e = 2 * scaled_den d (e + 1)).
Proof.
  unfold scaled_num, scaled_den.
  destruct (Z.leb_spec 0 e) as [H|H].
  - left. destruct (Z.leb_spec 0 (e + 1)); [|lia].
    rewrite Z.pow_add_r by lia. change (2 ^ 1) with 2. split; lia.
  - right. destruct (Z.leb_spec 0 (e + 1)) as [H1|H1].
    + assert (e = -1) by lia. subst e. change (-1 + 1) with 0.
      change (2 ^ 0) with 1. change (2 ^ (- -1)) with 2. lia.
    + replace (- e) with (- (e + 1) + 1) by lia.
      rewrite Z.pow_add_r by lia. change (2 ^ 1) with 2. split; lia.
Qed.

Lemma floor_scaled_eq (a b e : Z) :
  floor_scaled a b e = scaled_num a (- e) / scaled_den b (- e).
Proof.
  unfold floor_scaled, scaled_num, scaled_den. rewrite Z.opp_involutive.
  destruct (Z.leb_spec 0 e) as [H|H]; destruct (Z.leb_spec 0 (- e)) as [H'|H'];
    try lia; try reflexivity.
  assert (e = 0) by lia. subst e. change (- 0) with 0. change (2 ^ 0) with 1.
  rewrite !Z.mul_1_r. reflexivity.
Qed.

Lemma round_scaled_eq (a b e : Z) :
  round_scaled a b e
  = round_half_even (scaled_num a (- e)) (scaled_den b (- e)).
Proof.
  unfold round_scaled, scaled_num, scaled_den. rewrite Z.opp_involutive.
  destruct (Z.leb_spec 0 e) as [H|H]; destruct (Z.leb_spec 0 (- e)) as [H'|H'];
    try lia; try reflexivity.
  assert (e = 0) by lia. subst e. change (- 0) with 0. change (2 ^ 0) with 1.
  rewrite !Z.mul_1_r. reflexivity.
Qed.

Lemma round_half_even_nearest_even (n d e : Z) :
  0 < d ->
  nearest_even n d e (round_half_even (scaled_num n e) (scaled_den d e)).
Proof.
  intros Hd. pose proof (scaled_den_pos d e Hd) as Hp. split.
  - apply round_half_even_nearest. exact Hp.
  - apply round_half_even_tie. exact Hp.
Qed.

Lemma scaled_log_range (a b : Z) :
  0 < a -> 0 < b ->
  let e0 := Z.log2 a - Z.log2 b - 52 in
  2 ^ 52 * scaled_den b (- e0) < 2 * scaled_num a (- e0)
  /\ scaled_num a (- e0) < 2 ^ 53 * scaled_den b (- e0).
Proof.
  intros Ha Hb e0.
  pose proof (Z.log2_spec a Ha) as [La Ua].
  pose proof (Z.log2_spec b Hb) as [Lb Ub].
  pose proof (Z.log2_nonneg a) as Na.
  pose proof (Z.log2_nonneg b) as Nb.
  rewrite Z.pow_succ_r in Ua, Ub by lia.
  set (P := 2 ^ Z.log2 a) in *. set (Q := 2 ^ Z.log2 b) in *.
  unfold scaled_num, scaled_den. rewrite Z.opp_involutive.
  destruct (Z.leb_spec 0 (- e0)) as [H|H].
  - assert (E : P * 2 ^ (- e0) = Q * 2 ^ 52).
    { unfold P, Q. rewrite <- !Z.pow_add_r by lia. f_equal. unfold e0. lia. }
    assert (0 < 2 ^ (- e0)) by (apply Z.pow_pos_nonneg; lia).
    nia.
  - assert (E : P = Q * 2 ^ 52 * 2 ^ e0).
    { unfold P, Q. rewrite <- !Z.pow_add_r by lia. f_equal. unfold e0. lia. }
    assert (0 < 2 ^ e0) by (apply Z.pow_pos_nonneg; lia).
    nia.
Qed.

Lemma truediv_nearest_binary64 (a b : Z) (x : PyFloat) :
  0 < a -> 0 < b ->
  -1074 < Z.log2 a - Z.log2 b - 53 ->
  py_truediv a b = Ok x ->
  nearest_binary64 a b (mant x) (expo x)
  /\ Z.log2 a - Z.log2 b - 53 <= expo x <= Z.log2 a - Z.log2 b - 51.
Proof.
  intros Ha Hb Hlo. unfold py_truediv.
  pose proof (scaled_log_range a b Ha Hb) as Hr. cbv zeta in Hr.
  set (e0 := Z.log2 a - Z.log2 b - 52) in *.
  set (e1 := if floor_scaled a b e0 <? 2 ^ 52 then e0 - 1 else e0).
  assert (He1 : e0 - 1 <= e1 <= e0)
    by (unfold e1; destruct (floor_scaled a b e0 <? 2 ^ 52); lia).
  replace (Z.max e1 (-1074)) with e1 by lia.
  rewrite round_scaled_eq.
  assert (Hrange : 2 ^ 52 * scaled_den b (- e1) <= scaled_num a (- e1)
                   < 2 ^ 53 * scaled_den b (- e1)).
  { unfold e1. rewrite floor_scaled_eq.
    pose proof (scaled_den_pos b (- e0) Hb) as HD0.
    destruct (Z.ltb_spec (scaled_num a (- e0) / scaled_den b (- e0)) (2 ^ 52))
      as [Hf|Hf].
    - assert (Hlt : scaled_num a (- e0) < 2 ^ 52 * scaled_den b (- e0)).
      { destruct (Z.lt_ge_cases (scaled_num a (- e0))
                    (2 ^ 52 * scaled_den b (- e0))) as [L|G]; [exact L|].
        exfalso.
        assert (2 ^ 52 <= scaled_num a (- e0) / scaled_den b (- e0))
          by (apply Z.div_le_lower_bound; lia).
        lia. }
      replace (- (e0 - 1)) with (- e0 + 1) by lia.
      destruct (scaled_step a b (- e0)) as [[E1 E2]|[E1 E2]];
        rewrite E1; lia.
    - assert (Hge : 2 ^ 52 * scaled_den b (- e0) <= scaled_num a (- e0)).
      { pose proof (Z.mul_div_le (scaled_num a (- e0)) (scaled_den b (- e0)) HD0).
        nia. }
      lia. }
  set (N := scaled_num a (- e1)) in *. set (D := scaled_den b (- e1)) in *.
  assert (HD : 0 < D) by (apply scaled_den_pos; exact Hb).
  pose proof (round_half_even_nearest_even a b (- e1) Hb) as Hne.
  unfold nearest_even in Hne. fold N D in Hne.
  set (m := round_half_even N D) in *.
  assert (Hm : 2 ^ 52 <= m <= 2 ^ 53).
  { destruct Hne as [Hn _]. split; nia. }
  destruct (Z.eqb_spec m (2 ^ 53)) as [E|NE].
  - destruct (Z.ltb_spec 971 (e1 + 1)) as [Hov|Hov]; [discriminate|].
    intros H; inversion H; subst x. cbn [mant expo].
    split; [|lia]. split; [split; [lia|reflexivity]|]. split; [lia|].
    destruct Hne as [Hn _]. rewrite E in Hn.
    unfold nearest_even.
    assert (S : (scaled_num a (- e1) = 2 * scaled_num a (- (e1 + 1))
                 /\ scaled_den b (- e1) = scaled_den b (- (e1 + 1)))
                \/ (scaled_num a (- e1) = scaled_num a (- (e1 + 1))
                    /\ scaled_den b (- (e1 + 1)) = 2 * scaled_den b (- e1))).
    { pose proof (scaled_step a b (- (e1 + 1))) as S.
      replace (- (e1 + 1) + 1) with (- e1) in S by lia. exact S. }
    fold N D in S.
    change (2 ^ 53) with (2 * 2 ^ 52) in Hn.
    destruct S as [[S1 S2]|[S1 S2]].
    + rewrite <- S2. rewrite S1 in Hn.
      split; [split; [lia|reflexivity]|intros _; lia].
    + rewrite S2, <- S1.
      split; [split; [lia|reflexivity]|intros _; lia].
  - destruct (Z.ltb_spec 971 e1) as [Hov|Hov]; [discriminate|].
    intros H; inversion H; subst x. cbn [mant expo].
    split; [|lia]. split; [lia|]. split; [lia|]. split; [exact Hne|].
    intros Em. fold N D. lia.
Qed.

Lemma format_1f_nearest_even (x : PyFloat) :
  exists t,
    format_1f x = one_decimal t
    /\ nearest_even (10 * mant x) 1 (expo x) t.
Proof.
  unfold format_1f, one_decimal, nearest_even, scaled_num, scaled_den.
  destruct (Z.leb_spec 0 (expo x)) as [H|H].
  - exists (10 * mant x * 2 ^ expo x). split; [reflexivity|].
    split; [lia|lia].
  - exists (round_half_even (10 * mant x) (2 ^ (- expo x))).
    split; [reflexivity|].
    assert (Hp : 0 < 2 ^ (- expo x)) by (apply Z.pow_pos_nonneg; lia).
    rewrite Z.mul_1_l. split.
    + apply round_half_even_nearest. exact Hp.
    + apply round_half_even_tie. exact Hp.
Qed.

(** C8. For every raw integer reading [r] the winning prefix holds for a
    requested index (the last one, if the page holds several for that
    index), the result of [_get_power_data_bulk] maps the index to ["0W"]
    when [r] is zero or negative, and otherwise to [r / 1000] formatted with
    one decimal place and followed by ["W"]: the text is
    "<t div 10>.<t mod 10>W", where [t] is the number of tenths nearest to
    the binary64 number nearest to [r / 1000], ties to even in both
    roundings. For readings below [2^47] this is [r / 1000] rounded to the
    nearest tenth, [|100 t - r| <= 50]. The raw value 15400 renders as
    ["15.4W"] and the raw value 0 as ["0W"]. *)
Theorem C8_power_rendering :
  (forall (a : Agent) (interface_indices : list Z) (power_oid : string)
          (result : SnmpResult) (pre post : list (string * RawValue))
          (name : string) (val : RawValue) (i r : Z),
     winning_prefix a interface_indices = Some power_oid ->
     bulk_cmd a power_oid 0 20 power_oid = Ok result ->
     varBinds result = List.app pre ((name, val) :: post) ->
     startswith name power_oid = true ->
     index_of_name name = Ok i ->
     zin i interface_indices = true ->
     as_int val = Ok r ->
     (forall n v, In (n, v) post -> startswith n power_oid = true ->
                  index_of_name n <> Ok i) ->
     exists m s,
       _get_power_data_bulk a interface_indices = Ok m
       /\ zget i m = Some s
       /\ (r <= 0 -> s = "0W")
       /\ (0 < r ->
           exists significand exponent t,
             nearest_binary64 r 1000 significand exponent
             /\ nearest_even (10 * significand) 1 exponent t
             /\ s = one_decimal t ++ "W")
       /\ (0 < r -> r < 2 ^ 47 ->
           exists t, s = one_decimal t ++ "W" /\ Z.abs (100 * t - r) <= 50))
  /\ render_power 15400 = Ok "15.4W"
  /\ render_power 0 = Ok "0W".
Proof.
  split; [|split; reflexivity].
  intros a interface_indices power_oid result pre post name val i r
         Hwin Hres Hvb Hs Hi Hin Hr Hno.
  unfold winning_prefix, power_try in Hwin.
  unfold _get_power_data_bulk, power_try.
  destruct (create_target a 1 0); [|discriminate].
  destruct (power_loop a interface_indices POWER_OID_MAPPING [])
    as [pdf win] eqn:Hloop.
  cbn [snd] in Hwin. subst win. cbn [fst].
  apply power_loop_winner in Hloop.
  destruct Hloop as [result' [pd0 [Hres' [_ Hpage]]]].
  rewrite Hres in Hres'. inversion Hres'; subst result'.
  rewrite Hvb in Hpage.
  destruct (power_page_reading power_oid interface_indices i name val r post
              Hs Hi Hin Hr Hno pre pd0 pdf Hpage) as [s [Hrender Hget]].
  eexists; exists s. split; [reflexivity|]. split.
  { apply fill_na_keeps. exact Hget. }
  apply render_power_cases in Hrender. destruct Hrender as [Hzero Hpos].
  split; [exact Hzero|]. split.
  - intros Hr0. destruct (Hpos Hr0) as [x [Hx Hfmt]].
    pose proof (Z.log2_nonneg r) as Hlog.
    assert (L1000 : Z.log2 1000 = 9) by reflexivity.
    destruct (truediv_nearest_binary64 r 1000 x Hr0) as [Hnear _];
      [lia|lia|exact Hx|].
    destruct (format_1f_nearest_even x) as [t [Ht Htenths]].
    exists (mant x), (expo x), t.
    split; [exact Hnear|]. split; [exact Htenths|].
    rewrite Hfmt, Ht. reflexivity.
  - intros Hr0 Hlt. destruct (Hpos Hr0) as [x [Hx Hfmt]].
    assert (Hlog : 0 <= Z.log2 r < 47).
    { split; [apply Z.log2_nonneg|]. apply Z.log2_lt_pow2; lia. }
    assert (L1000 : Z.log2 1000 = 9) by reflexivity.
    destruct (truediv_format_nearest r 1000 15) as [x' [t [Hx' [Hf Ht]]]];
      try lia.
    rewrite Hx in Hx'. inversion Hx'; subst x'.
    exists t. split; [|lia].
    rewrite Hfmt, Hf. reflexivity.
Qed.

Lemma C8_witness :
  winning_prefix Scenario.powered [1; 2; 3] = Some "1.3.6.1.4.1.9.9.402.1.2.1.7"
  /\ exists m s,
       _get_power_data_bulk Scenario.powered [1; 2; 3] = Ok m
       /\ zget 1 m = Some s
       /\ (15400 <= 0 -> s = "0W")
       /\ (0 < 15400 ->
           exists significand exponent t,
             nearest_binary64 15400 1000 significand exponent
             /\ nearest_even (10 * significand) 1 exponent t
             /\ s = one_decimal t ++ "W")
       /\ (0 < 15400 -> 15400 < 2 ^ 47 ->
           exists t, s = one_decimal t ++ "W" /\ Z.abs (100 * t - 15400) <= 50).
Proof.
  split; [reflexivity|].
  apply (proj1 C8_power_rendering Scenario.powered [1; 2; 3]
           "1.3.6.1.4.1.9.9.402.1.2.1.7"
           (Scenario.response
              [Scenario.row "1.3.6.1.4.1.9.9.402.1.2.1.7" 1 (Scenario.raw_int 15400);
               Scenario.row "1.3.6.1.4.1.9.9.402.1.2.1.7" 2 (Scenario.raw_int 0)])
           []
           [Scenario.row "1.3.6.1.4.1.9.9.402.1.2.1.7" 2 (Scenario.raw_int 0)]
           "1.3.6.1.4.1.9.9.402.1.2.1.7.1" (Scenario.raw_int 15400) 1 15400);
    try reflexivity.
  intros n v [H|[]] _. inversion H; subst. vm_compute. discriminate.
Defined.

(** ** Types of the record fields, and the traffic cell of the console *)

Lemma walk_value_converted (a : Agent) (max_interfaces : Z) (oid_name : string)
    (i : Z) (v : TypedValue) :
  walk_value a max_interfaces oid_name i = Some v ->
  exists val, _convert_snmp_value oid_name val = Ok v.
Proof.
  unfold walk_value, _bulk_fetch_single_oid.
  destruct (sget oid_name OID_MAPPING) as [oid_base|]; [|discriminate].
  cbn [or_empty]. intros H.
  apply walk_loop_rows in H; [|discriminate].
  destruct H as [page [cur [result [name [val [_ [_ [_ [_ Hc]]]]]]]]].
  exists val. exact Hc.
Qed.

Lemma walked_numeric_is_int (a : Agent) (max_interfaces : Z) (oid_name : string)
    (i : Z) (default : Z) :
  sin oid_name numeric_fields = true ->
  is_int (or_default (walk_value a max_interfaces oid_name i) (VInt default)).
Proof.
  intros N. destruct (walk_value a max_interfaces oid_name i) as [v|] eqn:E;
    cbn [or_default]; [|exists default; reflexivity].
  apply walk_value_converted in E. destruct E as [val E].
  rewrite (convert_numeric oid_name val N) in E.
  destruct (as_int val) as [n|e].
  - inversion E. exists n. reflexivity.
  - destruct (is_value_or_type_error e); [|discriminate].
    inversion E. exists 0. reflexivity.
Qed.

Lemma walked_text_is_str (a : Agent) (max_interfaces : Z) (oid_name : string)
    (i : Z) (default : string) :
  sin oid_name numeric_fields = false ->
  is_str (or_default (walk_value a max_interfaces oid_name i) (VStr default)).
Proof.
  intros N. destruct (walk_value a max_interfaces oid_name i) as [v|] eqn:E;
    cbn [or_default]; [|exists default; reflexivity].
  apply walk_value_converted in E. destruct E as [val E].
  destruct (convert_non_numeric oid_name val N) as [s Hs].
  rewrite Hs in E. inversion E. exists s. reflexivity.
Qed.

(** X19. In every record of a successful fetch the two status codes, the two
    byte counters, the speed and the type are integers, and the description
    and the physical address are strings, whatever value objects the device
    returned. *)
Theorem X19_record_field_types (w : SNMPWorker) (a : Agent)
    (recs : list InterfaceRecord) (r : InterfaceRecord) :
  run w a = [success recs; finished] ->
  In r recs ->
  is_int (OpStatus r) /\ is_int (AdminStatus r)
  /\ is_int (InOctets r) /\ is_int (OutOctets r)
  /\ is_int (Speed r) /\ is_int (Type' r)
  /\ is_str (Description r) /\ is_str (PhysAddress r).
Proof.
  intros Hrun Hin. apply run_success_records in Hrun. cbv zeta in Hrun.
  destruct Hrun as [Hc Hrecs].
  set (count := _get_interface_count w a) in *.
  set (agg := _bulk_fetch_interface_data w a count) in *.
  rewrite Hrecs in Hin. apply in_map_iff in Hin.
  destruct Hin as [[i data] [Hr Hin]]. subst r.
  assert (Hnd : NoDup (dict_keys agg)).
  { unfold agg. rewrite (aggregated_keys w a count Hc).
    apply see_all_NoDup. constructor. }
  assert (G : zget i agg = Some data)
    by (apply (dict_In_get Z.eqb Zeqb_eq' i data agg Hnd Hin)).
  assert (F : forall n, In n core_oids -> sget n data = walk_value a count n i).
  { intros n Hn. rewrite <- (aggregated_field w a count n i Hc Hn).
    unfold get_field. fold agg. rewrite G. reflexivity. }
  unfold assemble. cbn [fst snd Description OpStatus AdminStatus
    InOctets OutOctets Speed Type' PhysAddress].
  rewrite !get_default_or_default.
  rewrite !F by (unfold core_oids; cbn [In]; tauto).
  repeat split;
    solve [ apply walked_numeric_is_int; reflexivity
          | apply walked_text_is_str; reflexivity ].
Qed.

Lemma X19_witness :
  run Scenario.worker Scenario.sparse = [success Scenario.sparse_records; finished]
  /\ forall r, In r Scenario.sparse_records -> is_int (InOctets r).
Proof.
  assert (H : run Scenario.worker Scenario.sparse
              = [success Scenario.sparse_records; finished])
    by (vm_compute; reflexivity).
  split; [exact H|].
  intros r Hr.
  exact (proj1 (proj2 (proj2 (X19_record_field_types Scenario.worker
                                Scenario.sparse Scenario.sparse_records r H Hr)))).
Defined.

Lemma format_scaled_nearest (n b k : Z) (unit : string) :
  0 < n -> 0 < b -> 2 <= k ->
  10 * b < 2 ^ (k - 1) ->
  Z.log2 n - Z.log2 b - 52 <= - k ->
  -1074 < Z.log2 n - Z.log2 b - 53 ->
  exists t,
    format_scaled n b unit
    = Ok ((py_str_of_int (t / 10) ++ "." ++ py_str_of_int (t mod 10)) ++ unit)
    /\ 2 * Z.abs (b * t - 10 * n) <= b.
Proof.
  intros Hn Hb Hk HE Hhi Hlo.
  destruct (truediv_format_nearest n b k Hn Hb Hk HE Hhi Hlo)
    as [x [t [Hx [Hf Ht]]]].
  exists t. split; [|exact Ht].
  unfold format_scaled. rewrite Hx. cbn [bind]. rewrite Hf. reflexivity.
Qed.

Lemma truediv_overflow (a b : Z) (x : PyFloat) :
  972 < Z.log2 a - Z.log2 b - 53 -> py_truediv a b <> Ok x.
Proof.
  intros H. unfold py_truediv.
  set (e0 := Z.log2 a - Z.log2 b - 52) in *.
  set (e1 := if floor_scaled a b e0 <? 2 ^ 52 then e0 - 1 else e0).
  assert (He1 : e0 - 1 <= e1)
    by (unfold e1; destruct (floor_scaled a b e0 <? 2 ^ 52); lia).
  destruct (round_scaled a b (Z.max e1 (-1074)) =? 2 ^ 53).
  - destruct (Z.ltb_spec 971 (Z.max e1 (-1074) + 1)); [discriminate|lia].
  - destruct (Z.ltb_spec 971 (Z.max e1 (-1074))); [discriminate|lia].
Qed.

Lemma count_digits_nonneg (s : string) : 0 <= count_digits s.
Proof.
  induction s as [|c s IH]; cbn [count_digits]; [lia|].
  destruct (is_ascii_digit c); lia.
Qed.

Lemma digit_val_range (c : ascii) :
  is_ascii_digit c = true -> 0 <= digit_val c <= 9.
Proof.
  unfold is_ascii_digit, digit_val. intros H.
  apply andb_prop in H. destruct H as [H1 H2].
  apply N.leb_le in H1, H2. lia.
Qed.

Lemma parse_digits_bound (s : string) :
  forall acc b n,
    0 <= acc ->
    parse_digits s acc b = Some n ->
    acc * 10 ^ count_digits s <= n < (acc + 1) * 10 ^ count_digits s.
Proof.
  induction s as [|c s IH]; intros acc b n Hacc; cbn [parse_digits count_digits].
  - destruct b; [|discriminate]. intros H; inversion H; subst.
    change (10 ^ 0) with 1. lia.
  - pose proof (count_digits_nonneg s) as Hk.
    destruct (is_ascii_digit c) eqn:Hd.
    + intros H. pose proof (digit_val_range c Hd) as Hv.
      apply IH in H; [|lia].
      rewrite Z.pow_add_r by lia. change (10 ^ 1) with 10.
      assert (0 < 10 ^ count_digits s) by (apply Z.pow_pos_nonneg; lia).
      nia.
    + destruct (Ascii.eqb c "_"); [|discriminate].
      destruct b; [|discriminate].
      intros H. apply IH in H; [|exact Hacc].
      replace (0 + count_digits s) with (count_digits s) by lia. exact H.
Qed.

Lemma count_digits_rev_aux (s : string) :
  forall acc,
    count_digits (string_rev_aux s acc) = count_digits s + count_digits acc.
Proof.
  induction s as [|c s IH]; intros acc; cbn [string_rev_aux count_digits];
    [lia|].
  rewrite IH. cbn [count_digits]. lia.
Qed.

Lemma count_digits_int_lstrip (s : string) :
  count_digits (int_lstrip s) = count_digits s.
Proof.
  induction s as [|c s IH]; cbn [int_lstrip]; [reflexivity|].
  destruct (is_int_space c) eqn:Hs; [|reflexivity].
  rewrite IH. cbn [count_digits].
  destruct (is_ascii_digit c) eqn:Hd; [|lia].
  apply digit_not_int_space in Hd. rewrite Hs in Hd. discriminate.
Qed.

Lemma count_digits_int_strip (s : string) :
  count_digits (int_strip s) = count_digits s.
Proof.
  unfold int_strip, string_rev.
  rewrite count_digits_rev_aux, count_digits_int_lstrip.
  rewrite count_digits_rev_aux, count_digits_int_lstrip.
  cbn [count_digits]. lia.
Qed.

Lemma py_int_of_str_signs (s : string) :
  py_int_of_str s =
  match int_strip s with
  | String c rest =>
      if Ascii.eqb c "-" then
        match parse_digits rest 0 false with
        | Some n => Ok (- n)
        | None => Raise ValueError
        end
      else if Ascii.eqb c "+" then
        match parse_digits rest 0 false with
        | Some n => Ok n
        | None => Raise ValueError
        end
      else
        match parse_digits (String c rest) 0 false with
        | Some n => Ok n
        | None => Raise ValueError
        end
  | EmptyString => Raise ValueError
  end.
Proof.
  unfold py_int_of_str. destruct (int_strip s) as [|c rest]; [reflexivity|].
  destruct c as [[] [] [] [] [] [] [] []]; reflexivity.
Qed.

Lemma py_int_of_str_bound (s : string) (n : Z) :
  py_int_of_str s = Ok n -> Z.abs n < 10 ^ count_digits s.
Proof.
  rewrite py_int_of_str_signs, <- (count_digits_int_strip s).
  destruct (int_strip s) as [|c rest]; [discriminate|].
  destruct (Ascii.eqb_spec c "-") as [->|Hm];
    [|destruct (Ascii.eqb_spec c "+") as [->|Hp]].
  - destruct (parse_digits rest 0 false) as [m|] eqn:E; [|discriminate].
    intros H; inversion H; subst. apply parse_digits_bound in E; [|lia].
    cbn [count_digits]. change (is_ascii_digit "-") with false. cbv iota.
    replace (0 + count_digits rest) with (count_digits rest) by lia. lia.
  - destruct (parse_digits rest 0 false) as [m|] eqn:E; [|discriminate].
    intros H; inversion H; subst. apply parse_digits_bound in E; [|lia].
    cbn [count_digits]. change (is_ascii_digit "+") with false. cbv iota.
    replace (0 + count_digits rest) with (count_digits rest) by lia. lia.
  - destruct (parse_digits (String c rest) 0 false) as [m|] eqn:E;
      [|discriminate].
    intros H; inversion H; subst. apply parse_digits_bound in E; [|lia]. lia.
Qed.

Lemma format_bytes_within_limit (n : Z) :
  Z.abs n < 10 ^ int_max_str_digits ->
  exists text, _format_bytes (VInt n) = Ok text.
Proof.
  intros H. unfold _format_bytes.
  destruct (format_int_bytes n) as [text|e]; [eauto|].
  unfold format_bytes_handler, py_str_of_int_limited.
  destruct (Z.leb_spec (10 ^ int_max_str_digits) (Z.abs n)); [lia|].
  cbn [bind]. eauto.
Qed.

(** X20. Under the interpreter's limit of 4300 decimal digits,
    [_format_bytes] shows an integer below 1024, negative ones included, as
    "<n> B". From 1024 up to [2^48] it shows the count divided by the power
    of 1024 of its unit, rounded to the nearest tenth: the text is
    "<t div 10>.<t mod 10>" followed by the unit, with
    [2 |divisor * t - 10 n| <= divisor]. It returns a text for every integer
    of at most 4300 digits, and raises [ValueError], out of its own
    exception handler, for every integer of more digits. It never raises on
    a string: a string that [int()] rejects, or that holds more than 4300
    digits, is shown as ["0 B"], any other as the integer it denotes. *)
Theorem X20_format_bytes :
  (forall n, n < 1024 -> - 10 ^ int_max_str_digits < n ->
     _format_bytes (VInt n) = Ok (py_str_of_int n ++ " B"))
  /\ (forall n, 1024 <= n -> n < 2 ^ 48 ->
        exists t,
          _format_bytes (VInt n)
          = Ok ((py_str_of_int (t / 10) ++ "." ++ py_str_of_int (t mod 10))
                ++ snd (byte_unit n))
          /\ 2 * Z.abs (fst (byte_unit n) * t - 10 * n) <= fst (byte_unit n))
  /\ (forall n, Z.abs n < 10 ^ int_max_str_digits ->
        exists text, _format_bytes (VInt n) = Ok text)
  /\ (forall n, 10 ^ int_max_str_digits <= Z.abs n ->
        _format_bytes (VInt n) = Raise ValueError)
  /\ (forall s, exists text, _format_bytes (VStr s) = Ok text)
  /\ (forall s e, py_int_of_str s = Raise e ->
        _format_bytes (VStr s) = Ok "0 B")
  /\ (forall s, int_max_str_digits < count_digits s ->
        _format_bytes (VStr s) = Ok "0 B")
  /\ (forall s n, py_int_of_str s = Ok n ->
        count_digits s <= int_max_str_digits ->
        _format_bytes (VStr s) = _format_bytes (VInt n)).
Proof.
  split; [|split; [|split; [|split; [|split; [|split; [|split]]]]]].
  - intros n Hn Hlo. unfold _format_bytes, format_int_bytes.
    destruct (Z.ltb_spec n 1024) as [_|H]; [|lia].
    unfold py_str_of_int_limited.
    destruct (Z.leb_spec (10 ^ int_max_str_digits) (Z.abs n)) as [H|_];
      [|reflexivity].
    exfalso.
    assert (1024 < 10 ^ int_max_str_digits) by (vm_compute; reflexivity).
    lia.
  - intros n Hlo Hhi. unfold _format_bytes, format_int_bytes, byte_unit.
    destruct (Z.ltb_spec n 1024) as [H0|_]; [lia|].
    assert (Hlog : 0 <= Z.log2 n < 48).
    { split; [apply Z.log2_nonneg|]. apply Z.log2_lt_pow2; lia. }
    assert (Hs : forall b k unit,
               0 < b -> 2 <= k -> 10 * b < 2 ^ (k - 1) ->
               Z.log2 n - Z.log2 b - 52 <= - k ->
               -1074 < Z.log2 n - Z.log2 b - 53 ->
               exists t,
                 match format_scaled n b unit with
                 | Ok text => Ok text
                 | Raise _ => format_bytes_handler n
                 end
                 = Ok ((py_str_of_int (t / 10) ++ "."
                        ++ py_str_of_int (t mod 10)) ++ unit)
                 /\ 2 * Z.abs (b * t - 10 * n) <= b).
    { intros b k unit Hb Hk HE Hhi' Hlo'.
      destruct (format_scaled_nearest n b k unit) as [t [Ht Hn]]; try lia.
      exists t. rewrite Ht. split; [reflexivity|exact Hn]. }
    destruct (Z.ltb_spec n (1024 ^ 2)) as [H1|H1];
      [|destruct (Z.ltb_spec n (1024 ^ 3)) as [H2|H2];
        [|destruct (Z.ltb_spec n (1024 ^ 4)) as [H3|H3]]];
      cbn [fst snd];
      [ apply (Hs 1024 15)
      | apply (Hs (1024 ^ 2) 25)
      | apply (Hs (1024 ^ 3) 35)
      | apply (Hs (1024 ^ 4) 45) ];
      first [ lia | reflexivity
            | change (Z.log2 1024) with 10; lia
            | change (Z.log2 (1024 ^ 2)) with 20; lia
            | change (Z.log2 (1024 ^ 3)) with 30; lia
            | change (Z.log2 (1024 ^ 4)) with 40; lia ].
  - exact format_bytes_within_limit.
  - intros n Hbig.
    assert (Hh : format_bytes_handler n = Raise ValueError).
    { unfold format_bytes_handler, py_str_of_int_limited.
      destruct (Z.leb_spec (10 ^ int_max_str_digits) (Z.abs n)); [|lia].
      reflexivity. }
    assert (Hp : 2 ^ 1100 <= 10 ^ int_max_str_digits)
      by (vm_compute; discriminate).
    unfold _format_bytes.
    destruct (format_int_bytes n) as [text|e] eqn:E; [exfalso|exact Hh].
    unfold format_int_bytes in E.
    destruct (Z.ltb_spec n 1024) as [H0|H0].
    + unfold py_str_of_int_limited in E.
      destruct (Z.leb_spec (10 ^ int_max_str_digits) (Z.abs n)); [|lia].
      discriminate.
    + assert (Hn : 2 ^ 1100 <= n) by lia.
      assert (Hl : 1100 <= Z.log2 n).
      { apply Z.log2_le_pow2; lia. }
      assert (Hno : forall b unit, Z.log2 b <= 40 ->
                      format_scaled n b unit <> Ok text).
      { intros b unit Hb F. unfold format_scaled in F.
        destruct (py_truediv n b) as [x|] eqn:T; [|discriminate].
        apply truediv_overflow in T; [exact T|lia]. }
      repeat match type of E with
             | (if ?c then _ else _) = _ => destruct c
             end;
        (eapply Hno; [|exact E]); vm_compute; discriminate.
  - intros s. unfold _format_bytes, py_int_of_str_limited.
    destruct (py_int_of_str s) as [n|e] eqn:E; cbn [bind]; [|eauto].
    destruct (Z.ltb_spec int_max_str_digits (count_digits s)) as [H|H]; [eauto|].
    apply format_bytes_within_limit.
    apply py_int_of_str_bound in E.
    assert (10 ^ count_digits s <= 10 ^ int_max_str_digits)
      by (apply Z.pow_le_mono_r; [lia|exact H]).
    lia.
  - intros s e H. unfold _format_bytes, py_int_of_str_limited. rewrite H.
    reflexivity.
  - intros s H. unfold _format_bytes, py_int_of_str_limited.
    destruct (py_int_of_str s) as [n|e]; cbn [bind]; [|reflexivity].
    destruct (Z.ltb_spec int_max_str_digits (count_digits s)); [reflexivity|lia].
  - intros s n H Hc. unfold _format_bytes, py_int_of_str_limited. rewrite H.
    cbn [bind].
    destruct (Z.ltb_spec int_max_str_digits (count_digits s)); [lia|reflexivity].
Qed.

Lemma X20_witness :
  1024 <= 1536 /\ 1536 < 2 ^ 48
  /\ _format_bytes (VInt 1536) = Ok "1.5 KB"
  /\ exists t,
       _format_bytes (VInt 1536)
       = Ok ((py_str_of_int (t / 10) ++ "." ++ py_str_of_int (t mod 10))
             ++ snd (byte_unit 1536))
       /\ 2 * Z.abs (fst (byte_unit 1536) * t - 10 * 1536) <= fst (byte_unit 1536).
Proof.
  split; [lia|]. split; [reflexivity|]. split; [reflexivity|].
  apply (proj1 (proj2 X20_format_bytes) 1536); [lia|reflexivity].
Defined.

(** ** What the fallback count walk counts *)





